(** * STR mutation signatures: the VCF extractor and the matrix builder

    A shallow embedding of [src/str_mut_signatures/extract.py] and
    [src/str_mut_signatures/matrix_builder.py], with the properties of the
    specification stated and proved over it.

    Conventions of the embedding.
    - A Python [str] is a [string]; a character is a code point in
      U+0000..U+00FF (the 8-bit [ascii] read as Latin-1), so the character
      tables below ([str.isnumeric], [str.isspace]) are the Unicode tables
      restricted to that range.
    - A Python exception is a value of [PyExc]; a function that may raise
      returns a [result].
    - [dict] objects are [gmap string string].
    - A data frame is the list of its rows; [DataFrame.apply(..., axis=1)]
      is the row-wise map, [melt] the concatenation of the per-column event
      lists, [dropna] a filter.  A frame without rows is the empty list; on
      it [apply] hands back a copy of the frame, which the assignment to the
      four derived columns refuses.
    - Floating-point cells are left out: a cell is a string, an integer or
      missing.
    - Integers are unbounded ([Z]).  CPython's default limit of 4300
      digits on conversions between [int] and [str] is part of [int(str)]
      ([Py.int_of_str]).  For [str(int)] the labels are computed with the
      numeral [Py.str_of_Z]: that the conversion raises past the limit is
      not part of the builder's model, and [Py.str_fits] is the condition
      under which it returns. *)

From Stdlib Require Import String Ascii ZArith NArith QArith List DecimalString DecimalPos Lia.
From stdpp Require Import base option list sorting gmap strings.

Local Open Scope string_scope.
Local Open Scope list_scope.

(** ** Exceptions and results *)

Inductive PyExc : Type :=
  | ValueError (msg : string)
  | TypeError (msg : string)
  | IndexError (msg : string)
  | OtherException (msg : string).

Inductive result (A : Type) : Type :=
  | Ok (a : A)
  | Raise (e : PyExc).
Arguments Ok {A} a.
Arguments Raise {A} e.

(** Sequencing: an exception of the first computation propagates. *)
#[global] Instance result_ret : MRet result := λ A a, Ok a.
#[global] Instance result_bind : MBind result := λ A B k r,
  match r with
  | Ok a => k a
  | Raise e => Raise e
  end.

(** ** Python built-ins used by the two modules *)

Module Py.

Definition code (c : ascii) : N := N_of_ascii c.

Definition in_range (lo hi : N) (c : ascii) : bool :=
  ((lo <=? code c) && (code c <=? hi))%N.

Definition is_digit (c : ascii) : bool := in_range 48 57 c.

(** [str.isnumeric] on one character: the digits 0-9, the superscripts
    U+00B2, U+00B3, U+00B9 and the fractions U+00BC, U+00BD, U+00BE are the
    code points below U+0100 with a Unicode numeric value. *)
Definition char_isnumeric (c : ascii) : bool :=
  is_digit c || in_range 178 179 c || in_range 185 185 c || in_range 188 190 c.

(** [str.isspace] on one character (also what [str.strip()] removes). *)
Definition char_isspace (c : ascii) : bool :=
  in_range 9 13 c || in_range 28 32 c || in_range 133 133 c || in_range 160 160 c.

(** The white space [int(str)] skips around the number. *)
Definition char_int_space (c : ascii) : bool :=
  in_range 9 13 c || in_range 32 32 c || in_range 133 133 c || in_range 160 160 c.

Definition chars (s : string) : list ascii := list_ascii_of_string s.

(** [s.isnumeric()]: at least one character, all of them numeric. *)
Definition isnumeric (s : string) : bool :=
  match s with
  | EmptyString => false
  | String _ _ => forallb char_isnumeric (chars s)
  end.

(** A non-empty string of the decimal digits 0-9. *)
Definition all_decimal_digits (s : string) : bool :=
  match s with
  | EmptyString => false
  | String _ _ => forallb is_digit (chars s)
  end.

Definition is_ascii_str (s : string) : bool :=
  forallb (fun c => (code c <? 128)%N) (chars s).

Fixpoint lstrip_by (sp : ascii → bool) (s : string) : string :=
  match s with
  | EmptyString => EmptyString
  | String c s' => if sp c then lstrip_by sp s' else s
  end.

Fixpoint rstrip_by (sp : ascii → bool) (s : string) : string :=
  match s with
  | EmptyString => EmptyString
  | String c s' =>
      match rstrip_by sp s' with
      | EmptyString => if sp c then EmptyString else String c EmptyString
      | r => String c r
      end
  end.

(** [s.strip()] *)
Definition strip (s : string) : string :=
  rstrip_by char_isspace (lstrip_by char_isspace s).

(** [s.split(sep)] for a one-character separator: never the empty list. *)
Fixpoint split (sep : ascii) (s : string) : list string :=
  match s with
  | EmptyString => [EmptyString]
  | String c s' =>
      if Ascii.eqb c sep then EmptyString :: split sep s'
      else match split sep s' with
           | [] => [String c EmptyString]
           | w :: ws => String c w :: ws
           end
  end.

(** [sep in s] together with [s.split(sep, 1)]: [None] when [sep] does not
    occur, otherwise the text before and after its first occurrence. *)
Fixpoint split_once (sep : ascii) (s : string) : option (string * string) :=
  match s with
  | EmptyString => None
  | String c s' =>
      if Ascii.eqb c sep then Some (EmptyString, s')
      else match split_once sep s' with
           | Some (k, v) => Some (String c k, v)
           | None => None
           end
  end.

(** [s.startswith(p)] *)
Definition startswith (s p : string) : bool := String.prefix p s.

(** [s.endswith(p)] *)
Definition endswith (s p : string) : bool :=
  (String.length p <=? String.length s)%nat
  && String.eqb (String.substring (String.length s - String.length p) (String.length p) s) p.

(** [s.replace(old, "")] for a non-empty [old]: occurrences are removed from
    left to right, without overlap; [skip] counts the characters of a match
    still to be dropped. *)
Fixpoint remove_aux (old s : string) (skip : nat) : string :=
  match s with
  | EmptyString => EmptyString
  | String c s' =>
      match skip with
      | S k => remove_aux old s' k
      | O => if String.prefix old s
             then remove_aux old s' (String.length old - 1)
             else String c (remove_aux old s' 0)
      end
  end.

Definition remove_all (old s : string) : string := remove_aux old s 0.

(** [os.path.basename(path)]: the text after the last slash. *)
Definition basename (path : string) : string :=
  List.last (split "/" path) EmptyString.

(** [os.path.join(dir, file)] for a relative [file]. *)
Definition path_join (dir file : string) : string :=
  if String.eqb dir EmptyString then file
  else if endswith dir "/" then dir +:+ file
  else dir +:+ "/" +:+ file.

(** [str.isprintable] on one character. *)
Definition char_isprintable (c : ascii) : bool :=
  in_range 32 126 c || in_range 161 172 c || in_range 174 255 c.

Definition hex_digit (n : N) : ascii :=
  nth (N.to_nat n) (chars "0123456789abcdef") "0"%char.

(** One character of [repr(s)] inside the quotes [quote]. *)
Definition repr_char (quote c : ascii) : string :=
  if Ascii.eqb c quote || Ascii.eqb c "092" then String "092" (String c EmptyString)
  else if Ascii.eqb c "009" then String "092" "t"
  else if Ascii.eqb c "010" then String "092" "n"
  else if Ascii.eqb c "013" then String "092" "r"
  else if char_isprintable c then String c EmptyString
  else String "092"
         (String "x" (String (hex_digit (code c / 16))
                        (String (hex_digit (code c mod 16)) EmptyString))).

(** [repr(s)]: single quotes, unless [s] has a single quote and no double
    quote. *)
Definition repr_str (s : string) : string :=
  let quote : ascii :=
    if existsb (Ascii.eqb "039") (chars s) && negb (existsb (Ascii.eqb "034") (chars s))
    then "034"%char else "039"%char in
  String quote
    (String.concat EmptyString (map (repr_char quote) (chars s)) +:+ String quote EmptyString).

(** [repr(l)] for a list of strings, which is also [f"{l}"]. *)
Definition repr_list (l : list string) : string :=
  "[" +:+ String.concat ", " (map repr_str l) +:+ "]".

(** The default of [sys.get_int_max_str_digits()]. *)
Definition max_str_digits : N := 4300.

(** The numeral of an integer: [str(n)] where it returns. *)
Definition str_of_Z (z : Z) : string := NilZero.string_of_int (Z.to_int z).

(** [str(z)] returns: [z] has at most 4300 decimal digits.  Past that the
    conversion raises ValueError. *)
Definition str_fits (z : Z) : Prop := (Z.abs z < 10 ^ Z.of_N max_str_digits)%Z.

Definition str_of_nat (n : nat) : string := str_of_Z (Z.of_nat n).

(** The digits of [int(str)]: decimal digits, single underscores allowed
    between two digits.  [after_digit] tells whether the previous character
    was a digit. *)
Fixpoint int_digits (s : string) (acc : Z) (after_digit : bool) : option Z :=
  match s with
  | EmptyString => if after_digit then Some acc else None
  | String c s' =>
      if is_digit c then
        int_digits s' (10 * acc + (Z.of_N (code c) - 48)) true
      else if Ascii.eqb c "_" then
        if after_digit then int_digits s' acc false else None
      else None
  end.

Fixpoint count_digits (s : string) : N :=
  match s with
  | EmptyString => 0
  | String c s' => (if is_digit c then 1 else 0) + count_digits s'
  end.

(** The unsigned part of [int(s)]: more than 4300 digits are refused, like
    a malformed numeral. *)
Definition int_literal (d : string) : option Z :=
  if (count_digits d <=? max_str_digits)%N then int_digits d 0 false else None.

(** [int(s)] for a string: white space around, an optional sign, digits;
    [None] stands for the [ValueError]. *)
Definition int_of_str (s : string) : option Z :=
  match rstrip_by char_int_space (lstrip_by char_int_space s) with
  | String "+" d => int_literal d
  | String "-" d => Z.opp <$> int_literal d
  | d => int_literal d
  end.

(** [sorted([a, b])] on integers *)
Definition sorted2 (a b : Z) : Z * Z :=
  if (a <=? b)%Z then (a, b) else (b, a).

End Py.

(** *** The cells of a data frame *)

Inductive PyVal : Type :=
  | VStr (s : string)
  | VInt (z : Z)
  | VNA.

(** [pd.isna(v)] *)
Definition isna (v : PyVal) : bool :=
  match v with
  | VNA => true
  | _ => false
  end.

(** [int(v)]; [None] stands for the exception ([ValueError] on a string
    that is no integer, [TypeError] on a missing value). *)
Definition py_int (v : PyVal) : option Z :=
  match v with
  | VStr s => Py.int_of_str s
  | VInt z => Some z
  | VNA => None
  end.

(** [str(v)] for a present value *)
Definition py_str (v : PyVal) : string :=
  match v with
  | VStr s => s
  | VInt z => Py.str_of_Z z
  | VNA => "<NA>"
  end.

(** ** The VCF extractor ([extract.py]) *)

Module Extractor.

Definition tab : ascii := "009"%char.

(** [d.get(k, dflt)] *)
Definition dict_get (d : gmap string string) (k dflt : string) : string :=
  default dflt (d !! k).

(** [dict(zip(keys, values))]: a later duplicate key overrides an earlier one. *)
Definition dict_zip (keys values : list string) : gmap string string :=
  foldl (λ d kv, <[kv.1 := kv.2]> d) ∅ (zip keys values).

Definition parse_info (info_field : string) : gmap string string :=
  foldl (λ info item,
           match Py.split_once "=" item with
           | Some (key, val) => <[key := val]> info
           | None => info
           end)
        ∅ (Py.split ";" info_field).

Definition parse_repcn (repcn_str : string) : string * string :=
  match Py.split "," repcn_str with
  | [a; b] => (a, b)
  | [a] => (a, a)
  | _ => (".", ".")
  end.

(** The closure [get_repcn] of [process_vcf_to_rows], with the captured
    [format_fields] as an argument. *)
Definition get_repcn (format_fields : list string) (sample_str : string) : string * string :=
  let values := Py.split ":" sample_str in
  let fmt := dict_zip format_fields values in
  parse_repcn (dict_get fmt "REPCN" ".,.").

(** One emitted row (a Mutation Record). *)
Record MutationRecord : Type := {
  sample : string;
  tmp_id : string;
  tumor_allele_a : string;
  tumor_allele_b : string;
  normal_allele_a : string;
  normal_allele_b : string;
  end_ : string;
  period : string;
  ref : string;
  motif : string }.

(** The local variables of [process_vcf_to_rows] that live across lines. *)
Record ScanState : Type := {
  rows : list MutationRecord;
  filter_not_passed_count : nat;
  written_variants : nat;
  header_cols : option (list string);
  normal_idx : option nat;
  tumor_idx : option nat;
  format_fields : option (list string) }.

Definition init_state : ScanState :=
  {| rows := []; filter_not_passed_count := 0; written_variants := 0;
     header_cols := None; normal_idx := None; tumor_idx := None;
     format_fields := None |}.

Definition set_header (st : ScanState) (h : list string) : ScanState :=
  {| rows := rows st; filter_not_passed_count := filter_not_passed_count st;
     written_variants := written_variants st;
     header_cols := Some h; normal_idx := Some 9; tumor_idx := Some 10;
     format_fields := format_fields st |}.

Definition count_rejected (st : ScanState) : ScanState :=
  {| rows := rows st; filter_not_passed_count := filter_not_passed_count st + 1;
     written_variants := written_variants st;
     header_cols := header_cols st; normal_idx := normal_idx st;
     tumor_idx := tumor_idx st; format_fields := format_fields st |}.

Definition set_format (st : ScanState) (ff : list string) : ScanState :=
  {| rows := rows st; filter_not_passed_count := filter_not_passed_count st;
     written_variants := written_variants st;
     header_cols := header_cols st; normal_idx := normal_idx st;
     tumor_idx := tumor_idx st; format_fields := Some ff |}.

Definition append_row (st : ScanState) (r : MutationRecord) : ScanState :=
  {| rows := rows st ++ [r]; filter_not_passed_count := filter_not_passed_count st;
     written_variants := written_variants st + 1;
     header_cols := header_cols st; normal_idx := normal_idx st;
     tumor_idx := tumor_idx st; format_fields := format_fields st |}.

(** [cols[idx]] where [idx] may still be [None]. *)
Definition getitem (cols : list string) (idx : option nat) : result string :=
  match idx with
  | None => Raise (TypeError "list indices must be integers or slices, not NoneType")
  | Some i =>
      match cols !! i with
      | Some x => Ok x
      | None => Raise (IndexError "list index out of range")
      end
  end.

(** The message of the [ValueError] raised for a call without its sample
    columns. *)
Definition no_sample_columns (path : string) : PyExc :=
  ValueError ("VCF " +:+ path
              +:+ " does not contain expected normal/tumor sample columns.").

(** The message of the [ValueError] raised for a header with fewer than two
    sample columns. *)
Definition too_few_samples (sample_cols : list string) : PyExc :=
  ValueError ("Expected at least 2 samples (normal, tumor) in VCF: "
              +:+ Py.repr_list sample_cols).

(** The [try: ... except IndexError: raise ValueError(...)] block. *)
Definition sample_columns (path : string) (st : ScanState) (cols : list string)
    : result (string * string) :=
  match (normal_sample ← getitem cols (normal_idx st);
         tumor_sample ← getitem cols (tumor_idx st);
         Ok (normal_sample, tumor_sample)) with
  | Raise (IndexError _) => Raise (no_sample_columns path)
  | r => r
  end.

Definition col (cols : list string) (i : nat) : string := nth i cols "".

(** The part of the loop body after the FILTER and PERFECT tests: only a
    line that gets here looks at the FORMAT column. *)
Definition process_call (path sample_name : string) (st : ScanState)
    (cols : list string) (info : gmap string string) : result ScanState :=
  let chrom := col cols 0 in
  let pos := col cols 1 in
  let tmp_id := chrom +:+ "_" +:+ pos in
  let end_ := dict_get info "END" "" in
  let period := dict_get info "PERIOD" "" in
  let ref := dict_get info "REF" "" in
  let motif := dict_get info "RU" "" in
  let st := match format_fields st with
            | None => set_format st (Py.split ":" (col cols 8))
            | Some _ => st
            end in
  let fmt := default [] (format_fields st) in
  '(normal_sample, tumor_sample) ← sample_columns path st cols;
  let '(n_a, n_b) := get_repcn fmt normal_sample in
  let '(t_a, t_b) := get_repcn fmt tumor_sample in
  if negb (Py.isnumeric n_a && Py.isnumeric n_b && Py.isnumeric t_a && Py.isnumeric t_b)
  then Ok st
  else Ok (append_row st
             {| sample := sample_name; tmp_id := tmp_id;
                tumor_allele_a := t_a; tumor_allele_b := t_b;
                normal_allele_a := n_a; normal_allele_b := n_b;
                end_ := end_; period := period; ref := ref; motif := motif |}).

(** A data line, already split into columns. *)
Definition process_cols (path sample_name : string) (st : ScanState)
    (cols : list string) : result ScanState :=
  if (length cols <? 10)%nat then Ok st
  else if negb (String.eqb (col cols 6) "PASS") then Ok (count_rejected st)
  else
    let info := parse_info (col cols 7) in
    if String.eqb (dict_get info "PERFECT" "") "FALSE" then Ok st
    else process_call path sample_name st cols info.

(** The body of [for line in f]; [path] and [sample_name] are the two
    variables of [process_vcf_to_rows] it reads and never assigns. *)
Definition process_line (path sample_name : string) (st : ScanState)
    (line : string) : result ScanState :=
  if Py.startswith line "#CHROM" then
    let header_cols := Py.split tab (Py.strip line) in
    let sample_cols := drop 9 header_cols in
    if (length sample_cols <? 2)%nat
    then Raise (too_few_samples sample_cols)
    else Ok (set_header st header_cols)
  else if Py.startswith line "#" then Ok st
  else process_cols path sample_name st (Py.split tab (Py.strip line)).

Fixpoint scan_lines (path sample_name : string) (st : ScanState)
    (lines : list string) : result ScanState :=
  match lines with
  | [] => Ok st
  | line :: rest =>
      st' ← process_line path sample_name st line;
      scan_lines path sample_name st' rest
  end.

(** What reading a file yields: its lines, and the exception that opening
    or reading it raises after them, if any. *)
Record FileData : Type := {
  file_lines : list string;
  file_error : option PyExc }.

(** [filter_not_passed_count / denom * 100], as an exact rational (the
    rounding of the binary floating-point division is not modelled). *)
Definition filter_not_passed_pt (rejected denom : nat) : Q :=
  inject_Z (Z.of_nat rejected) / inject_Z (Z.of_nat denom) * 100.

(** The summary printed after the loop: the count and the percentage, or
    nothing. *)
Definition filter_summary (st : ScanState) : option (nat * Q) :=
  let denom := written_variants st + filter_not_passed_count st in
  if (0 <? denom)%nat
  then Some (filter_not_passed_count st,
             filter_not_passed_pt (filter_not_passed_count st) denom)
  else None.

Definition sample_name_of (path : string) : string :=
  Py.remove_all ".vcf.gz" (Py.remove_all ".vcf" (Py.basename path)).

(** [process_vcf_to_rows(path)]: the rows, and the summary it printed. *)
Definition process_vcf_to_rows (path : string) (f : FileData)
    : result (list MutationRecord * option (nat * Q)) :=
  st ← scan_lines path (sample_name_of path) init_state (file_lines f);
  match file_error f with
  | Some e => Raise e
  | None => Ok (rows st, filter_summary st)
  end.

(** What [parse_vcf_files] prints. *)
Inductive LogLine : Type :=
  | Processing (file : string)
  | FilterSummary (file : string) (count : nat) (pt : Q)
  | Skipping (file : string) (e : PyExc).

Definition recognized (file : string) : bool :=
  Py.endswith file ".vcf" || Py.endswith file ".vcf.gz".

(** One iteration of [for file in os.listdir(input_dir)]. *)
Definition parse_one (input_dir : string) (acc : list MutationRecord * list LogLine)
    (entry : string * FileData) : list MutationRecord * list LogLine :=
  let '(all_rows, log) := acc in
  let '(file, data) := entry in
  if recognized file then
    let full_path := Py.path_join input_dir file in
    let log := log ++ [Processing file] in
    match process_vcf_to_rows full_path data with
    | Ok (rows, summary) =>
        (all_rows ++ rows,
         log ++ match summary with
                | Some (n, pt) => [FilterSummary (Py.basename full_path) n pt]
                | None => []
                end)
    | Raise e => (all_rows, log ++ [Skipping file e])
    end
  else (all_rows, log).

(** [parse_vcf_files(input_dir)], on the listing of the directory: the rows
    of the returned table and the printed lines. *)
Definition parse_vcf_files (input_dir : string) (listing : list (string * FileData))
    : list MutationRecord * list LogLine :=
  foldl (parse_one input_dir) ([], []) listing.

(** *** Notions used to state the properties of the extractor *)

Definition alleles (r : MutationRecord) : list string :=
  [tumor_allele_a r; tumor_allele_b r; normal_allele_a r; normal_allele_b r].

(** The test of line 108 on four strings. *)
Definition all_numeric (l : list string) : bool := forallb Py.isnumeric l.

(** The conditions under which a line gets past the tests of the loop body
    to the FORMAT handling: a data line of at least 10 columns whose FILTER
    is PASS and whose INFO does not say PERFECT=FALSE. *)
Definition reaches_format (line : string) : bool :=
  let cols := Py.split tab (Py.strip line) in
  negb (Py.startswith line "#")
  && (10 <=? length cols)%nat
  && String.eqb (col cols 6) "PASS"
  && negb (String.eqb (dict_get (parse_info (col cols 7)) "PERFECT" "") "FALSE").

(** The key list in the 9th column of a line. *)
Definition format_of_line (line : string) : list string :=
  Py.split ":" (col (Py.split tab (Py.strip line)) 8).

(** A data line counted as rejected by FILTER. *)
Definition rejected_by_filter (line : string) : bool :=
  let cols := Py.split tab (Py.strip line) in
  negb (Py.startswith line "#")
  && (10 <=? length cols)%nat
  && negb (String.eqb (col cols 6) "PASS").

(** The first line of a file that is neither the header nor a comment. *)
Definition first_data_line (lines : list string) : option string :=
  List.find (λ l, negb (Py.startswith l "#")) lines.

(** The rows a directory listing contributes to the table, file by file:
    those of the recognized files that parse, nothing for the others. *)
Definition rows_of_entry (input_dir : string) (entry : string * FileData)
    : list MutationRecord :=
  if recognized entry.1 then
    match process_vcf_to_rows (Py.path_join input_dir entry.1) entry.2 with
    | Ok (rows, _) => rows
    | Raise _ => []
    end
  else [].

End Extractor.

(** ** The matrix builder ([matrix_builder.py]) *)

Module MatrixBuilder.

(** One row of [mutations_data], after the column checks: the columns the
    builder reads.  [motif] is the cell of [motif_col], the column named
    motif or else RU.  The sample identifier is a string. *)
Record Row : Type := {
  sample : string;
  tumor_allele_a : PyVal;
  tumor_allele_b : PyVal;
  normal_allele_a : PyVal;
  normal_allele_b : PyVal;
  motif : PyVal }.

(** The four derived cells of a row; [None] is [pd.NA]. *)
Record Changes : Type := {
  change_a : option Z;
  change_b : option Z;
  ref_a : option Z;
  ref_b : option Z }.

Definition missing_changes : Changes :=
  {| change_a := None; change_b := None; ref_a := None; ref_b := None |}.

Definition compute_allele_changes (row : Row) : Changes :=
  match py_int (tumor_allele_a row), py_int (tumor_allele_b row),
        py_int (normal_allele_a row), py_int (normal_allele_b row) with
  | Some ta, Some tb, Some na, Some nb =>
      let tumor := Py.sorted2 ta tb in
      let normal := Py.sorted2 na nb in
      {| change_a := Some (tumor.1 - normal.1)%Z;
         change_b := Some (tumor.2 - normal.2)%Z;
         ref_a := Some normal.1;
         ref_b := Some normal.2 |}
  | _, _, _, _ => missing_changes
  end.

(** The three switches; [ru] is [None], ["length"] or ["ru"]. *)
Record Config : Type := {
  ru : option string;
  ref_length : bool;
  change : bool }.

Definition ru_valid (r : option string) : bool :=
  match r with
  | None => true
  | Some s => String.eqb s "length" || String.eqb s "ru"
  end.

(** The motif component of a label. *)
Definition motif_parts (r : option string) (motif : PyVal) : list string :=
  match r with
  | Some s =>
      if String.eqb s "length"
      then ["LEN" +:+ Py.str_of_nat (String.length (py_str motif))]
      else if String.eqb s "ru" then [py_str motif]
      else []
  | None => []
  end.

(** [f"{sign}{d}"] *)
Definition signed (d : Z) : string :=
  (if (0 <? d)%Z then "+" else "") +:+ Py.str_of_Z d.

(** [make_feature(motif, ref, delta)]; [None] is [pd.NA]. *)
Definition make_feature (cfg : Config) (motif : PyVal) (ref delta : option Z)
    : option string :=
  if isna motif then None
  else
    let parts := motif_parts (ru cfg) motif in
    parts ← (if ref_length cfg
             then r ← ref; Some (parts ++ [Py.str_of_Z r])
             else Some parts);
    parts ← (if change cfg
             then d ← delta;
                  if (d =? 0)%Z then None else Some (parts ++ [signed d])
             else Some parts);
    match parts with
    | [] => None
    | _ => Some (String.concat "_" parts)
    end.

Definition mutation_type_a (cfg : Config) (row : Row) : option string :=
  let ch := compute_allele_changes row in
  make_feature cfg (motif row) (ref_a ch) (change_a ch).

Definition mutation_type_b (cfg : Config) (row : Row) : option string :=
  let ch := compute_allele_changes row in
  make_feature cfg (motif row) (ref_b ch) (change_b ch).

(** [pd.melt]: the [(sample, mutation_type)] pairs, all the allele-A cells
    first, then all the allele-B cells. *)
Definition melt (cfg : Config) (df : list Row) : list (string * option string) :=
  ((λ row, (sample row, mutation_type_a cfg row)) <$> df)
  ++ ((λ row, (sample row, mutation_type_b cfg row)) <$> df).

(** [dropna(subset=["mutation_type"])] *)
Definition dropna (l : list (string * option string)) : list (string * string) :=
  omap (λ e, match e.2 with
             | Some label => Some (e.1, label)
             | None => None
             end) l.

(** The allele-level events: [df_long] after [dropna]. *)
Definition df_long (cfg : Config) (df : list Row) : list (string * string) :=
  dropna (melt cfg df).

(** The events one row contributes. *)
Definition row_events (cfg : Config) (row : Row) : list (string * string) :=
  df_long cfg [row].

(** The sorted distinct values of an axis.  [String.le] is Python's order
    on strings: the first differing code point decides, a proper prefix
    comes first. *)
Definition sorted_unique (l : list string) : list string :=
  merge_sort String.le (remove_dups l).

(** [groupby(["sample", "mutation_type"]).size()] at one key. *)
Definition count_events (ev : list (string * string)) (s label : string) : nat :=
  length (filter (λ e, e = (s, label)) ev).

(** The count matrix: row labels, column labels, one list of cells per row. *)
Record Matrix : Type := {
  index : list string;
  columns : list string;
  cells : list (list nat) }.

(** [pd.DataFrame()] *)
Definition empty_matrix : Matrix := {| index := []; columns := []; cells := [] |}.

(** [groupby(...).size().unstack(fill_value=0)], sorted along both axes. *)
Definition count_matrix (ev : list (string * string)) : Matrix :=
  let idx := sorted_unique ev.*1 in
  let cols := sorted_unique ev.*2 in
  {| index := idx;
     columns := cols;
     cells := (λ s, (λ label, count_events ev s label) <$> cols) <$> idx |}.

(** The cell of a matrix at a row label and a column label; an absent label
    reads as 0. *)
Definition cell (m : Matrix) (s label : string) : nat :=
  match list_find (λ x, x = s) (index m), list_find (λ x, x = label) (columns m) with
  | Some (i, _), Some (j, _) => default 0 (cells m !! i ≫= (.!! j))
  | _, _ => 0
  end.

(** What the assignment of the four derived columns raises on a frame
    without rows: there [df.apply(compute_allele_changes, axis=1)] is a copy
    of the frame, with all its columns, and not a frame of four (the text
    is pandas's). *)
Definition no_rows : PyExc := ValueError "Columns must be same length as key".

Definition build_mutation_matrix (df : list Row) (cfg : Config) : result Matrix :=
  if negb (ru_valid (ru cfg))
  then Raise (ValueError "ru must be one of: None, 'length', 'ru'.")
  else
    match df with
    | [] => Raise no_rows
    | _ :: _ =>
        match df_long cfg df with
        | [] => Ok empty_matrix
        | ev => Ok (count_matrix ev)
        end
    end.

(** *** Notions used to state the properties of the builder *)

(** The two allele slots of a row: the reference length and the change of
    slot A, then of slot B. *)
Definition slots (row : Row) : list (option Z * option Z) :=
  let ch := compute_allele_changes row in
  [(ref_a ch, change_a ch); (ref_b ch, change_b ch)].

(** The components of a label that come before the change: the motif
    component and the reference length. *)
Definition base_parts (cfg : Config) (motif : PyVal) (ref : option Z) : list string :=
  motif_parts (ru cfg) motif
  ++ (if ref_length cfg
      then match ref with
           | Some r => [Py.str_of_Z r]
           | None => []
           end
      else []).

(** The table [parse_vcf_files] returns, as the builder reads it. *)
Definition of_record (r : Extractor.MutationRecord) : Row :=
  {| sample := Extractor.sample r;
     tumor_allele_a := VStr (Extractor.tumor_allele_a r);
     tumor_allele_b := VStr (Extractor.tumor_allele_b r);
     normal_allele_a := VStr (Extractor.normal_allele_a r);
     normal_allele_b := VStr (Extractor.normal_allele_b r);
     motif := VStr (Extractor.motif r) |}.

End MatrixBuilder.

(** ** Concrete inputs used in the examples below *)

Module Samples.
Import Extractor.

(** A line of tab-separated columns, with its newline. *)
Definition tsv (cols : list string) : string :=
  String.concat (String tab "") cols +:+ String "010" "".

Definition header : string :=
  tsv ["#CHROM"; "POS"; "ID"; "REF"; "ALT"; "QUAL"; "FILTER"; "INFO"; "FORMAT";
       "NORMAL"; "TUMOR"].

Definition info_AT : string := "END=120;PERIOD=2;REF=10;RU=AT".

(** A clean call: normal 8,10 and tumor 8,11. *)
Definition call_8_11 : string :=
  tsv ["chr1"; "100"; "."; "A"; "."; "."; "PASS"; info_AT; "GT:REPCN";
       "0/1:8,10"; "0/1:8,11"].

(** A call rejected by FILTER, whose FORMAT lists the keys the other way
    round. *)
Definition lowq_other_format : string :=
  tsv ["chr1"; "50"; "."; "A"; "."; "."; "LowQual"; info_AT; "REPCN:GT";
       "8,10:0/1"; "8,11:0/1"].

(** U+00BD, VULGAR FRACTION ONE HALF. *)
Definition one_half : string := String "189" "".

(** A call whose tumor repeat count is the single character U+00BD. *)
Definition call_half : string :=
  tsv ["chr1"; "300"; "."; "A"; "."; "."; "PASS"; info_AT; "GT:REPCN";
       "0/1:8"; "0/1:" +:+ one_half].

(** A call with a missing tumor repeat count. *)
Definition call_missing : string :=
  tsv ["chr1"; "400"; "."; "A"; "."; "."; "PASS"; info_AT; "GT:REPCN";
       "0/1:8,10"; "0/1:."].

(** A header with a single sample column. *)
Definition short_header : string :=
  tsv ["#CHROM"; "POS"; "ID"; "REF"; "ALT"; "QUAL"; "FILTER"; "INFO"; "FORMAT";
       "NORMAL"].

Definition file_of (lines : list string) : FileData :=
  {| file_lines := lines; file_error := None |}.

Definition record_8_11 : MutationRecord :=
  {| sample := "s1"; tmp_id := "chr1_100";
     tumor_allele_a := "8"; tumor_allele_b := "11";
     normal_allele_a := "8"; normal_allele_b := "10";
     end_ := "120"; period := "2"; ref := "10"; motif := "AT" |}.

Definition record_half : MutationRecord :=
  {| sample := "s1"; tmp_id := "chr1_300";
     tumor_allele_a := one_half; tumor_allele_b := one_half;
     normal_allele_a := "8"; normal_allele_b := "8";
     end_ := "120"; period := "2"; ref := "10"; motif := "AT" |}.

Definition state_after_header : ScanState := set_header init_state [].

(** The record of the concrete scenario, as a row of the table: motif AT,
    normal alleles 8 and 10, tumor alleles 8 and 11. *)
Definition row_AT (s : string) : MatrixBuilder.Row :=
  {| MatrixBuilder.sample := s;
     MatrixBuilder.tumor_allele_a := VStr "8";
     MatrixBuilder.tumor_allele_b := VStr "11";
     MatrixBuilder.normal_allele_a := VStr "8";
     MatrixBuilder.normal_allele_b := VStr "10";
     MatrixBuilder.motif := VStr "AT" |}.

(** The same alleles, each pair written in descending order. *)
Definition row_AT_swapped (s : string) : MatrixBuilder.Row :=
  {| MatrixBuilder.sample := s;
     MatrixBuilder.tumor_allele_a := VStr "11";
     MatrixBuilder.tumor_allele_b := VStr "8";
     MatrixBuilder.normal_allele_a := VStr "10";
     MatrixBuilder.normal_allele_b := VStr "8";
     MatrixBuilder.motif := VStr "AT" |}.

(** Tumor and normal alleles equal as pairs: 10 and 12. *)
Definition row_unchanged (s : string) : MatrixBuilder.Row :=
  {| MatrixBuilder.sample := s;
     MatrixBuilder.tumor_allele_a := VStr "12";
     MatrixBuilder.tumor_allele_b := VStr "10";
     MatrixBuilder.normal_allele_a := VStr "10";
     MatrixBuilder.normal_allele_b := VStr "12";
     MatrixBuilder.motif := VStr "A" |}.

(** A row whose motif cell is missing. *)
Definition row_no_motif (s : string) : MatrixBuilder.Row :=
  {| MatrixBuilder.sample := s;
     MatrixBuilder.tumor_allele_a := VStr "8";
     MatrixBuilder.tumor_allele_b := VStr "11";
     MatrixBuilder.normal_allele_a := VStr "8";
     MatrixBuilder.normal_allele_b := VStr "10";
     MatrixBuilder.motif := VNA |}.

Definition cfg_default : MatrixBuilder.Config :=
  {| MatrixBuilder.ru := Some "length"; MatrixBuilder.ref_length := true;
     MatrixBuilder.change := true |}.

Definition cfg_ref_only : MatrixBuilder.Config :=
  {| MatrixBuilder.ru := None; MatrixBuilder.ref_length := true;
     MatrixBuilder.change := false |}.

Definition cfg_all_off : MatrixBuilder.Config :=
  {| MatrixBuilder.ru := None; MatrixBuilder.ref_length := false;
     MatrixBuilder.change := false |}.

End Samples.

(** ** Further notions used to state properties of the extractor *)

Module ExtractorNotions.
Import Extractor.

(** [s.count(sep)] for a one-character [sep]. *)
Fixpoint occurrences (sep : ascii) (s : string) : nat :=
  match s with
  | EmptyString => 0
  | String c s' => (if Ascii.eqb c sep then 1 else 0) + occurrences sep s'
  end.

(** The key of an INFO item, when it has one. *)
Definition item_key (item : string) : option string :=
  fst <$> Py.split_once "=" item.

(** The [#CHROM] line. *)
Definition is_header (line : string) : bool := Py.startswith line "#CHROM".

(** A header line with fewer than two sample columns. *)
Definition short_header (line : string) : bool :=
  is_header line && (length (Py.split tab (Py.strip line)) <? 11)%nat.

(** A line the loop body passes over without any effect: a comment, a line
    of fewer than 10 columns, or a call whose INFO says PERFECT=FALSE. *)
Definition inert (line : string) : bool :=
  negb (is_header line) && negb (reaches_format line)
  && negb (rejected_by_filter line).

(** A line that gets past the tests with exactly 10 columns: the normal
    sample column is there, the tumor one is not. *)
Definition lacks_tumor_column (line : string) : bool :=
  reaches_format line && (length (Py.split tab (Py.strip line)) =? 10)%nat.

(** The exception the scan of a file raises, if any, read off the path,
    the kind of each line and the sample columns of a short header: [seen]
    tells whether a header line came before. *)
Fixpoint first_error (path : string) (seen : bool) (lines : list string) : option PyExc :=
  match lines with
  | [] => None
  | line :: rest =>
      if is_header line then
        if short_header line
        then Some (too_few_samples (drop 9 (Py.split tab (Py.strip line))))
        else first_error path true rest
      else if reaches_format line then
        if negb seen
        then Some (TypeError "list indices must be integers or slices, not NoneType")
        else if lacks_tumor_column line
        then Some (no_sample_columns path)
        else first_error path seen rest
      else first_error path seen rest
  end.

(** The sample columns are unset, or set as the header branch sets them. *)
Definition header_seen (st : ScanState) : bool :=
  match normal_idx st, tumor_idx st with
  | Some 9, Some 10 => true
  | _, _ => false
  end.

(** The state a call line runs with: the key ordering is set if need be. *)
Definition with_format (st : ScanState) (cols : list string) : ScanState :=
  match format_fields st with
  | None => set_format st (Py.split ":" (col cols 8))
  | Some _ => st
  end.

(** Where a record comes from: a line that got past the tests, whose
    position and INFO values the record carries under the sample name. *)
Definition record_source (name line : string) (r : MutationRecord) : Prop :=
  let cols := Py.split tab (Py.strip line) in
  let info := parse_info (col cols 7) in
  reaches_format line = true
  ∧ sample r = name
  ∧ tmp_id r = col cols 0 +:+ "_" +:+ col cols 1
  ∧ end_ r = dict_get info "END" ""
  ∧ period r = dict_get info "PERIOD" ""
  ∧ ref r = dict_get info "REF" ""
  ∧ motif r = dict_get info "RU" "".

Definition is_skipping (l : LogLine) : bool :=
  match l with
  | Skipping _ _ => true
  | _ => false
  end.

Definition is_processing (l : LogLine) : bool :=
  match l with
  | Processing _ => true
  | _ => false
  end.

(** A recognized file of the listing on which [process_vcf_to_rows] raises. *)
Definition fails (input_dir : string) (entry : string * FileData) : bool :=
  recognized entry.1
  && match process_vcf_to_rows (Py.path_join input_dir entry.1) entry.2 with
     | Ok _ => false
     | Raise _ => true
     end.

(** The files a log announces, in the order of the log. *)
Definition announced (log : list LogLine) : list string :=
  omap (λ l, match l with
             | Processing file => Some file
             | _ => None
             end) log.

(** The skip reports of a log, in the order of the log: the file and the
    exception. *)
Definition reported (log : list LogLine) : list (string * PyExc) :=
  omap (λ l, match l with
             | Skipping file e => Some (file, e)
             | _ => None
             end) log.

(** The failure of an entry of the listing, if it is a recognized file on
    which [process_vcf_to_rows] raises. *)
Definition failure (input_dir : string) (entry : string * FileData)
    : option (string * PyExc) :=
  if recognized entry.1 then
    match process_vcf_to_rows (Py.path_join input_dir entry.1) entry.2 with
    | Ok _ => None
    | Raise e => Some (entry.1, e)
    end
  else None.

(** What is printed about one entry of the listing. *)
Definition log_of_entry (input_dir : string) (entry : string * FileData) : list LogLine :=
  if recognized entry.1 then
    Processing entry.1
    :: match process_vcf_to_rows (Py.path_join input_dir entry.1) entry.2 with
       | Ok (_, Some (n, pt)) =>
           [FilterSummary (Py.basename (Py.path_join input_dir entry.1)) n pt]
       | Ok (_, None) => []
       | Raise e => [Skipping entry.1 e]
       end
  else [].

Definition indices_consistent (st : ScanState) : Prop :=
  (normal_idx st = None ∧ tumor_idx st = None)
  ∨ (normal_idx st = Some 9 ∧ tumor_idx st = Some 10).

End ExtractorNotions.

(** ** The earlier extraction script ([compare_strs_opt.py])

    The script at the root of the repository that the extractor grew out
    of.  Its [parse_info] and [parse_repcn] are those of [extract.py], word
    for word, and are not repeated.  The csv writer is the list of the rows
    handed to it; ZeroDivisionError and UnboundLocalError are values of
    [OtherException]; the line the script prints about the FILTER column
    is left out. *)

Module Legacy.

(** The variables that the header branch binds: until then they are
    unbound, and reading one raises UnboundLocalError. *)
Record Bound : Type := {
  tumor_idx : nat;
  normal_idx : nat;
  format_fields : option (list string) }.

(** The local variables of [process_vcf] that live across lines, and the
    rows handed to the writer so far. *)
Record ScanState : Type := {
  written : list Extractor.MutationRecord;
  filter_not_passed_count : nat;
  written_variants : nat;
  bound : option Bound }.

Definition init_state : ScanState :=
  {| written := []; filter_not_passed_count := 0; written_variants := 0;
     bound := None |}.

(** [l.index(x)]: the position of the first element equal to [x]. *)
Fixpoint index_of (x : string) (l : list string) : option nat :=
  match l with
  | [] => None
  | y :: rest => if String.eqb y x then Some 0 else S <$> index_of x rest
  end.

Definition unbound_local : PyExc :=
  OtherException
    "UnboundLocalError: cannot access local variable 'format_fields' where it is not associated with a value".

Definition zero_division : PyExc :=
  OtherException "ZeroDivisionError: division by zero".

Definition index_error : PyExc := IndexError "list index out of range".

(** [cols[i]] *)
Definition getitem (cols : list string) (i : nat) : result string :=
  match cols !! i with
  | Some x => Ok x
  | None => Raise index_error
  end.

(** The message of the [ValueError] raised for a header that does not
    name the tumor sample. *)
Definition not_in_header (tumor_sample_id : string) (sample_cols : list string) : PyExc :=
  ValueError ("Tumor sample " +:+ tumor_sample_id +:+ " not found in VCF header: "
              +:+ Py.repr_list sample_cols).

(** The header branch. *)
Definition process_header (tumor_sample_id : string) (st : ScanState)
    (line : string) : result ScanState :=
  let header_cols := Py.split Extractor.tab (Py.strip line) in
  let sample_cols := drop 9 header_cols in
  if (length sample_cols <? 2)%nat
  then Raise (ValueError ("Expected at least 2 samples in VCF: "
                          +:+ Py.repr_list sample_cols))
  else
    match index_of tumor_sample_id sample_cols with
    | None => Raise (not_in_header tumor_sample_id sample_cols)
    | Some i =>
        let tumor_idx := i + 9 in
        let normal_idx := if (tumor_idx =? 10)%nat then 9 else 10 in
        Ok {| written := written st;
              filter_not_passed_count := filter_not_passed_count st;
              written_variants := written_variants st;
              bound := Some {| tumor_idx := tumor_idx; normal_idx := normal_idx;
                               format_fields := None |} |}
    end.

(** The part of the loop body after the FILTER and PERFECT tests. *)
Definition process_call (sample_name : string) (st : ScanState)
    (cols : list string) (info : gmap string string) : result ScanState :=
  let chrom := Extractor.col cols 0 in
  let pos := Extractor.col cols 1 in
  let tmp_id := chrom +:+ "_" +:+ pos in
  let end_ := Extractor.dict_get info "END" "" in
  let period := Extractor.dict_get info "PERIOD" "" in
  let ref := Extractor.dict_get info "REF" "" in
  let motif := Extractor.dict_get info "RU" "" in
  match bound st with
  | None => Raise unbound_local
  | Some b =>
      let fmt := match format_fields b with
                 | None => Py.split ":" (Extractor.col cols 8)
                 | Some ff => ff
                 end in
      tumor_sample ← getitem cols (tumor_idx b);
      normal_sample ← getitem cols (normal_idx b);
      let '(t_a, t_b) := Extractor.get_repcn fmt tumor_sample in
      let '(n_a, n_b) := Extractor.get_repcn fmt normal_sample in
      let b' := {| tumor_idx := tumor_idx b; normal_idx := normal_idx b;
                   format_fields := Some fmt |} in
      if negb (Py.isnumeric t_a && Py.isnumeric t_b && Py.isnumeric n_a && Py.isnumeric n_b)
      then Ok {| written := written st;
                 filter_not_passed_count := filter_not_passed_count st;
                 written_variants := written_variants st;
                 bound := Some b' |}
      else Ok {| written :=
                   written st
                   ++ [{| Extractor.sample := sample_name;
                          Extractor.tmp_id := tmp_id;
                          Extractor.tumor_allele_a := t_a;
                          Extractor.tumor_allele_b := t_b;
                          Extractor.normal_allele_a := n_a;
                          Extractor.normal_allele_b := n_b;
                          Extractor.end_ := end_;
                          Extractor.period := period;
                          Extractor.ref := ref;
                          Extractor.motif := motif |}];
                 filter_not_passed_count := filter_not_passed_count st;
                 written_variants := written_variants st + 1;
                 bound := Some b' |}
  end.

(** The body of [for line in f]. *)
Definition process_line (sample_name tumor_sample_id : string) (st : ScanState)
    (line : string) : result ScanState :=
  if Py.startswith line "#CHROM" then process_header tumor_sample_id st line
  else if Py.startswith line "#" then Ok st
  else
    let cols := Py.split Extractor.tab (Py.strip line) in
    if (length cols <? 10)%nat then Ok st
    else if negb (String.eqb (Extractor.col cols 6) "PASS")
    then Ok {| written := written st;
               filter_not_passed_count := filter_not_passed_count st + 1;
               written_variants := written_variants st;
               bound := bound st |}
    else
      let info := Extractor.parse_info (Extractor.col cols 7) in
      if String.eqb (Extractor.dict_get info "PERFECT" "") "FALSE" then Ok st
      else process_call sample_name st cols info.

(** The loop: the state when it ends, and the exception that ended it, if
    any.  The rows written before an exception stay written. *)
Fixpoint scan_lines (sample_name tumor_sample_id : string) (st : ScanState)
    (lines : list string) : ScanState * option PyExc :=
  match lines with
  | [] => (st, None)
  | line :: rest =>
      match process_line sample_name tumor_sample_id st line with
      | Ok st' => scan_lines sample_name tumor_sample_id st' rest
      | Raise e => (st, Some e)
      end
  end.

(** [process_vcf(path, writer)]: the rows it hands to the writer, and the
    exception it raises, if any. *)
Definition process_vcf (path : string) (f : Extractor.FileData)
    : list Extractor.MutationRecord * option PyExc :=
  let sample_name := Extractor.sample_name_of path in
  match Py.split "." (Py.basename path) !! 2 with
  | None => ([], Some index_error)
  | Some tumor_sample_id =>
      let '(st, err) :=
        scan_lines sample_name tumor_sample_id init_state (Extractor.file_lines f) in
      match err with
      | Some e => (written st, Some e)
      | None =>
          match Extractor.file_error f with
          | Some e => (written st, Some e)
          | None =>
              if (written_variants st + filter_not_passed_count st =? 0)%nat
              then (written st, Some zero_division)
              else (written st, None)
          end
      end
  end.

(** One iteration of the loop of [main] over the directory. *)
Definition main_one (input_dir : string)
    (acc : list Extractor.MutationRecord * list Extractor.LogLine)
    (entry : string * Extractor.FileData)
    : list Extractor.MutationRecord * list Extractor.LogLine :=
  let '(csv_rows, log) := acc in
  let '(file, data) := entry in
  if Py.endswith file ".vcf" then
    let full_path := Py.path_join input_dir file in
    let '(rows, err) := process_vcf full_path data in
    (csv_rows ++ rows,
     log ++ [Extractor.Processing file]
         ++ match err with
            | Some e => [Extractor.Skipping file e]
            | None => []
            end)
  else (csv_rows, log).

(** [main()], on the listing of its input directory: the rows of the CSV
    file it writes (after the header row) and the lines it prints about the
    files. *)
Definition main (input_dir : string) (listing : list (string * Extractor.FileData))
    : list Extractor.MutationRecord * list Extractor.LogLine :=
  foldl (main_one input_dir) ([], []) listing.

(** The record with the tumor and the normal alleles exchanged. *)
Definition exchange (r : Extractor.MutationRecord) : Extractor.MutationRecord :=
  {| Extractor.sample := Extractor.sample r;
     Extractor.tmp_id := Extractor.tmp_id r;
     Extractor.tumor_allele_a := Extractor.normal_allele_a r;
     Extractor.tumor_allele_b := Extractor.normal_allele_b r;
     Extractor.normal_allele_a := Extractor.tumor_allele_a r;
     Extractor.normal_allele_b := Extractor.tumor_allele_b r;
     Extractor.end_ := Extractor.end_ r;
     Extractor.period := Extractor.period r;
     Extractor.ref := Extractor.ref r;
     Extractor.motif := Extractor.motif r |}.

End Legacy.

(** ** Notions used to relate the two extraction paths *)

Module LegacyNotions.
Import Extractor ExtractorNotions.

(** The sample columns of a header line. *)
Definition sample_cols (line : string) : list string :=
  drop 9 (Py.split tab (Py.strip line)).

(** The file name has a third dot-separated part, [id]. *)
Definition tumor_id_of (path id : string) : Prop :=
  Py.split "." (Py.basename path) !! 2 = Some id.

(** How the earlier script ends once its loop is over: its division has no
    guard, so it raises exactly where the package prints no summary. *)
Definition division_outcome (summary : option (nat * Q)) : option PyExc :=
  match summary with
  | None => Some Legacy.zero_division
  | Some _ => None
  end.

(** The two scans before a header line: same counters, nothing bound. *)
Definition agree_unbound (c : ScanState) (l : Legacy.ScanState) : Prop :=
  rows c = [] ∧ Legacy.written l = []
  ∧ written_variants c = 0 ∧ Legacy.written_variants l = 0
  ∧ Legacy.filter_not_passed_count l = filter_not_passed_count c
  ∧ normal_idx c = None ∧ format_fields c = None
  ∧ Legacy.bound l = None.

(** The two scans after the header line: the earlier script reads the
    tumor sample at column [t] and the normal one at column [n], and its
    rows are those of the package seen through [g]. *)
Definition agree_bound (g : MutationRecord → MutationRecord) (t n : nat)
    (c : ScanState) (l : Legacy.ScanState) : Prop :=
  Legacy.written l = g <$> rows c
  ∧ Legacy.written_variants l = written_variants c
  ∧ Legacy.filter_not_passed_count l = filter_not_passed_count c
  ∧ normal_idx c = Some 9 ∧ tumor_idx c = Some 10
  ∧ Legacy.bound l = Some {| Legacy.tumor_idx := t; Legacy.normal_idx := n;
                             Legacy.format_fields := format_fields c |}.

(** A line that changes nothing in the earlier script: an inert line, or a
    header line that names the tumor sample among at least two samples. *)
Definition quiet (id line : string) : Prop :=
  inert line = true
  ∨ (is_header line = true ∧ short_header line = false
     ∧ is_Some (Legacy.index_of id (sample_cols line))).

End LegacyNotions.

Module LegacySamples.
Import Samples.

(** A header that lists the tumor sample first. *)
Definition header_tumor_first : string :=
  tsv ["#CHROM"; "POS"; "ID"; "REF"; "ALT"; "QUAL"; "FILTER"; "INFO"; "FORMAT";
       "TUMOR"; "NORMAL"].

(** A call whose missing tumor column makes both scans raise. *)
Definition call_ten_columns : string :=
  tsv ["chr1"; "500"; "."; "A"; "."; "."; "PASS"; info_AT; "GT:REPCN"; "0/1:8,10"].

(** The record of [call_8_11] in the file [a.b.TUMOR.vcf]. *)
Definition record_8_11 : Extractor.MutationRecord :=
  {| Extractor.sample := "a.b.TUMOR"; Extractor.tmp_id := "chr1_100";
     Extractor.tumor_allele_a := "8"; Extractor.tumor_allele_b := "11";
     Extractor.normal_allele_a := "8"; Extractor.normal_allele_b := "10";
     Extractor.end_ := "120"; Extractor.period := "2"; Extractor.ref := "10";
     Extractor.motif := "AT" |}.

End LegacySamples.

(** ** The checks at the head of [build_mutation_matrix] *)

Module FrameChecks.
Import MatrixBuilder.

(** The columns of the table that [parse_vcf_files] returns. *)
Definition table_columns : list string :=
  ["sample"; "tmp_id"; "tumor_allele_a"; "tumor_allele_b";
   "normal_allele_a"; "normal_allele_b"; "end"; "period"; "ref"; "motif"].

Definition required_cols : list string :=
  ["sample"; "normal_allele_a"; "normal_allele_b"; "tumor_allele_a"; "tumor_allele_b"].

(** [required_cols - set(mutations_data.columns)] *)
Definition missing (columns : list string) : list string :=
  List.filter (λ c, negb (bool_decide (c ∈ columns))) required_cols.

(** The choice of the motif column. *)
Definition choose_motif_col (columns : list string) : result string :=
  if bool_decide ("motif" ∈ columns) then Ok "motif"
  else if bool_decide ("RU" ∈ columns) then Ok "RU"
  else Raise (ValueError "mutations_data must contain 'motif' or 'RU' column for repeat unit.").

(** The checks on the columns of the frame and on [ru], in the order of
    the source; the result is the name of the motif column.  (The message
    of the first error also lists the missing columns.) *)
Definition check_frame (columns : list string) (r : option string) : result string :=
  match missing columns with
  | _ :: _ => Raise (ValueError "mutations_data is missing required columns")
  | [] =>
      motif_col ← choose_motif_col columns;
      if negb (ru_valid r)
      then Raise (ValueError "ru must be one of: None, 'length', 'ru'.")
      else Ok motif_col
  end.

End FrameChecks.

(** ** Further notions used to state properties of the builder *)

Module MatrixBuilderNotions.
Import MatrixBuilder.

(** The conversions to [str] that [make_feature] can make for a row all
    return: the motif when it is an integer, the reference lengths and the
    changes of the two slots have at most 4300 digits. *)
Definition row_fits (row : Row) : Prop :=
  match motif row with
  | VInt z => Py.str_fits z
  | _ => True
  end
  ∧ Forall (λ slot : option Z * option Z,
              from_option Py.str_fits True slot.1
              ∧ from_option Py.str_fits True slot.2)
           (slots row).

(** A decimal numeral with an optional sign in front. *)
Definition is_signed_numeral (s : string) : bool :=
  match s with
  | String c d =>
      if Ascii.eqb c "+" || Ascii.eqb c "-" then Py.all_decimal_digits d
      else Py.all_decimal_digits s
  | EmptyString => false
  end.

(** The components of the label of an allele slot that come after the
    motif: the reference length and the change, when they are switched on
    and present. *)
Definition number_parts (cfg : Config) (slot : option Z * option Z) : list string :=
  (if ref_length cfg then from_option (λ r, [Py.str_of_Z r]) [] slot.1 else [])
  ++ (if change cfg then from_option (λ d, [signed d]) [] slot.2 else []).

End MatrixBuilderNotions.

(** * Properties *)

(** ** The built-ins on small inputs *)

Example int_of_str_examples :
  map Py.int_of_str [" 12 "; "1_0"; "+5"; "-3"; "010"; "1__0"; "_1"; ""; "0x10"; "8"]
  = [Some 12%Z; Some 10%Z; Some 5%Z; Some (-3)%Z; Some 10%Z; None; None; None; None; Some 8%Z].
Proof. reflexivity. Qed.

Example int_of_str_latin1 :
  map Py.int_of_str [String "160" "5"; String "028" "1"; String "178" ""; String "189" ""]
  = [Some 5%Z; None; None; None]
  ∧ map Py.isnumeric ["8"; ""; "."; "0/1"; "-3"; String "178" ""; String "189" ""]
    = [true; false; false; false; false; true; true].
Proof. split; reflexivity. Qed.

Example str_of_Z_examples :
  map Py.str_of_Z [0%Z; 7%Z; (-3)%Z; 120%Z] = ["0"; "7"; "-3"; "120"].
Proof. reflexivity. Qed.

Example split_examples :
  Py.split ";" "" = [""] ∧ Py.split "," "5,6" = ["5"; "6"] ∧ Py.split "," "7" = ["7"]
  ∧ Py.split_once "=" "a=b=c" = Some ("a", "b=c")
  ∧ Py.remove_all ".vcf.gz" (Py.remove_all ".vcf" "a.vcf.gz") = "a.gz"
  ∧ Py.strip (String "009" "x y ") = "x y"
  ∧ Py.basename "dir/sub/a.vcf" = "a.vcf"
  ∧ Py.endswith "a.vcf.gz" ".vcf.gz" = true.
Proof. repeat split; reflexivity. Qed.

(** The limit of 4300 digits on [int(str)]: leading zeros count, the sign
    does not. *)
Example int_of_str_limit :
  Py.int_of_str (String.concat "" (repeat "9" 4300)) = Some (10 ^ 4300 - 1)%Z
  ∧ Py.int_of_str (String.concat "" (repeat "9" 4301)) = None
  ∧ Py.int_of_str (String.concat "" (repeat "0" 4301)) = None
  ∧ Py.int_of_str ("-" +:+ String.concat "" (repeat "9" 4300)) = Some (1 - 10 ^ 4300)%Z.
Proof. vm_compute. repeat split; reflexivity. Qed.

Example repr_examples :
  Py.repr_list [] = "[]"
  ∧ Py.repr_list ["NORMAL"] = "['NORMAL']"
  ∧ Py.repr_list ["NORMAL"; "TUMOR"] = "['NORMAL', 'TUMOR']"
  ∧ Py.repr_str "it's" = String "034" ("it's" +:+ String "034" "")
  ∧ Py.repr_str (String "009" "a\b") = "'\ta\\b'"
  ∧ Py.repr_str (String "160" (String "233" "")) = "'\xa0" +:+ String "233" "'".
Proof. repeat split; reflexivity. Qed.

(** ** Properties of the extractor *)

Module ExtractorProps.
Import Extractor.

Lemma in_range_spec lo hi c :
  Py.in_range lo hi c = true ↔ (lo ≤ Py.code c ∧ Py.code c ≤ hi)%N.
Proof.
  unfold Py.in_range. rewrite andb_true_iff, !N.leb_le. tauto.
Qed.

(** Below U+0080 the numeric characters are the ten digits. *)
Lemma ascii_numeric_is_digit c :
  Py.char_isnumeric c = true → (Py.code c <? 128)%N = true → Py.is_digit c = true.
Proof.
  unfold Py.char_isnumeric, Py.is_digit.
  rewrite !orb_true_iff, N.ltb_lt, !in_range_spec. lia.
Qed.

Lemma digit_is_numeric c : Py.is_digit c = true → Py.char_isnumeric c = true.
Proof. unfold Py.char_isnumeric. intros ->. reflexivity. Qed.

Lemma isnumeric_ascii_decimal s :
  Py.isnumeric s = true → Py.is_ascii_str s = true → Py.all_decimal_digits s = true.
Proof.
  destruct s as [|c s]; [done|].
  unfold Py.isnumeric, Py.all_decimal_digits, Py.is_ascii_str.
  generalize (Py.chars (String c s)) as l.
  induction l as [|x l IH]; simpl; [done|].
  rewrite !andb_true_iff. intros [Hx Hl] [Ax Al].
  split; [by apply ascii_numeric_is_digit | by apply IH].
Qed.

Lemma decimal_is_numeric s : Py.all_decimal_digits s = true → Py.isnumeric s = true.
Proof.
  destruct s as [|c s]; [done|].
  unfold Py.isnumeric, Py.all_decimal_digits.
  generalize (Py.chars (String c s)) as l.
  induction l as [|x l IH]; simpl; [done|].
  rewrite !andb_true_iff. intros [Hx Hl].
  split; [by apply digit_is_numeric | by apply IH].
Qed.

(** What one pass through the tail of the loop body does to the state. *)
Lemma process_call_spec {path} name st cols info st' :
  process_call path name st cols info = Ok st' →
  ∃ ns ts,
    let fmt := match format_fields st with
               | None => Py.split ":" (col cols 8)
               | Some ff => ff
               end in
    let n := get_repcn fmt ns in
    let t := get_repcn fmt ts in
    getitem cols (normal_idx st) = Ok ns ∧ getitem cols (tumor_idx st) = Ok ts
    ∧ format_fields st' = Some fmt
    ∧ filter_not_passed_count st' = filter_not_passed_count st
    ∧ normal_idx st' = normal_idx st ∧ tumor_idx st' = tumor_idx st
    ∧ if all_numeric [n.1; n.2; t.1; t.2]
      then ∃ r, rows st' = rows st ++ [r]
                ∧ written_variants st' = written_variants st + 1
                ∧ alleles r = [t.1; t.2; n.1; n.2]
      else rows st' = rows st ∧ written_variants st' = written_variants st.
Proof.
  unfold process_call, sample_columns.
  set (st1 := match format_fields st with
              | None => set_format st (Py.split ":" (col cols 8))
              | Some _ => st
              end).
  assert (Hfmt : format_fields st1 = Some (match format_fields st with
               | None => Py.split ":" (col cols 8)
               | Some ff => ff
               end)).
  { subst st1. destruct (format_fields st) eqn:E; simpl; [done|done]. }
  assert (Hsame : rows st1 = rows st ∧ written_variants st1 = written_variants st
                  ∧ filter_not_passed_count st1 = filter_not_passed_count st
                  ∧ normal_idx st1 = normal_idx st ∧ tumor_idx st1 = tumor_idx st).
  { subst st1. destruct (format_fields st); simpl; done. }
  destruct Hsame as (Hr & Hw & Hf & Hn & Ht).
  rewrite Hfmt, Hn, Ht. simpl default.
  destruct (getitem cols (normal_idx st)) as [ns|e] eqn:En; simpl;
    [|destruct e; discriminate].
  destruct (getitem cols (tumor_idx st)) as [ts|e] eqn:Et; simpl;
    [|destruct e; discriminate].
  set (fmt := match format_fields st with
              | None => Py.split ":" (col cols 8)
              | Some ff => ff
              end).
  destruct (get_repcn fmt ns) as [n_a n_b] eqn:Hgn.
  destruct (get_repcn fmt ts) as [t_a t_b] eqn:Hgt.
  intros H. exists ns, ts. simpl. rewrite Hgn, Hgt. simpl.
  split; [done|]. split; [done|].
  unfold all_numeric. simpl. rewrite andb_true_r.
  rewrite <- !andb_assoc in H.
  destruct (Py.isnumeric n_a && (Py.isnumeric n_b && (Py.isnumeric t_a && Py.isnumeric t_b))) eqn:Hnum;
    simpl in H; inversion H; subst st'; simpl.
  - rewrite Hfmt, Hf, Hn, Ht, Hr, Hw. repeat split; try done.
    eexists. repeat split; try done.
  - rewrite Hfmt, Hf, Hn, Ht, Hr, Hw. done.
Qed.

Lemma startswith_header_comment line :
  Py.startswith line "#CHROM" = true → Py.startswith line "#" = true.
Proof.
  unfold Py.startswith. destruct line as [|c line]; cbn [String.prefix]; [done|].
  destruct (ascii_dec "#" c); [intros _; by destruct line|done].
Qed.

(** The branches of the loop body. *)
Lemma process_line_cases {path} name st line st' :
  process_line path name st line = Ok st' →
  let cols := Py.split tab (Py.strip line) in
  (Py.startswith line "#" = true ∧ reaches_format line = false
   ∧ rejected_by_filter line = false
   ∧ (st' = st ∨ ∃ h, st' = set_header st h))
  ∨ (reaches_format line = false ∧ rejected_by_filter line = false ∧ st' = st)
  ∨ (reaches_format line = false ∧ rejected_by_filter line = true
     ∧ st' = count_rejected st)
  ∨ (reaches_format line = true ∧ rejected_by_filter line = false
     ∧ process_call path name st cols (parse_info (col cols 7)) = Ok st').
Proof.
  unfold process_line, process_cols, reaches_format, rejected_by_filter.
  destruct (Py.startswith line "#CHROM") eqn:Hh.
  { apply startswith_header_comment in Hh. rewrite Hh. cbn [negb andb].
    destruct (_ <? 2)%nat; [done|]. intros [= <-].
    left. repeat split; eauto. }
  destruct (Py.startswith line "#") eqn:Hc; cbn [negb andb].
  { intros [= <-]. left. repeat split; eauto. }
  set (cols := Py.split tab (Py.strip line)).
  destruct (length cols <? 10)%nat eqn:Hlen.
  { apply Nat.ltb_lt in Hlen.
    assert ((10 <=? length cols)%nat = false) as -> by (apply Nat.leb_gt; lia).
    cbn [negb andb]. intros [= <-]. right. left. done. }
  apply Nat.ltb_ge in Hlen.
  assert ((10 <=? length cols)%nat = true) as -> by (by apply Nat.leb_le).
  cbn [negb andb].
  destruct (String.eqb (col cols 6) "PASS") eqn:Hpass; cbn [negb andb].
  2:{ intros [= <-]. right. right. left. done. }
  destruct (String.eqb (dict_get (parse_info (col cols 7)) "PERFECT" "") "FALSE") eqn:Hp; cbn [negb andb].
  { intros [= <-]. right. left. done. }
  intros H. right. right. right. done.
Qed.

(** A line adds at most one row, and only a row whose four allele strings
    pass [isnumeric]. *)
Lemma process_line_rows {path} name st line st' :
  process_line path name st line = Ok st' →
  (rows st' = rows st ∧ written_variants st' = written_variants st)
  ∨ ∃ r, rows st' = rows st ++ [r]
         ∧ written_variants st' = written_variants st + 1
         ∧ all_numeric (alleles r) = true.
Proof.
  intros H. apply process_line_cases in H. cbv zeta in H.
  destruct H as [(_ & _ & _ & [-> | [h ->]]) | [(_ & _ & ->) | [(_ & _ & ->) | (_ & _ & H)]]];
    try (left; done).
  apply process_call_spec in H. destruct H as (ns & ts & H). cbv zeta in H.
  destruct H as (_ & _ & _ & _ & _ & _ & H).
  match type of H with
  | context [all_numeric ?l] => destruct (all_numeric l) eqn:Hnum
  end.
  - destruct H as (r & Hr & Hw & Ha). right. exists r. repeat split; try done.
    rewrite Ha. revert Hnum. unfold all_numeric. simpl.
    rewrite !andb_true_iff. tauto.
  - left. done.
Qed.

Lemma process_line_rejected {path} name st line st' :
  process_line path name st line = Ok st' →
  filter_not_passed_count st' =
    filter_not_passed_count st + (if rejected_by_filter line then 1 else 0).
Proof.
  intros H. apply process_line_cases in H. cbv zeta in H.
  destruct H as [(_ & _ & -> & [-> | [h ->]]) | [(_ & -> & ->) | [(_ & -> & ->) | (_ & -> & H)]]];
    simpl; try lia.
  apply process_call_spec in H. destruct H as (ns & ts & H). cbv zeta in H.
  destruct H as (_ & _ & _ & -> & _). lia.
Qed.

(** The FORMAT key ordering changes only from unset to the 9th column of a
    line that passed the tests. *)
Lemma process_line_format {path} name st line st' :
  process_line path name st line = Ok st' →
  format_fields st' =
    match format_fields st with
    | Some ff => Some ff
    | None => if reaches_format line then Some (format_of_line line) else None
    end.
Proof.
  intros H. apply process_line_cases in H. cbv zeta in H.
  destruct H as [(_ & -> & _ & [-> | [h ->]]) | [(-> & _ & ->) | [(-> & _ & ->) | (-> & _ & H)]]];
    simpl; try (by destruct (format_fields st)).
  apply process_call_spec in H. destruct H as (ns & ts & H). cbv zeta in H.
  destruct H as (_ & _ & -> & _). by destruct (format_fields st).
Qed.

Lemma scan_lines_app {path} name st l1 l2 :
  scan_lines path name st (l1 ++ l2) =
    (st1 ← scan_lines path name st l1; scan_lines path name st1 l2).
Proof.
  revert st. induction l1 as [|x l1 IH]; intros st; simpl; [done|].
  destruct (process_line path name st x) as [st1|e]; simpl; [apply IH|done].
Qed.

Lemma scan_lines_cons_inv {path} name st line rest st' :
  scan_lines path name st (line :: rest) = Ok st' →
  ∃ st1, process_line path name st line = Ok st1 ∧ scan_lines path name st1 rest = Ok st'.
Proof.
  simpl. destruct (process_line path name st line) as [st1|e]; simpl; [eauto|done].
Qed.

(** Invariants of the scan. *)
Lemma scan_lines_rows {path} name st lines st' :
  scan_lines path name st lines = Ok st' →
  ∃ new, rows st' = rows st ++ new
         ∧ written_variants st' = written_variants st + length new
         ∧ Forall (λ r, all_numeric (alleles r) = true) new.
Proof.
  revert st. induction lines as [|line rest IH]; intros st H.
  - injection H as <-. exists []. rewrite app_nil_r. simpl. split; [done|]. split; [lia|done].
  - apply scan_lines_cons_inv in H as (st1 & H1 & H2).
    apply IH in H2 as (new & Hr & Hw & Hall).
    apply process_line_rows in H1 as [[Hr1 Hw1] | (r & Hr1 & Hw1 & Hnum)].
    + exists new. rewrite Hr, Hw, Hr1, Hw1. done.
    + exists (r :: new). rewrite Hr, Hw, Hr1, Hw1, <- app_assoc. simpl.
      split; [done|]. split; [lia|]. by constructor.
Qed.

Lemma scan_lines_rejected {path} name st lines st' :
  scan_lines path name st lines = Ok st' →
  filter_not_passed_count st' =
    filter_not_passed_count st + length (List.filter rejected_by_filter lines).
Proof.
  revert st. induction lines as [|line rest IH]; intros st H.
  - injection H as <-. simpl. lia.
  - apply scan_lines_cons_inv in H as (st1 & H1 & H2).
    apply IH in H2. apply process_line_rejected in H1. rewrite H2, H1. simpl.
    destruct (rejected_by_filter line); simpl; lia.
Qed.

Lemma scan_lines_format_kept {path} name st lines st' ff :
  format_fields st = Some ff →
  scan_lines path name st lines = Ok st' →
  format_fields st' = Some ff.
Proof.
  revert st. induction lines as [|line rest IH]; intros st Hff H.
  - by injection H as <-.
  - apply scan_lines_cons_inv in H as (st1 & H1 & H2).
    apply (IH st1); [|done].
    apply process_line_format in H1. by rewrite Hff in H1.
Qed.

Lemma scan_lines_format_unset {path} name st lines st' :
  format_fields st = None →
  Forall (λ l, reaches_format l = false) lines →
  scan_lines path name st lines = Ok st' →
  format_fields st' = None.
Proof.
  revert st. induction lines as [|line rest IH]; intros st Hff Hall H.
  - by injection H as <-.
  - apply scan_lines_cons_inv in H as (st1 & H1 & H2).
    inversion Hall as [|? ? Hl Hrest]; subst.
    apply (IH st1); [|done|done].
    apply process_line_format in H1. by rewrite Hff, Hl in H1.
Qed.

Lemma col_insert_ne (cols : list string) i j x :
  i ≠ j → col (<[i:=x]> cols) j = col cols j.
Proof.
  intros Hne. unfold col. rewrite !nth_lookup.
  by rewrite list_lookup_insert_ne.
Qed.

Lemma getitem_insert_ne (cols : list string) i x idx :
  idx ≠ Some i → getitem (<[i:=x]> cols) idx = getitem cols idx.
Proof.
  intros Hne. destruct idx as [j|]; simpl; [|done].
  rewrite list_lookup_insert_ne; [done|congruence].
Qed.

Lemma parse_one_acc dir all_rows log entry :
  parse_one dir (all_rows, log) entry =
    (all_rows ++ (parse_one dir ([], []) entry).1,
     log ++ (parse_one dir ([], []) entry).2).
Proof.
  unfold parse_one. destruct entry as [file data].
  destruct (recognized file); simpl; [|by rewrite !app_nil_r].
  destruct (process_vcf_to_rows _ data) as [[rs summary]|e]; simpl.
  - by rewrite <- app_assoc.
  - by rewrite app_nil_r, <- app_assoc.
Qed.

Lemma foldl_parse_one dir acc listing :
  foldl (parse_one dir) acc listing =
    (acc.1 ++ (parse_vcf_files dir listing).1,
     acc.2 ++ (parse_vcf_files dir listing).2).
Proof.
  unfold parse_vcf_files. revert acc.
  induction listing as [|entry rest IH]; intros [all_rows log]; cbn [foldl fst snd].
  - by rewrite !app_nil_r.
  - rewrite IH. rewrite (IH (parse_one dir ([], []) entry)).
    rewrite (parse_one_acc dir all_rows log). cbn [fst snd].
    by rewrite !app_assoc.
Qed.

Lemma parse_vcf_files_app dir l1 l2 :
  parse_vcf_files dir (l1 ++ l2) =
    ((parse_vcf_files dir l1).1 ++ (parse_vcf_files dir l2).1,
     (parse_vcf_files dir l1).2 ++ (parse_vcf_files dir l2).2).
Proof.
  unfold parse_vcf_files at 1. rewrite foldl_app.
  apply foldl_parse_one.
Qed.

Lemma parse_vcf_files_cons dir entry rest :
  parse_vcf_files dir (entry :: rest) =
    ((parse_one dir ([], []) entry).1 ++ (parse_vcf_files dir rest).1,
     (parse_one dir ([], []) entry).2 ++ (parse_vcf_files dir rest).2).
Proof.
  unfold parse_vcf_files at 1. cbn [foldl]. apply foldl_parse_one.
Qed.

Lemma pt_bounds (r d : nat) :
  (0 < d)%nat → (r ≤ d)%nat →
  (0 <= filter_not_passed_pt r d)%Q
  ∧ (filter_not_passed_pt r d <= 100)%Q
  ∧ (filter_not_passed_pt r d * inject_Z (Z.of_nat d) == 100 * inject_Z (Z.of_nat r))%Q.
Proof.
  intros Hd Hr. unfold filter_not_passed_pt.
  destruct d as [|d]; [lia|].
  unfold Qle, Qeq, Qdiv, Qmult, Qinv, inject_Z. cbn [Qnum Qden].
  rewrite Nat2Z.inj_succ. rewrite <- Nat2Z.inj_succ.
  change (Z.of_nat (S d)) with (Z.pos (Pos.of_succ_nat d)).
  cbn [Qnum Qden]. 
  assert (Hz : (Z.of_nat r ≤ Z.pos (Pos.of_succ_nat d))%Z).
  { change (Z.pos (Pos.of_succ_nat d)) with (Z.of_nat (S d)). lia. }
  repeat split; try nia.
Qed.

(** *** C1: the allele fields of the emitted records *)

(** C1, as stated, fails: the file made of the header and of a call whose
    tumor repeat count is the one character U+00BD (one half) yields a
    record, since [isnumeric] accepts that character, and its tumor allele
    fields are no strings of decimal digits. *)
Lemma numeric_allele_not_decimal :
  match process_vcf_to_rows "in/s1.vcf"
          (Samples.file_of [Samples.header; Samples.call_half]) with
  | Ok (rows, _) => rows = [Samples.record_half]
  | Raise _ => False
  end
  ∧ Py.isnumeric (tumor_allele_a Samples.record_half) = true
  ∧ Py.all_decimal_digits (tumor_allele_a Samples.record_half) = false.
Proof. vm_compute. done. Qed.

(** C1 (amended): every record [process_vcf_to_rows] emits has four allele
    fields that pass [str.isnumeric] (non-empty, every character with a
    Unicode numeric value), and each of them that is plain ASCII is a
    non-empty string of the decimal digits 0-9; and a line that reaches the
    allele test, read with the sample columns 9 and 10, adds exactly one
    record carrying its four parsed allele strings when all four pass
    [isnumeric], and leaves the rows and the accepted count untouched when
    one of them does not. *)
Theorem emitted_alleles_numeric :
  (∀ path f rows summary r,
     process_vcf_to_rows path f = Ok (rows, summary) →
     r ∈ rows →
     Forall (λ s, Py.isnumeric s = true
                  ∧ (Py.is_ascii_str s = true → Py.all_decimal_digits s = true))
            (alleles r))
  ∧ (∀ path name st line st',
       process_line path name st line = Ok st' →
       reaches_format line = true →
       normal_idx st = Some 9 → tumor_idx st = Some 10 →
       let cols := Py.split tab (Py.strip line) in
       let fmt := match format_fields st with
                  | None => format_of_line line
                  | Some ff => ff
                  end in
       let n := get_repcn fmt (col cols 9) in
       let t := get_repcn fmt (col cols 10) in
       if all_numeric [n.1; n.2; t.1; t.2]
       then ∃ r, rows st' = rows st ++ [r] ∧ alleles r = [t.1; t.2; n.1; n.2]
                 ∧ written_variants st' = written_variants st + 1
       else rows st' = rows st ∧ written_variants st' = written_variants st).
Proof.
  split.
  - intros path f rs summary r H Hin.
    unfold process_vcf_to_rows in H.
    destruct (scan_lines _ _ init_state (file_lines f)) as [st|e] eqn:Hscan;
      simpl in H; [|done].
    destruct (file_error f); [done|]. injection H as <- <-.
    apply scan_lines_rows in Hscan as (new & Hr & _ & Hall).
    simpl in Hr. rewrite Hr in Hin.
    rewrite Forall_forall in Hall. apply Hall in Hin.
    unfold all_numeric in Hin. rewrite forallb_forall in Hin.
    apply Forall_forall. intros s Hs. apply list_elem_of_In in Hs.
    split; [by apply Hin|]. intros Ha. apply isnumeric_ascii_decimal; [by apply Hin|done].
  - intros path name st line st' H Hreach Hn Ht.
    apply process_line_cases in H. cbv zeta in H.
    destruct H as [(_ & Hf & _) | [(Hf & _) | [(Hf & _) | (_ & _ & H)]]];
      try congruence.
    apply process_call_spec in H as (ns & ts & H). cbv zeta in H.
    destruct H as (Hgn & Hgt & _ & _ & _ & _ & H).
    rewrite Hn in Hgn. rewrite Ht in Hgt.
    assert (Hlen : (10 ≤ length (Py.split tab (Py.strip line)))%nat).
    { unfold reaches_format in Hreach. rewrite !andb_true_iff in Hreach.
      destruct Hreach as [[[_ Hl] _] _]. by apply Nat.leb_le in Hl. }
    assert (Hc : ∀ i, (i < 10)%nat →
                getitem (Py.split tab (Py.strip line)) (Some i)
                = Ok (col (Py.split tab (Py.strip line)) i)).
    { intros i Hi. unfold getitem, col. rewrite nth_lookup.
      destruct (lookup_lt_is_Some_2 (Py.split tab (Py.strip line)) i) as [x Hx]; [lia|].
      by rewrite Hx. }
    assert (Hlen' : (length (Py.split tab (Py.strip line)) = 10
                     ∨ 11 ≤ length (Py.split tab (Py.strip line)))%nat) by lia.
    rewrite Hc in Hgn by lia. injection Hgn as <-.
    destruct Hlen' as [Hlen'|Hlen'].
    + unfold getitem in Hgt. rewrite lookup_ge_None_2 in Hgt by lia. done.
    + assert (ts = col (Py.split tab (Py.strip line)) 10) as ->.
      { unfold getitem in Hgt. unfold col. rewrite nth_lookup.
        destruct (lookup_lt_is_Some_2 (Py.split tab (Py.strip line)) 10) as [x Hx]; [lia|].
        rewrite Hx in Hgt. rewrite Hx. by injection Hgt as <-. }
      unfold format_of_line.
      match goal with
      | |- context [all_numeric ?l] => destruct (all_numeric l)
      end.
      * destruct H as (r & Hr & Hw & Ha). exists r. done.
      * done.
Qed.

Lemma emitted_alleles_numeric_witness :
  Forall (λ s, Py.isnumeric s = true
               ∧ (Py.is_ascii_str s = true → Py.all_decimal_digits s = true))
         (alleles Samples.record_8_11)
  ∧ rows (set_format Samples.state_after_header ["GT"; "REPCN"])
    = rows Samples.state_after_header
  ∧ written_variants (set_format Samples.state_after_header ["GT"; "REPCN"])
    = written_variants Samples.state_after_header.
Proof.
  split.
  - apply (proj1 emitted_alleles_numeric "in/s1.vcf"
             (Samples.file_of [Samples.header; Samples.call_8_11])
             [Samples.record_8_11] (Some (0%nat, 0%Q))).
    + vm_compute. reflexivity.
    + apply list_elem_of_In. simpl. left. reflexivity.
  - apply (proj2 emitted_alleles_numeric "s1.vcf" "s1" Samples.state_after_header
             Samples.call_missing
             (set_format Samples.state_after_header ["GT"; "REPCN"])).
    + vm_compute. reflexivity.
    + vm_compute. reflexivity.
    + reflexivity.
    + reflexivity.
Defined.

(** *** C4: the FORMAT key ordering *)

(** C4, as stated, fails: in the file made of the header, a call rejected
    by FILTER whose FORMAT is REPCN:GT, and a clean call whose FORMAT is
    GT:REPCN, the first data line is the rejected one, yet the key ordering
    the scan ends with is that of the clean call, and the clean call is
    emitted; read with the ordering of the first data line its repeat
    counts would be 0/1 and the line would be dropped. *)
Lemma format_not_from_first_data_line :
  first_data_line [Samples.header; Samples.lowq_other_format; Samples.call_8_11]
  = Some Samples.lowq_other_format
  ∧ format_of_line Samples.lowq_other_format = ["REPCN"; "GT"]
  ∧ match scan_lines "s1.vcf" "s1" init_state
            [Samples.header; Samples.lowq_other_format; Samples.call_8_11] with
    | Ok st => format_fields st = Some ["GT"; "REPCN"]
               ∧ rows st = [Samples.record_8_11]
    | Raise _ => False
    end
  ∧ get_repcn (format_of_line Samples.lowq_other_format) "0/1:8,11" = ("0/1", "0/1").
Proof. vm_compute. done. Qed.

(** C4 (amended): within a file the FORMAT key ordering is determined once,
    from the 9th column of the first line that gets past the tests of the
    loop body (a data line of at least 10 columns whose FILTER is PASS and
    whose INFO does not say PERFECT=FALSE), whatever lines follow; and once
    it is set, a data line is processed without looking at its own 9th
    column: replacing that column changes nothing. *)
Theorem format_fields_set_once :
  (∀ path name before line after st',
     Forall (λ l, reaches_format l = false) before →
     reaches_format line = true →
     scan_lines path name init_state (before ++ line :: after) = Ok st' →
     format_fields st' = Some (format_of_line line))
  ∧ (∀ path name st ff cols x,
       format_fields st = Some ff →
       normal_idx st ≠ Some 8 → tumor_idx st ≠ Some 8 →
       process_cols path name st (<[8:=x]> cols) = process_cols path name st cols).
Proof.
  split.
  - intros path name before line after st' Hbefore Hline H.
    rewrite scan_lines_app in H.
    destruct (scan_lines path name init_state before) as [st1|e] eqn:H1; simpl in H; [|done].
    apply scan_lines_format_unset in H1; [|done|done].
    apply scan_lines_cons_inv in H as (st2 & H2 & H3).
    apply process_line_format in H2. rewrite H1, Hline in H2.
    by apply (scan_lines_format_kept (path:=path) name st2 after).
  - intros path name st ff cols x Hff Hn Ht.
    unfold process_cols, process_call, sample_columns.
    rewrite length_insert.
    rewrite (col_insert_ne cols 8 0), (col_insert_ne cols 8 1),
      (col_insert_ne cols 8 6), (col_insert_ne cols 8 7) by lia.
    rewrite Hff.
    by rewrite (getitem_insert_ne cols 8 x (normal_idx st)),
      (getitem_insert_ne cols 8 x (tumor_idx st)).
Qed.

Lemma format_fields_set_once_witness :
  (∀ st', scan_lines "s1.vcf" "s1" init_state
            ([Samples.header; Samples.lowq_other_format]
               ++ Samples.call_8_11 :: [Samples.call_half]) = Ok st' →
          format_fields st' = Some ["GT"; "REPCN"])
  ∧ process_cols "s1.vcf" "s1" (set_format Samples.state_after_header ["GT"; "REPCN"])
      (<[8:="junk"]> (Py.split tab (Py.strip Samples.call_8_11)))
    = process_cols "s1.vcf" "s1" (set_format Samples.state_after_header ["GT"; "REPCN"])
        (Py.split tab (Py.strip Samples.call_8_11)).
Proof.
  split.
  - intros st'.
    apply (proj1 format_fields_set_once "s1.vcf" "s1"
             [Samples.header; Samples.lowq_other_format]
             Samples.call_8_11 [Samples.call_half] st').
    + repeat constructor.
    + vm_compute. reflexivity.
  - apply (proj2 format_fields_set_once "s1.vcf" "s1"
             (set_format Samples.state_after_header ["GT"; "REPCN"])
             ["GT"; "REPCN"]).
    + reflexivity.
    + simpl. discriminate.
    + simpl. discriminate.
Defined.

(** *** C5: a failing file *)

(** C5: when [process_vcf_to_rows] raises on a file of the listing, the
    table [parse_vcf_files] returns is the rows of the files before it
    followed by the rows of the files after it, that is, the table of the
    listing without that file: none of its records appear, and the files
    after it are still processed; and the printed lines are those of the
    files before it, the announcement of the file, the report that it is
    skipped with its error, and the lines of the files after it. *)
Theorem failing_file_skipped dir before file data after e :
  recognized file = true →
  process_vcf_to_rows (Py.path_join dir file) data = Raise e →
  let out := parse_vcf_files dir (before ++ (file, data) :: after) in
  out.1 = (parse_vcf_files dir before).1 ++ (parse_vcf_files dir after).1
  ∧ out.1 = (parse_vcf_files dir (before ++ after)).1
  ∧ out.1 = concat (map (rows_of_entry dir) (before ++ after))
  ∧ out.2 = (parse_vcf_files dir before).2
            ++ [Processing file; Skipping file e]
            ++ (parse_vcf_files dir after).2.
Proof.
  intros Hrec Hfail. cbv zeta.
  assert (Hrows : ∀ l, (parse_vcf_files dir l).1 = concat (map (rows_of_entry dir) l)).
  { induction l as [|[f d] l IH]; [done|].
    rewrite parse_vcf_files_cons. cbn [fst map concat]. rewrite IH. f_equal.
    unfold parse_one, rows_of_entry. cbn [fst snd].
    destruct (recognized f); [|done].
    by destruct (process_vcf_to_rows _ d) as [[rs summary]|e']. }
  rewrite parse_vcf_files_app, parse_vcf_files_cons. cbn [fst snd].
  assert (Hone : parse_one dir ([], []) (file, data)
                 = ([], [Processing file; Skipping file e])).
  { unfold parse_one. by rewrite Hrec, Hfail. }
  rewrite Hone. cbn [fst snd app].
  split; [done|]. split; [by rewrite parse_vcf_files_app|].
  split; [|done].
  by rewrite <- Hrows, parse_vcf_files_app.
Qed.

Lemma failing_file_skipped_witness :
  let bad := {| file_lines := [Samples.header; Samples.call_8_11];
                file_error := Some (OtherException "unexpected end of file") |} in
  let good := Samples.file_of [Samples.header; Samples.call_8_11] in
  let out := parse_vcf_files "in" ([] ++ ("s0.vcf.gz", bad) :: [("s1.vcf", good)]) in
  out.1 = [] ++ [Samples.record_8_11]
  ∧ out.1 = [Samples.record_8_11]
  ∧ out.1 = [Samples.record_8_11]
  ∧ out.2 = [] ++ [Processing "s0.vcf.gz";
                   Skipping "s0.vcf.gz" (OtherException "unexpected end of file")]
            ++ [Processing "s1.vcf"; FilterSummary "s1.vcf" 0 0].
Proof.
  apply (failing_file_skipped "in" [] "s0.vcf.gz"
           {| file_lines := [Samples.header; Samples.call_8_11];
              file_error := Some (OtherException "unexpected end of file") |}
           [("s1.vcf", Samples.file_of [Samples.header; Samples.call_8_11])]
           (OtherException "unexpected end of file")).
  - vm_compute. reflexivity.
  - vm_compute. reflexivity.
Defined.

(** *** C9: the rejection ratio *)

(** C9: when [process_vcf_to_rows] returns, with [rejected] the number of
    data lines rejected by FILTER and [accepted] the number of emitted
    records, it prints a ratio exactly when [accepted + rejected] is
    positive; that ratio is [rejected / (accepted + rejected) * 100] (its
    product with the denominator is [100 * rejected]) and lies between 0
    and 100; and it prints none exactly when both counts are zero.  The
    ratio is the exact rational; the rounding of the floating-point
    operations is not modelled. *)
Theorem filter_ratio_guarded path f rows summary :
  process_vcf_to_rows path f = Ok (rows, summary) →
  let rejected := length (List.filter rejected_by_filter (file_lines f)) in
  let accepted := length rows in
  match summary with
  | Some (n, pt) =>
      n = rejected
      ∧ (0 < accepted + rejected)%nat
      ∧ pt = filter_not_passed_pt rejected (accepted + rejected)
      ∧ (pt * inject_Z (Z.of_nat (accepted + rejected))
         == 100 * inject_Z (Z.of_nat rejected))%Q
      ∧ (0 <= pt)%Q ∧ (pt <= 100)%Q
  | None => rejected = 0%nat ∧ accepted = 0%nat
  end.
Proof.
  intros H. cbv zeta. unfold process_vcf_to_rows in H.
  destruct (scan_lines _ _ init_state (file_lines f)) as [st|e] eqn:Hscan;
    simpl in H; [|done].
  destruct (file_error f); [done|]. injection H as <- <-.
  pose proof (scan_lines_rejected (path:=path) _ _ _ _ Hscan) as Hrej.
  apply scan_lines_rows in Hscan as (new & Hr & Hw & _).
  simpl in Hr, Hw, Hrej. rewrite Hr. rewrite <- Hrej, <- Hw.
  unfold filter_summary.
  destruct (0 <? written_variants st + filter_not_passed_count st)%nat eqn:Hd.
  - apply Nat.ltb_lt in Hd.
    destruct (pt_bounds (filter_not_passed_count st)
                (written_variants st + filter_not_passed_count st)) as (H0 & H100 & Heq);
      [lia|lia|].
    done.
  - apply Nat.ltb_ge in Hd. lia.
Qed.

Lemma filter_ratio_guarded_witness :
  (1 = 1
   ∧ (0 < 2 + 1)
   ∧ (100 # 3) = filter_not_passed_pt 1 (2 + 1)
   ∧ ((100 # 3) * inject_Z (Z.of_nat (2 + 1)) == 100 * inject_Z (Z.of_nat 1))%Q
   ∧ (0 <= 100 # 3)%Q ∧ (100 # 3 <= 100)%Q)%nat.
Proof.
  apply (filter_ratio_guarded "in/s1.vcf"
           (Samples.file_of [Samples.header; Samples.call_8_11;
                             Samples.lowq_other_format; Samples.call_half])
           [Samples.record_8_11; Samples.record_half]
           (Some (1%nat, 100 # 3))).
  vm_compute. reflexivity.
Defined.

End ExtractorProps.

(** ** Properties of the matrix builder *)

Module MatrixBuilderProps.
Import MatrixBuilder MatrixBuilderNotions.

Lemma str_app_assoc (a b c : string) : (a +:+ b) +:+ c = a +:+ (b +:+ c).
Proof.
  induction a as [|x a IH]; [done|].
  change (String x ((a +:+ b) +:+ c) = String x (a +:+ (b +:+ c))).
  by rewrite IH.
Qed.

Lemma concat_snoc sep (ps : list string) x :
  String.concat sep (ps ++ [x]) =
    match ps with
    | [] => x
    | _ => (String.concat sep ps +:+ sep) +:+ x
    end.
Proof.
  induction ps as [|a ps IH]; [done|].
  destruct ps as [|b ps].
  { change (a +:+ sep +:+ x = (a +:+ sep) +:+ x). by rewrite str_app_assoc. }
  change (String.concat sep ((a :: b :: ps) ++ [x]))
    with (a +:+ sep +:+ String.concat sep ((b :: ps) ++ [x])).
  rewrite IH.
  change (String.concat sep (a :: b :: ps))
    with (a +:+ sep +:+ String.concat sep (b :: ps)).
  by rewrite !str_app_assoc.
Qed.

(** The decimal rendering of a number. *)
Lemma string_of_uint_digits d :
  forallb Py.is_digit (Py.chars (NilEmpty.string_of_uint d)) = true.
Proof. induction d; cbn; done. Qed.

Lemma str_of_Z_pos_digits p : Py.all_decimal_digits (Py.str_of_Z (Z.pos p)) = true.
Proof.
  unfold Py.str_of_Z. cbn [Z.to_int NilZero.string_of_int].
  pose proof (DecimalPos.Unsigned.to_uint_nonnil p) as Hnil.
  pose proof (string_of_uint_digits (Pos.to_uint p)) as Hd.
  unfold NilZero.string_of_uint.
  destruct (Pos.to_uint p); done.
Qed.

Lemma signed_spec d :
  d ≠ 0%Z →
  signed d = (if (0 <? d)%Z then "+" else "-") +:+ Py.str_of_Z (Z.abs d)
  ∧ Py.all_decimal_digits (Py.str_of_Z (Z.abs d)) = true.
Proof.
  intros Hd. destruct d as [|p|p]; [done| |]; cbn [Z.abs]; split;
    try apply str_of_Z_pos_digits; done.
Qed.

(** The anatomy of a label. *)
Lemma label_of_parts (parts : list string) label :
  match parts with
  | [] => None
  | _ => Some (String.concat "_" parts)
  end = Some label →
  label = String.concat "_" parts.
Proof. destruct parts; [done|]. by intros [= <-]. Qed.

Lemma make_feature_spec cfg motif ref delta label :
  make_feature cfg motif ref delta = Some label →
  isna motif = false
  ∧ (ref_length cfg = true → is_Some ref)
  ∧ if change cfg
    then ∃ d, delta = Some d ∧ d ≠ 0%Z
              ∧ label = String.concat "_" (base_parts cfg motif ref ++ [signed d])
    else label = String.concat "_" (base_parts cfg motif ref).
Proof.
  unfold make_feature, base_parts.
  destruct (isna motif); [done|].
  destruct (ref_length cfg).
  - destruct ref as [r|]; [|done]. cbn [mbind option_bind].
    destruct (change cfg).
    + destruct delta as [d|]; [|done]. cbn [mbind option_bind].
      destruct (Z.eqb_spec d 0); [done|]. cbn [mbind option_bind].
      intros H%label_of_parts. split; [done|]. split; [eauto|]. by exists d.
    + cbn [mbind option_bind].
      intros H%label_of_parts. split; [done|]. split; [eauto|]. done.
  - cbn [mbind option_bind]. rewrite app_nil_r.
    destruct (change cfg).
    + destruct delta as [d|]; [|done]. cbn [mbind option_bind].
      destruct (Z.eqb_spec d 0); [done|]. cbn [mbind option_bind].
      intros H%label_of_parts. split; [done|]. split; [done|]. by exists d.
    + cbn [mbind option_bind].
      intros H%label_of_parts. done.
Qed.

(** The events of a table, row by row. *)
Lemma df_long_cons cfg row df :
  df_long cfg (row :: df) ≡ₚ row_events cfg row ++ df_long cfg df.
Proof.
  unfold row_events, df_long, melt, dropna. cbn [fmap list_fmap app].
  destruct (mutation_type_a cfg row), (mutation_type_b cfg row);
    cbn [omap list_omap fst snd app]; rewrite ?omap_app;
    cbn [omap list_omap fst snd app]; rewrite <- ?Permutation_middle; done.
Qed.

Lemma df_long_Permutation cfg df df' :
  df ≡ₚ df' → df_long cfg df ≡ₚ df_long cfg df'.
Proof.
  intros H. unfold df_long, melt, dropna. by rewrite H.
Qed.

Lemma df_long_middle cfg df1 row df2 :
  df_long cfg (df1 ++ row :: df2) ≡ₚ row_events cfg row ++ df_long cfg (df1 ++ df2).
Proof.
  rewrite <- df_long_cons. apply df_long_Permutation.
  by rewrite Permutation_middle.
Qed.

Lemma count_events_Permutation ev ev' s label :
  ev ≡ₚ ev' → count_events ev s label = count_events ev' s label.
Proof. intros H. unfold count_events. by rewrite H. Qed.

Lemma count_events_app ev1 ev2 s label :
  count_events (ev1 ++ ev2) s label = count_events ev1 s label + count_events ev2 s label.
Proof. unfold count_events. by rewrite filter_app, length_app. Qed.

Lemma count_events_absent ev s label :
  (s, label) ∉ ev → count_events ev s label = 0.
Proof.
  intros H. unfold count_events.
  induction ev as [|e ev IH]; [done|].
  rewrite filter_cons. destruct (decide (e = (s, label))) as [->|Hne].
  - exfalso. apply H. left.
  - apply IH. intros Hin. apply H. by right.
Qed.

(** The canonical form of an axis. *)
Lemma elem_of_sorted_unique l x : x ∈ sorted_unique l ↔ x ∈ l.
Proof.
  unfold sorted_unique. rewrite merge_sort_Permutation. apply elem_of_remove_dups.
Qed.

Lemma sorted_unique_Sorted l : Sorted String.le (sorted_unique l).
Proof. apply (Sorted_merge_sort String.le). Qed.

Lemma sorted_unique_NoDup l : NoDup (sorted_unique l).
Proof.
  unfold sorted_unique. rewrite merge_sort_Permutation. apply NoDup_remove_dups.
Qed.

Lemma sorted_unique_ext l l' :
  (∀ x, x ∈ l ↔ x ∈ l') → sorted_unique l = sorted_unique l'.
Proof.
  intros H. apply (Sorted_unique String.le); try apply sorted_unique_Sorted.
  apply NoDup_Permutation; try apply sorted_unique_NoDup.
  intros x. by rewrite !elem_of_sorted_unique.
Qed.

Lemma count_matrix_Permutation ev ev' :
  ev ≡ₚ ev' → count_matrix ev = count_matrix ev'.
Proof.
  intros H. unfold count_matrix.
  assert (H1 : sorted_unique ev.*1 = sorted_unique ev'.*1).
  { apply sorted_unique_ext. intros x. by rewrite H. }
  assert (H2 : sorted_unique ev.*2 = sorted_unique ev'.*2).
  { apply sorted_unique_ext. intros x. by rewrite H. }
  rewrite H1, H2. f_equal.
  apply list_fmap_ext. intros _ s _. apply list_fmap_ext. intros _ label _.
  by apply count_events_Permutation.
Qed.

(** A cell of the count matrix is the number of events of its sample and
    label. *)
Lemma cell_count_matrix ev s label :
  cell (count_matrix ev) s label = count_events ev s label.
Proof.
  unfold cell, count_matrix. cbn [index columns cells].
  destruct (list_find (λ x, x = s) (sorted_unique ev.*1)) as [[i x]|] eqn:Hi.
  - apply list_find_Some in Hi as (Hi & -> & _).
    destruct (list_find (λ x, x = label) (sorted_unique ev.*2)) as [[j y]|] eqn:Hj.
    + apply list_find_Some in Hj as (Hj & -> & _).
      rewrite list_lookup_fmap, Hi. cbn [fmap option_fmap option_map mbind option_bind].
      by rewrite list_lookup_fmap, Hj.
    + apply list_find_None in Hj. symmetry. apply count_events_absent.
      intros Hin. rewrite Forall_forall in Hj. apply (Hj label); [|done].
      apply elem_of_sorted_unique. apply list_elem_of_fmap. by exists (s, label).
  - apply list_find_None in Hi. symmetry. apply count_events_absent.
    intros Hin. rewrite Forall_forall in Hi. apply (Hi s); [|done].
    apply elem_of_sorted_unique. apply list_elem_of_fmap. by exists (s, label).
Qed.

(** On a frame with rows the builder gets as far as the events. *)
Lemma build_with_rows cfg df :
  df ≠ [] →
  build_mutation_matrix df cfg
  = if negb (ru_valid (ru cfg))
    then Raise (ValueError "ru must be one of: None, 'length', 'ru'.")
    else match df_long cfg df with
         | [] => Ok empty_matrix
         | ev => Ok (count_matrix ev)
         end.
Proof. unfold build_mutation_matrix. by destruct df. Qed.

(** A returned matrix comes from a frame with rows and a recognized [ru]. *)
Lemma build_returns cfg df m :
  build_mutation_matrix df cfg = Ok m →
  df ≠ [] ∧ ru_valid (ru cfg) = true
  ∧ Ok m = match df_long cfg df with
           | [] => Ok empty_matrix
           | ev => Ok (count_matrix ev)
           end.
Proof.
  unfold build_mutation_matrix.
  destruct (ru_valid (ru cfg)); [|done]. cbn [negb].
  destruct df; [done|]. by intros ->.
Qed.

(** The matrix depends on the events only up to their order. *)
Lemma build_of_events cfg df df' :
  df ≠ [] → df' ≠ [] →
  df_long cfg df ≡ₚ df_long cfg df' →
  build_mutation_matrix df cfg = build_mutation_matrix df' cfg.
Proof.
  intros Hne Hne' H. rewrite !build_with_rows by done.
  destruct (ru_valid (ru cfg)); [|done]. cbn [negb].
  destruct (df_long cfg df) as [|e ev] eqn:E1, (df_long cfg df') as [|e' ev'] eqn:E2.
  - done.
  - by apply Permutation_nil_l in H.
  - by apply Permutation_nil_r in H.
  - f_equal. by apply count_matrix_Permutation.
Qed.

Lemma build_skip_row cfg df1 row df2 :
  df1 ++ df2 ≠ [] →
  row_events cfg row = [] →
  build_mutation_matrix (df1 ++ row :: df2) cfg
  = build_mutation_matrix (df1 ++ df2) cfg.
Proof.
  intros Hne H. apply build_of_events; [by destruct df1|done|].
  by rewrite df_long_middle, H.
Qed.

(** With a recognized [ru] the builder returns a matrix, whose cells are
    the event counts. *)
Lemma build_cells cfg df :
  df ≠ [] →
  ru_valid (ru cfg) = true →
  ∃ m, build_mutation_matrix df cfg = Ok m
       ∧ ∀ s label, cell m s label = count_events (df_long cfg df) s label.
Proof.
  intros Hne Hru. rewrite build_with_rows by done. rewrite Hru. cbn [negb].
  destruct (df_long cfg df) as [|e ev] eqn:E.
  - exists empty_matrix. done.
  - exists (count_matrix (e :: ev)). split; [done|].
    intros s label. apply cell_count_matrix.
Qed.

Lemma build_columns cfg df m label :
  build_mutation_matrix df cfg = Ok m →
  label ∈ columns m →
  ∃ row slot, row ∈ df ∧ slot ∈ slots row
              ∧ make_feature cfg (motif row) slot.1 slot.2 = Some label.
Proof.
  intros (_ & _ & Hm)%build_returns Hin.
  assert (Hev : label ∈ (df_long cfg df).*2).
  { destruct (df_long cfg df) as [|e ev] eqn:E; injection Hm as ->.
    - cbn in Hin. inversion Hin.
    - cbn [count_matrix columns] in Hin.
      exact (proj1 (elem_of_sorted_unique _ _) Hin). }
  apply list_elem_of_fmap in Hev as ([s l] & -> & Hev).
  unfold df_long, dropna in Hev.
  apply list_elem_of_omap in Hev as ([s' o] & Hmelt & Ho).
  cbn [fst snd] in Ho. destruct o as [l'|]; [|done]. injection Ho as -> ->.
  unfold melt in Hmelt. apply elem_of_app in Hmelt as [H|H];
    apply list_elem_of_fmap in H as (row & [= -> Hl] & Hrow).
  - exists row, (ref_a (compute_allele_changes row), change_a (compute_allele_changes row)).
    split; [done|]. split; [left|]. symmetry. exact Hl.
  - exists row, (ref_b (compute_allele_changes row), change_b (compute_allele_changes row)).
    split; [done|]. split; [right; left|]. symmetry. exact Hl.
Qed.

Lemma build_axes cfg df m :
  build_mutation_matrix df cfg = Ok m →
  Sorted String.le (index m) ∧ NoDup (index m)
  ∧ Sorted String.le (columns m) ∧ NoDup (columns m).
Proof.
  intros (_ & _ & Hm)%build_returns. revert Hm.
  destruct (df_long cfg df) as [|e ev]; intros [= ->].
  - cbn. repeat split; constructor.
  - cbn [count_matrix index columns].
    auto using sorted_unique_Sorted, sorted_unique_NoDup.
Qed.

(** *** C2: the concrete scenario *)

(** C2: for the record with motif AT, normal alleles 8 and 10 and tumor
    alleles 8 and 11 (in either order within a pair), the changes are 0 for
    allele A and +1 for allele B, on the reference lengths 8 and 10.  With
    ru="length", ref_length=True, change=True the allele-A event is
    suppressed and the record yields the single event LEN2_10_+1: in the
    matrix of any table that holds the record, the cell of its sample and
    that label is one more than the count of the other rows, and every
    other cell is the count of the other rows.  With ru=None,
    ref_length=True, change=False the record yields the two events 8 and
    10, each adding 1 to its cell. *)
Theorem scenario_AT_8_10_8_11 (s : string) :
  compute_allele_changes (Samples.row_AT s)
  = {| change_a := Some 0%Z; change_b := Some 1%Z;
       ref_a := Some 8%Z; ref_b := Some 10%Z |}
  ∧ compute_allele_changes (Samples.row_AT_swapped s)
    = compute_allele_changes (Samples.row_AT s)
  ∧ mutation_type_a Samples.cfg_default (Samples.row_AT s) = None
  ∧ mutation_type_b Samples.cfg_default (Samples.row_AT s) = Some "LEN2_10_+1"
  ∧ row_events Samples.cfg_default (Samples.row_AT s) = [(s, "LEN2_10_+1")]
  ∧ build_mutation_matrix [Samples.row_AT s] Samples.cfg_default
    = Ok {| index := [s]; columns := ["LEN2_10_+1"]; cells := [[1]] |}
  ∧ (∀ df1 df2, ∃ m,
       build_mutation_matrix (df1 ++ Samples.row_AT s :: df2) Samples.cfg_default = Ok m
       ∧ ∀ s' label,
           cell m s' label
           = count_events (df_long Samples.cfg_default (df1 ++ df2)) s' label
             + (if decide ((s', label) = (s, "LEN2_10_+1")) then 1 else 0))
  ∧ row_events Samples.cfg_ref_only (Samples.row_AT s) = [(s, "8"); (s, "10")]
  ∧ build_mutation_matrix [Samples.row_AT s] Samples.cfg_ref_only
    = Ok {| index := [s]; columns := ["10"; "8"]; cells := [[1; 1]] |}
  ∧ (∀ df1 df2, ∃ m,
       build_mutation_matrix (df1 ++ Samples.row_AT s :: df2) Samples.cfg_ref_only = Ok m
       ∧ ∀ s' label,
           cell m s' label
           = count_events (df_long Samples.cfg_ref_only (df1 ++ df2)) s' label
             + (if decide ((s', label) = (s, "8")) then 1 else 0)
             + (if decide ((s', label) = (s, "10")) then 1 else 0)).
Proof.
  assert (Ha : row_events Samples.cfg_default (Samples.row_AT s) = [(s, "LEN2_10_+1")])
    by reflexivity.
  assert (Hb : row_events Samples.cfg_ref_only (Samples.row_AT s) = [(s, "8"); (s, "10")])
    by reflexivity.
  assert (Hone : ∀ x : string, sorted_unique [x] = [x]).
  { intros x. unfold sorted_unique. cbn [remove_dups].
    destruct (decide_rel elem_of x []) as [H|_]; [inversion H|].
    reflexivity. }
  assert (Hsingle : ∀ (x y : string * string),
            length (filter (λ e, e = y) [x]) = if decide (y = x) then 1 else 0).
  { intros x y. rewrite filter_cons, filter_nil.
    destruct (decide (x = y)), (decide (y = x)); done || congruence. }
  repeat split; try reflexivity.
  - unfold build_mutation_matrix. cbn [negb ru_valid Samples.cfg_default ru].
    change (df_long Samples.cfg_default [Samples.row_AT s]) with
      (row_events Samples.cfg_default (Samples.row_AT s)). rewrite Ha.
    unfold count_matrix. cbn [fmap list_fmap fst snd]. rewrite !Hone.
    cbn [fmap list_fmap]. unfold count_events. rewrite Hsingle.
    by rewrite decide_True.
  - intros df1 df2.
    destruct (build_cells Samples.cfg_default (df1 ++ Samples.row_AT s :: df2))
      as (m & Hm & Hc); [by destruct df1|done|].
    exists m. split; [done|]. intros s' label.
    rewrite Hc.
    rewrite (count_events_Permutation _ _ _ _ (df_long_middle _ _ _ _)).
    rewrite count_events_app, Ha. unfold count_events at 1. rewrite Hsingle. lia.
  - unfold build_mutation_matrix. cbn [negb ru_valid Samples.cfg_ref_only ru].
    change (df_long Samples.cfg_ref_only [Samples.row_AT s]) with
      (row_events Samples.cfg_ref_only (Samples.row_AT s)). rewrite Hb.
    unfold count_matrix. cbn [fmap list_fmap fst snd].
    assert (sorted_unique [s; s] = [s]) as ->.
    { transitivity (sorted_unique [s]); [|apply Hone].
      apply sorted_unique_ext. intros x. rewrite !elem_of_cons. tauto. }
    assert (sorted_unique ["8"; "10"] = ["10"; "8"]) as -> by (vm_compute; reflexivity).
    cbn [fmap list_fmap]. unfold count_events.
    rewrite !filter_cons, filter_nil.
    repeat (destruct (decide _) as [?|?]; try congruence); done.
  - intros df1 df2.
    destruct (build_cells Samples.cfg_ref_only (df1 ++ Samples.row_AT s :: df2))
      as (m & Hm & Hc); [by destruct df1|done|].
    exists m. split; [done|]. intros s' label.
    rewrite Hc.
    rewrite (count_events_Permutation _ _ _ _ (df_long_middle _ _ _ _)).
    rewrite count_events_app, Hb.
    change [(s, "8"); (s, "10")] with ([(s, "8")] ++ [(s, "10")]).
    rewrite count_events_app. unfold count_events at 1 2. rewrite !Hsingle. lia.
Qed.

(** *** C3: a record without change *)

Lemma make_feature_zero_delta cfg motif ref :
  change cfg = true → make_feature cfg motif ref (Some 0%Z) = None.
Proof.
  intros Hc. unfold make_feature. rewrite Hc.
  destruct (isna motif); [done|].
  destruct (ref_length cfg); [destruct ref; [|done]|]; done.
Qed.

Lemma motif_parts_nonempty r motif :
  ru_valid r = true → r ≠ None → motif_parts r motif ≠ [].
Proof.
  destruct r as [s|]; [|done]. intros Hv _. unfold motif_parts. cbn in Hv.
  destruct (String.eqb s "length"); [done|].
  destruct (String.eqb s "ru"); done.
Qed.

Lemma make_feature_no_change cfg motif r delta :
  change cfg = false → isna motif = false →
  ru_valid (ru cfg) = true → (ru cfg ≠ None ∨ ref_length cfg = true) →
  make_feature cfg motif (Some r) delta
  = Some (String.concat "_" (base_parts cfg motif (Some r))).
Proof.
  intros Hc Hm Hv Hsome. unfold make_feature, base_parts. rewrite Hc, Hm.
  destruct (ref_length cfg); cbn [mbind option_bind].
  - by destruct (motif_parts (ru cfg) motif).
  - rewrite app_nil_r. destruct Hsome as [Hru|?]; [|done].
    pose proof (motif_parts_nonempty (ru cfg) motif Hv Hru).
    by destruct (motif_parts (ru cfg) motif).
Qed.

(** C3: for a record whose four alleles parse and whose sorted tumor pair
    equals its sorted normal pair, the builder with change=True has no event
    for the record, and every count is that of the table without it; with
    change=False, a recognized [ru], at least one of [ru] and [ref_length]
    enabled and a motif that is present, the record has exactly two events,
    one per allele slot. *)
Theorem unchanged_record_events cfg row ta tb na nb :
  py_int (tumor_allele_a row) = Some ta →
  py_int (tumor_allele_b row) = Some tb →
  py_int (normal_allele_a row) = Some na →
  py_int (normal_allele_b row) = Some nb →
  Py.sorted2 ta tb = Py.sorted2 na nb →
  (change cfg = true →
     row_events cfg row = []
     ∧ ∀ df1 df2 s label,
         count_events (df_long cfg (df1 ++ row :: df2)) s label
         = count_events (df_long cfg (df1 ++ df2)) s label)
  ∧ (change cfg = false →
     ru_valid (ru cfg) = true →
     (ru cfg ≠ None ∨ ref_length cfg = true) →
     isna (motif row) = false →
     (∃ la lb, row_events cfg row = [(sample row, la); (sample row, lb)])
     ∧ ∀ df1 df2, length (df_long cfg (df1 ++ row :: df2))
                  = length (df_long cfg (df1 ++ df2)) + 2).
Proof.
  intros Hta Htb Hna Hnb Heq.
  assert (Hch : compute_allele_changes row
                = {| change_a := Some 0%Z; change_b := Some 0%Z;
                     ref_a := Some (Py.sorted2 na nb).1;
                     ref_b := Some (Py.sorted2 na nb).2 |}).
  { unfold compute_allele_changes. rewrite Hta, Htb, Hna, Hnb, Heq.
    cbv zeta. by rewrite !Z.sub_diag. }
  split.
  - intros Hc.
    assert (Hnone : row_events cfg row = []).
    { unfold row_events, df_long, melt, dropna, mutation_type_a, mutation_type_b.
      cbn [fmap list_fmap app]. rewrite Hch. cbn [change_a change_b ref_a ref_b].
      by rewrite !make_feature_zero_delta. }
    split; [done|]. intros df1 df2 s label.
    rewrite (count_events_Permutation _ _ _ _ (df_long_middle _ _ _ _)).
    by rewrite Hnone.
  - intros Hc Hv Hsome Hm.
    assert (Hev : row_events cfg row
                  = [(sample row, String.concat "_" (base_parts cfg (motif row) (Some (Py.sorted2 na nb).1)));
                     (sample row, String.concat "_" (base_parts cfg (motif row) (Some (Py.sorted2 na nb).2)))]).
    { unfold row_events, df_long, melt, dropna, mutation_type_a, mutation_type_b.
      cbn [fmap list_fmap app]. rewrite Hch. cbn [change_a change_b ref_a ref_b].
      by rewrite !make_feature_no_change. }
    split; [eauto|]. intros df1 df2.
    rewrite (Permutation_length (df_long_middle cfg df1 row df2)).
    rewrite length_app, Hev. cbn [length]. lia.
Qed.

Lemma unchanged_record_events_witness :
  row_events Samples.cfg_default (Samples.row_unchanged "s1") = []
  ∧ ∃ la lb, row_events Samples.cfg_ref_only (Samples.row_unchanged "s1")
             = [("s1", la); ("s1", lb)].
Proof.
  split.
  - apply (proj1 (unchanged_record_events Samples.cfg_default
                    (Samples.row_unchanged "s1") 12 10 10 12
                    eq_refl eq_refl eq_refl eq_refl eq_refl) eq_refl).
  - apply (proj2 (unchanged_record_events Samples.cfg_ref_only
                    (Samples.row_unchanged "s1") 12 10 10 12
                    eq_refl eq_refl eq_refl eq_refl eq_refl)
             eq_refl eq_refl (or_intror eq_refl) eq_refl).
Defined.

(** *** C6: the empty result *)

Lemma dropna_all_missing (l : list (string * option string)) :
  Forall (λ e, e.2 = None) l → dropna l = [].
Proof.
  induction 1 as [|[s o] l Ho _ IH]; [done|].
  unfold dropna in *. cbn [omap list_omap]. cbn [snd] in Ho. by rewrite Ho.
Qed.

Lemma make_feature_all_off motif ref delta :
  make_feature {| ru := None; ref_length := false; change := false |} motif ref delta
  = None.
Proof. unfold make_feature. by destruct (isna motif). Qed.

(** C6: the builder does not return the empty table for every table on
    which no event survives: on a table without rows it raises, whatever
    the switches, and never reaches the test of [df_long].  On a table with
    rows it does what the claim says: with a recognized [ru] and every
    conversion to [str] within the limit it returns a matrix, the empty one
    when no event survives; and with ru=None, ref_length=False,
    change=False no event survives, so the result is the empty table. *)
Theorem frame_without_rows_raises :
  (∀ cfg, ru_valid (ru cfg) = true → build_mutation_matrix [] cfg = Raise no_rows)
  ∧ build_mutation_matrix [] {| ru := None; ref_length := false; change := false |}
    = Raise no_rows
  ∧ (∀ df cfg, df ≠ [] → ru_valid (ru cfg) = true → Forall row_fits df →
               ∃ m, build_mutation_matrix df cfg = Ok m
                    ∧ (df_long cfg df = [] → m = empty_matrix))
  ∧ (∀ df, df_long {| ru := None; ref_length := false; change := false |} df = []
           ∧ (df ≠ [] →
              build_mutation_matrix df
                {| ru := None; ref_length := false; change := false |}
              = Ok empty_matrix)).
Proof.
  split; [|split; [|split]].
  - intros cfg Hv. unfold build_mutation_matrix. by rewrite Hv.
  - reflexivity.
  - intros df cfg Hne Hv _. rewrite build_with_rows by done. rewrite Hv. cbn [negb].
    destruct (df_long cfg df) as [|e ev]; eexists; (split; [reflexivity|done]).
  - intros df.
    assert (He : df_long {| ru := None; ref_length := false; change := false |} df = []).
    { unfold df_long. apply dropna_all_missing. unfold melt.
      apply Forall_app. split; apply Forall_fmap, Forall_forall; intros row _;
        apply make_feature_all_off. }
    split; [done|]. intros Hne. rewrite build_with_rows by done. by rewrite He.
Qed.

(** *** C7: the change component of a label *)

(** A row whose alleles do not parse has no change in either slot. *)
Ltac no_slot :=
  let Hin := fresh "Hin" in
  let Hd := fresh "Hd" in
  intros Hin Hd; cbn in Hin;
  apply elem_of_cons in Hin as [->|Hin]; [discriminate Hd|];
  apply elem_of_cons in Hin as [->|Hin]; [discriminate Hd|];
  inversion Hin.

Lemma slot_change row slot d :
  slot ∈ slots row → slot.2 = Some d →
  ∃ ta tb na nb,
    py_int (tumor_allele_a row) = Some ta ∧ py_int (tumor_allele_b row) = Some tb
    ∧ py_int (normal_allele_a row) = Some na ∧ py_int (normal_allele_b row) = Some nb
    ∧ (d = ((Py.sorted2 ta tb).1 - (Py.sorted2 na nb).1)%Z
       ∨ d = ((Py.sorted2 ta tb).2 - (Py.sorted2 na nb).2)%Z).
Proof.
  unfold slots, compute_allele_changes.
  destruct (py_int (tumor_allele_a row)) as [ta|]; [|no_slot].
  destruct (py_int (tumor_allele_b row)) as [tb|]; [|no_slot].
  destruct (py_int (normal_allele_a row)) as [na|]; [|no_slot].
  destruct (py_int (normal_allele_b row)) as [nb|]; [|no_slot].
  cbv zeta. cbn [ref_a ref_b change_a change_b].
  intros Hin Hd. exists ta, tb, na, nb. repeat split.
  apply elem_of_cons in Hin as [->|Hin]; [left; cbn in Hd; congruence|].
  apply elem_of_cons in Hin as [->|Hin]; [right; cbn in Hd; congruence|].
  inversion Hin.
Qed.

(** C7: every column label of the matrix is the label of an allele slot of
    a row.  When change=True it ends in the change of that slot, which is
    the difference of the sorted tumor and the sorted normal allele of the
    slot and is not zero, written as a plus sign and the digits of the
    change when it is positive and, when it is negative, as the plain
    rendering of the number, a minus sign and the digits of its absolute
    value; what precedes is empty or the other components followed by an
    underscore.  When change=False the label is made of the motif component
    and the reference length only, and is the same whatever the change. *)
Theorem labels_signed_change df cfg m label :
  build_mutation_matrix df cfg = Ok m →
  label ∈ columns m →
  ∃ row slot,
    row ∈ df ∧ slot ∈ slots row
    ∧ if change cfg
      then ∃ d ta tb na nb,
             slot.2 = Some d ∧ d ≠ 0%Z
             ∧ py_int (tumor_allele_a row) = Some ta
             ∧ py_int (tumor_allele_b row) = Some tb
             ∧ py_int (normal_allele_a row) = Some na
             ∧ py_int (normal_allele_b row) = Some nb
             ∧ (d = ((Py.sorted2 ta tb).1 - (Py.sorted2 na nb).1)%Z
                ∨ d = ((Py.sorted2 ta tb).2 - (Py.sorted2 na nb).2)%Z)
             ∧ label
               = match base_parts cfg (motif row) slot.1 with
                 | [] => ""
                 | ps => String.concat "_" ps +:+ "_"
                 end
                 +:+ (if (0 <? d)%Z then "+" else "-")
                 +:+ Py.str_of_Z (Z.abs d)
             ∧ Py.all_decimal_digits (Py.str_of_Z (Z.abs d)) = true
             ∧ (d < 0 → signed d = Py.str_of_Z d)%Z
      else label = String.concat "_" (base_parts cfg (motif row) slot.1)
           ∧ ∀ delta, make_feature cfg (motif row) slot.1 delta = Some label.
Proof.
  intros Hm Hin.
  destruct (build_columns cfg df m label Hm Hin) as (row & slot & Hrow & Hslot & Hf).
  exists row, slot. split; [done|]. split; [done|].
  pose proof (make_feature_spec _ _ _ _ _ Hf) as (Hna & Href & Hlabel).
  destruct (change cfg) eqn:Hc.
  - destruct Hlabel as (d & Hd & Hnz & ->).
    destruct (slot_change row slot d Hslot Hd) as (ta & tb & na & nb & H1 & H2 & H3 & H4 & H5).
    exists d, ta, tb, na, nb.
    destruct (signed_spec d Hnz) as [Hs Hdig].
    repeat (split; [done|]).
    split; [|split; [done|]].
    + rewrite concat_snoc, Hs.
      by destruct (base_parts cfg (motif row) slot.1).
    + intros Hneg. unfold signed.
      assert ((0 <? d)%Z = false) as -> by (apply Z.ltb_ge; lia). done.
  - split; [done|]. intros delta.
    unfold make_feature in *. rewrite Hc in *. exact Hf.
Qed.

Lemma labels_signed_change_witness :
  ∃ row slot,
    row ∈ [Samples.row_AT "s1"] ∧ slot ∈ slots row
    ∧ ∃ d ta tb na nb,
        slot.2 = Some d ∧ d ≠ 0%Z
        ∧ py_int (tumor_allele_a row) = Some ta
        ∧ py_int (tumor_allele_b row) = Some tb
        ∧ py_int (normal_allele_a row) = Some na
        ∧ py_int (normal_allele_b row) = Some nb
        ∧ (d = ((Py.sorted2 ta tb).1 - (Py.sorted2 na nb).1)%Z
           ∨ d = ((Py.sorted2 ta tb).2 - (Py.sorted2 na nb).2)%Z)
        ∧ "LEN2_10_+1"
          = match base_parts Samples.cfg_default (motif row) slot.1 with
            | [] => ""
            | ps => String.concat "_" ps +:+ "_"
            end
            +:+ (if (0 <? d)%Z then "+" else "-")
            +:+ Py.str_of_Z (Z.abs d)
        ∧ Py.all_decimal_digits (Py.str_of_Z (Z.abs d)) = true
        ∧ (d < 0 → signed d = Py.str_of_Z d)%Z.
Proof.
  apply (labels_signed_change [Samples.row_AT "s1"] Samples.cfg_default
           {| index := ["s1"]; columns := ["LEN2_10_+1"]; cells := [[1]] |}
           "LEN2_10_+1").
  - vm_compute. reflexivity.
  - apply list_elem_of_In. simpl. left. reflexivity.
Defined.

(** *** C8: the order of the rows *)

(** C8: the builder is a function of the table and the configuration, and
    two tables that are permutations of one another give the same result:
    the same row labels, the same column labels and the same cells; in a
    returned matrix the row labels and the column labels are sorted in the
    order of strings and without repetition. *)
Theorem build_row_order_invariant df df' cfg :
  df ≡ₚ df' →
  build_mutation_matrix df cfg = build_mutation_matrix df' cfg
  ∧ ∀ m, build_mutation_matrix df cfg = Ok m →
         Sorted String.le (index m) ∧ NoDup (index m)
         ∧ Sorted String.le (columns m) ∧ NoDup (columns m)
         ∧ ∀ s label, cell m s label = count_events (df_long cfg df') s label.
Proof.
  intros Hperm. split.
  - destruct df as [|row df].
    { by apply Permutation_nil_l in Hperm as ->. }
    apply build_of_events; [done| |by apply df_long_Permutation].
    intros ->. by apply Permutation_nil_r in Hperm.
  - intros m Hm.
    destruct (build_axes cfg df m Hm) as (H1 & H2 & H3 & H4).
    repeat (split; [done|]).
    intros s label.
    rewrite <- (count_events_Permutation _ _ _ _ (df_long_Permutation cfg _ _ Hperm)).
    apply build_returns in Hm as (_ & _ & Hm). revert Hm.
    destruct (df_long cfg df) as [|e ev]; intros [= ->]; [done|].
    apply cell_count_matrix.
Qed.

Lemma build_row_order_invariant_witness :
  build_mutation_matrix [Samples.row_AT "s2"; Samples.row_unchanged "s1"]
    Samples.cfg_ref_only
  = build_mutation_matrix [Samples.row_unchanged "s1"; Samples.row_AT "s2"]
      Samples.cfg_ref_only.
Proof.
  apply (build_row_order_invariant
           [Samples.row_AT "s2"; Samples.row_unchanged "s1"]
           [Samples.row_unchanged "s1"; Samples.row_AT "s2"]
           Samples.cfg_ref_only).
  apply perm_swap.
Defined.

(** *** C10: a missing motif *)

(** C10: a row whose motif cell is missing has no label for either allele
    slot, under every configuration, [ru=None] included; it has no events,
    and the matrix and every count of a table that holds the row are those
    of the other rows. *)
Theorem missing_motif_suppressed cfg row :
  isna (motif row) = true →
  mutation_type_a cfg row = None
  ∧ mutation_type_b cfg row = None
  ∧ row_events cfg row = []
  ∧ ∀ df1 df2,
      (df1 ++ df2 ≠ [] →
       build_mutation_matrix (df1 ++ row :: df2) cfg
       = build_mutation_matrix (df1 ++ df2) cfg)
      ∧ ∀ s label,
          count_events (df_long cfg (df1 ++ row :: df2)) s label
          = count_events (df_long cfg (df1 ++ df2)) s label.
Proof.
  intros Hna.
  assert (Ha : mutation_type_a cfg row = None).
  { unfold mutation_type_a, make_feature. by rewrite Hna. }
  assert (Hb : mutation_type_b cfg row = None).
  { unfold mutation_type_b, make_feature. by rewrite Hna. }
  assert (Hev : row_events cfg row = []).
  { unfold row_events, df_long, melt, dropna. cbn [fmap list_fmap app].
    cbn [omap list_omap snd]. by rewrite Ha, Hb. }
  repeat (split; [done|]).
  intros df1 df2. split; [intros Hne; by apply build_skip_row|].
  intros s label.
  rewrite (count_events_Permutation _ _ _ _ (df_long_middle _ _ _ _)).
  by rewrite Hev.
Qed.

Lemma missing_motif_suppressed_witness :
  mutation_type_a Samples.cfg_ref_only (Samples.row_no_motif "s1") = None
  ∧ mutation_type_b Samples.cfg_ref_only (Samples.row_no_motif "s1") = None
  ∧ row_events Samples.cfg_ref_only (Samples.row_no_motif "s1") = []
  ∧ ∀ df1 df2,
      (df1 ++ df2 ≠ [] →
       build_mutation_matrix (df1 ++ Samples.row_no_motif "s1" :: df2) Samples.cfg_ref_only
       = build_mutation_matrix (df1 ++ df2) Samples.cfg_ref_only)
      ∧ ∀ s label,
          count_events (df_long Samples.cfg_ref_only
                          (df1 ++ Samples.row_no_motif "s1" :: df2)) s label
          = count_events (df_long Samples.cfg_ref_only (df1 ++ df2)) s label.
Proof.
  apply (missing_motif_suppressed Samples.cfg_ref_only (Samples.row_no_motif "s1")).
  reflexivity.
Defined.

End MatrixBuilderProps.

(** ** Further properties of the extractor *)

Module ExtractorMore.
Import Extractor ExtractorNotions ExtractorProps.

(** *** Splitting *)

Lemma split_cons_form sep s : ∃ w ws, Py.split sep s = w :: ws.
Proof.
  destruct s as [|c s]; cbn [Py.split]; [eauto|].
  destruct (Ascii.eqb c sep); [eauto|].
  destruct (Py.split sep s); eauto.
Qed.

Lemma length_split sep s : length (Py.split sep s) = S (occurrences sep s).
Proof.
  induction s as [|c s IH]; [done|]. cbn [Py.split occurrences].
  destruct (Ascii.eqb c sep); cbn [length]; [by rewrite IH|].
  destruct (split_cons_form sep s) as (w & ws & E). rewrite E in *.
  cbn [length] in *. lia.
Qed.

Lemma join_split sep s :
  String.concat (String sep "") (Py.split sep s) = s.
Proof.
  induction s as [|c s IH]; [done|]. cbn [Py.split].
  destruct (Ascii.eqb_spec c sep) as [->|Hne].
  - destruct (split_cons_form sep s) as (w & ws & E). rewrite E in *.
    change (String.concat (String sep "") ("" :: w :: ws))
      with (String sep (String.concat (String sep "") (w :: ws))).
    by rewrite IH.
  - destruct (split_cons_form sep s) as (w & ws & E). rewrite E in *.
    rewrite <- IH. by destruct ws.
Qed.

Lemma occurrences_app sep (a b : string) :
  occurrences sep (a +:+ b) = occurrences sep a + occurrences sep b.
Proof.
  induction a as [|x a IH]; [done|].
  change (String x a +:+ b) with (String x (a +:+ b)).
  cbn [occurrences]. rewrite IH. lia.
Qed.

Lemma split_once_None sep s :
  Py.split_once sep s = None ↔ occurrences sep s = 0.
Proof.
  induction s as [|c s IH]; [done|]. cbn [Py.split_once occurrences].
  destruct (Ascii.eqb c sep); [done|].
  destruct (Py.split_once sep s) as [[k v]|]; cbn; [|tauto].
  split; [done|]. intros H. by apply IH in H.
Qed.

Lemma split_once_Some sep s k v :
  Py.split_once sep s = Some (k, v) →
  s = k +:+ String sep v ∧ occurrences sep k = 0.
Proof.
  revert k. induction s as [|c s IH]; intros k; [done|]. cbn [Py.split_once].
  destruct (Ascii.eqb_spec c sep) as [->|Hne].
  - by intros [= <- <-].
  - destruct (Py.split_once sep s) as [[k' v']|]; [|done].
    intros [= <- <-]. destruct (IH k' eq_refl) as [-> Hk].
    split; [done|]. cbn [occurrences].
    destruct (Ascii.eqb_spec c sep); [done|]. by rewrite Hk.
Qed.

(** *** [parse_info] *)

Definition info_step (info : gmap string string) (item : string) : gmap string string :=
  match Py.split_once "=" item with
  | Some (key, val) => <[key := val]> info
  | None => info
  end.

Lemma foldl_info_other (items : list string) (m : gmap string string) k :
  Forall (λ item, item_key item ≠ Some k) items →
  foldl info_step m items !! k = m !! k.
Proof.
  revert m. induction items as [|item items IH]; intros m Hall; [done|].
  inversion Hall as [|? ? Hitem Hrest]; subst. cbn [foldl].
  rewrite IH by done. unfold info_step, item_key in *.
  destruct (Py.split_once "=" item) as [[key val]|]; [|done].
  rewrite lookup_insert_ne; [done|]. cbn in Hitem. congruence.
Qed.

(** X1 [parse_info]: a key reads as the value of the last [key=value] item
    that carries it, cut at the first equals sign of the item (the value may
    hold further equals signs); a key that no item carries is absent, and
    items without an equals sign are passed over. *)
Theorem parse_info_last_wins info_field :
  (∀ k, Forall (λ item, item_key item ≠ Some k) (Py.split ";" info_field) →
        parse_info info_field !! k = None)
  ∧ (∀ before item after k v,
       Py.split ";" info_field = before ++ item :: after →
       Py.split_once "=" item = Some (k, v) →
       Forall (λ item', item_key item' ≠ Some k) after →
       parse_info info_field !! k = Some v
       ∧ item = k +:+ String "=" v
       ∧ occurrences "=" k = 0).
Proof.
  split.
  - intros k Hall. unfold parse_info.
    change (foldl info_step ∅ (Py.split ";" info_field) !! k = None).
    by rewrite foldl_info_other.
  - intros before item after k v Hsplit Hitem Hafter. unfold parse_info.
    change (foldl info_step ∅ (Py.split ";" info_field) !! k = Some v
            ∧ item = k +:+ String "=" v ∧ occurrences "=" k = 0).
    rewrite Hsplit, foldl_app. cbn [foldl].
    rewrite foldl_info_other by done.
    split; [|by apply split_once_Some].
    unfold info_step at 1. rewrite Hitem. apply lookup_insert_eq.
Qed.

Lemma parse_info_last_wins_witness :
  parse_info "A=1;B;C=2=3;A=4" !! "B" = None
  ∧ parse_info "A=1;B;C=2=3;A=4" !! "A" = Some "4"
  ∧ parse_info "A=1;B;C=2=3;A=4" !! "C" = Some "2=3".
Proof.
  split; [|split].
  - apply (proj1 (parse_info_last_wins "A=1;B;C=2=3;A=4") "B").
    repeat constructor; vm_compute; discriminate.
  - apply (proj2 (parse_info_last_wins "A=1;B;C=2=3;A=4")
             ["A=1"; "B"; "C=2=3"] "A=4" [] "A" "4").
    + vm_compute. reflexivity.
    + vm_compute. reflexivity.
    + constructor.
  - apply (proj2 (parse_info_last_wins "A=1;B;C=2=3;A=4")
             ["A=1"; "B"] "C=2=3" ["A=4"] "C" "2=3").
    + vm_compute. reflexivity.
    + vm_compute. reflexivity.
    + repeat constructor. vm_compute. discriminate.
Defined.

(** *** [parse_repcn] *)

(** X2 [parse_repcn]: a field without a comma gives that field for both
    alleles; a field with exactly one comma gives the text before and the
    text after the comma; a field with two or more commas gives the
    missing-value pair. *)
Theorem parse_repcn_by_commas repcn_str :
  match occurrences "," repcn_str with
  | 0 => parse_repcn repcn_str = (repcn_str, repcn_str)
  | 1 => ∃ a b, repcn_str = a +:+ String "," b
                ∧ occurrences "," a = 0 ∧ occurrences "," b = 0
                ∧ parse_repcn repcn_str = (a, b)
  | _ => parse_repcn repcn_str = (".", ".")
  end.
Proof.
  pose proof (length_split "," repcn_str) as Hlen.
  pose proof (join_split "," repcn_str) as Hjoin.
  unfold parse_repcn.
  destruct (occurrences "," repcn_str) as [|[|n]] eqn:Hocc.
  - destruct (Py.split "," repcn_str) as [|a [|b l]]; try done.
    cbn in Hjoin. by subst.
  - destruct (Py.split "," repcn_str) as [|a [|b [|c l]]] eqn:Hs; try done.
    exists a, b.
    change (String.concat "," [a; b]) with (a +:+ String "," b) in Hjoin.
    split; [done|].
    subst repcn_str. rewrite occurrences_app in Hocc.
    cbn [occurrences] in Hocc. change (Ascii.eqb "," ",") with true in Hocc.
    cbv iota in Hocc. split; [lia|]. split; [lia|].
    done.
  - destruct (Py.split "," repcn_str) as [|a [|b [|c l]]]; try done.
Qed.

(** *** The loop body, branch by branch *)

Lemma is_header_comment line :
  is_header line = true → Py.startswith line "#" = true.
Proof. apply startswith_header_comment. Qed.

Lemma header_not_reaching line :
  is_header line = true → reaches_format line = false ∧ rejected_by_filter line = false.
Proof.
  intros H%is_header_comment. unfold reaches_format, rejected_by_filter.
  by rewrite H.
Qed.

Lemma process_line_short_header {path} name st line :
  short_header line = true →
  process_line path name st line
  = Raise (too_few_samples (drop 9 (Py.split tab (Py.strip line)))).
Proof.
  unfold short_header, is_header, process_line.
  intros [Hh Hlen]%andb_true_iff. rewrite Hh.
  rewrite length_drop.
  apply Nat.ltb_lt in Hlen.
  assert ((length (Py.split tab (Py.strip line)) - 9 <? 2)%nat = true) as ->
    by (apply Nat.ltb_lt; lia).
  reflexivity.
Qed.

Lemma process_line_header {path} name st line :
  is_header line = true → short_header line = false →
  process_line path name st line = Ok (set_header st (Py.split tab (Py.strip line))).
Proof.
  unfold short_header, is_header, process_line. intros Hh. rewrite Hh. cbn [andb].
  intros Hlen%Nat.ltb_ge. rewrite length_drop.
  assert ((length (Py.split tab (Py.strip line)) - 9 <? 2)%nat = false) as ->
    by (apply Nat.ltb_ge; lia).
  reflexivity.
Qed.

Lemma process_line_inert {path} name st line :
  inert line = true → process_line path name st line = Ok st.
Proof.
  unfold inert, is_header, reaches_format, rejected_by_filter, process_line, process_cols.
  intros [[Hh Hr]%andb_true_iff Hj]%andb_true_iff.
  apply negb_true_iff in Hh, Hr, Hj. rewrite Hh.
  destruct (Py.startswith line "#"); [done|]. cbn [negb andb] in *.
  destruct (length (Py.split tab (Py.strip line)) <? 10)%nat eqn:Hlen; [done|].
  apply Nat.ltb_ge in Hlen.
  assert ((10 <=? length (Py.split tab (Py.strip line)))%nat = true) as Hle
    by (by apply Nat.leb_le).
  rewrite Hle in Hr, Hj. cbn [andb] in *.
  destruct (String.eqb (col (Py.split tab (Py.strip line)) 6) "PASS"); [|done].
  cbn [negb andb] in *. apply negb_false_iff in Hr. by rewrite Hr.
Qed.

Lemma process_line_rejected_line {path} name st line :
  rejected_by_filter line = true →
  process_line path name st line = Ok (count_rejected st).
Proof.
  unfold rejected_by_filter, process_line, process_cols.
  intros [[Hc Hlen]%andb_true_iff Hp]%andb_true_iff.
  apply negb_true_iff in Hc.
  destruct (Py.startswith line "#CHROM") eqn:Hh.
  { apply startswith_header_comment in Hh. congruence. }
  rewrite Hc. apply Nat.leb_le in Hlen.
  assert ((length (Py.split tab (Py.strip line)) <? 10)%nat = false) as ->
    by (apply Nat.ltb_ge; lia).
  by rewrite Hp.
Qed.

Lemma process_line_reaching {path} name st line :
  reaches_format line = true →
  process_line path name st line
  = process_call path name st (Py.split tab (Py.strip line))
      (parse_info (col (Py.split tab (Py.strip line)) 7)).
Proof.
  unfold reaches_format, process_line, process_cols.
  intros [[[Hc Hlen]%andb_true_iff Hp]%andb_true_iff Hf]%andb_true_iff.
  apply negb_true_iff in Hc, Hf.
  destruct (Py.startswith line "#CHROM") eqn:Hh.
  { apply startswith_header_comment in Hh. congruence. }
  rewrite Hc. apply Nat.leb_le in Hlen.
  assert ((length (Py.split tab (Py.strip line)) <? 10)%nat = false) as ->
    by (apply Nat.ltb_ge; lia).
  by rewrite Hp, Hf.
Qed.

(** Every line is of exactly one kind. *)
Lemma line_kinds line :
  (is_header line = true ∧ reaches_format line = false ∧ rejected_by_filter line = false)
  ∨ (is_header line = false ∧ reaches_format line = true ∧ rejected_by_filter line = false)
  ∨ (is_header line = false ∧ reaches_format line = false ∧ rejected_by_filter line = true)
  ∨ inert line = true.
Proof.
  unfold inert.
  destruct (is_header line) eqn:Hh.
  { left. by destruct (header_not_reaching line Hh). }
  unfold reaches_format, rejected_by_filter.
  destruct (Py.startswith line "#"); cbn [negb andb]; [naive_solver|].
  destruct (10 <=? _)%nat; cbn [andb]; [|naive_solver].
  destruct (String.eqb _ "PASS"); cbn [negb andb]; [|naive_solver].
  destruct (String.eqb _ "FALSE"); cbn [negb andb]; naive_solver.
Qed.

Lemma sample_columns_unset {path} st cols :
  normal_idx st = None →
  sample_columns path st cols
  = Raise (TypeError "list indices must be integers or slices, not NoneType").
Proof. unfold sample_columns, getitem. by intros ->. Qed.

Lemma sample_columns_short {path} st (cols : list string) :
  normal_idx st = Some 9 → tumor_idx st = Some 10 → length cols = 10 →
  sample_columns path st cols
  = Raise (no_sample_columns path).
Proof.
  unfold sample_columns, getitem. intros -> -> Hlen.
  destruct (lookup_lt_is_Some_2 cols 9) as [x Hx]; [lia|]. rewrite Hx.
  cbn [mbind result_bind]. by rewrite lookup_ge_None_2 by lia.
Qed.

Lemma sample_columns_ok {path} st (cols : list string) :
  normal_idx st = Some 9 → tumor_idx st = Some 10 → (11 ≤ length cols)%nat →
  sample_columns path st cols = Ok (col cols 9, col cols 10).
Proof.
  unfold sample_columns, getitem, col. intros -> -> Hlen. rewrite !nth_lookup.
  destruct (lookup_lt_is_Some_2 cols 9) as [x Hx]; [lia|].
  destruct (lookup_lt_is_Some_2 cols 10) as [y Hy]; [lia|].
  by rewrite Hx, Hy.
Qed.

Lemma with_format_fields st cols :
  normal_idx (with_format st cols) = normal_idx st
  ∧ tumor_idx (with_format st cols) = tumor_idx st
  ∧ rows (with_format st cols) = rows st
  ∧ written_variants (with_format st cols) = written_variants st
  ∧ filter_not_passed_count (with_format st cols) = filter_not_passed_count st.
Proof. unfold with_format. by destruct (format_fields st). Qed.

Lemma process_call_raise {path} name st cols info e :
  sample_columns path (with_format st cols) cols = Raise e →
  process_call path name st cols info = Raise e.
Proof.
  unfold process_call. fold (with_format st cols). by intros ->.
Qed.

Lemma process_call_ok {path} name st cols info ns ts :
  sample_columns path (with_format st cols) cols = Ok (ns, ts) →
  ∃ st', process_call path name st cols info = Ok st'
         ∧ normal_idx st' = normal_idx st ∧ tumor_idx st' = tumor_idx st.
Proof.
  unfold process_call. fold (with_format st cols). intros ->.
  cbn [mbind result_bind].
  destruct (with_format_fields st cols) as (Hn & Ht & _).
  destruct (get_repcn _ ns) as [n_a n_b], (get_repcn _ ts) as [t_a t_b].
  destruct (negb _); eexists; (split; [reflexivity|]); cbn; by rewrite ?Hn, ?Ht.
Qed.

(** *** Which exception, and when *)

Lemma first_error_cons {path} seen line rest :
  first_error path seen (line :: rest) =
    match first_error path seen [line] with
    | Some e => Some e
    | None => first_error path (seen || is_header line) rest
    end.
Proof.
  cbn [first_error].
  destruct (is_header line); [destruct (short_header line); by rewrite ?orb_true_r|].
  rewrite orb_false_r.
  destruct (reaches_format line); [|done].
  destruct seen; cbn [negb]; [|done]. by destruct (lacks_tumor_column line).
Qed.

Lemma header_seen_spec st :
  indices_consistent st →
  (header_seen st = true ∧ normal_idx st = Some 9 ∧ tumor_idx st = Some 10)
  ∨ (header_seen st = false ∧ normal_idx st = None ∧ tumor_idx st = None).
Proof. unfold header_seen. intros [[-> ->]|[-> ->]]; auto. Qed.

Lemma process_line_outcome {path} name st line :
  indices_consistent st →
  match first_error path (header_seen st) [line] with
  | Some e => process_line path name st line = Raise e
  | None => ∃ st', process_line path name st line = Ok st'
                   ∧ indices_consistent st'
                   ∧ header_seen st' = header_seen st || is_header line
  end.
Proof.
  intros Hst. cbn [first_error].
  destruct (line_kinds line) as [(Hh & Hr & Hj) | [(Hh & Hr & Hj) | [(Hh & Hr & Hj) | Hi]]].
  - rewrite Hh. destruct (short_header line) eqn:Hs.
    + by apply process_line_short_header.
    + eexists. split; [by apply process_line_header|].
      split; [by right|]. by rewrite orb_true_r.
  - rewrite Hh, Hr, orb_false_r.
    rewrite process_line_reaching by done.
    destruct (header_seen_spec st Hst) as [(-> & Hn & Ht) | (-> & Hn & Ht)]; cbn [negb].
    + destruct (with_format_fields st (Py.split tab (Py.strip line))) as (Hn' & Ht' & _).
      destruct (lacks_tumor_column line) eqn:Hl.
      * apply process_call_raise. apply sample_columns_short; [congruence..|].
        unfold lacks_tumor_column in Hl. rewrite Hr in Hl. by apply Nat.eqb_eq in Hl.
      * assert (11 ≤ length (Py.split tab (Py.strip line)))%nat as Hlen.
        { unfold lacks_tumor_column in Hl. rewrite Hr in Hl. apply Nat.eqb_neq in Hl.
          unfold reaches_format in Hr. rewrite !andb_true_iff in Hr.
          destruct Hr as [[[_ Hle] _] _]. apply Nat.leb_le in Hle. lia. }
        edestruct (process_call_ok (path:=path) name st) as (st' & -> & Hn2 & Ht2).
        { apply sample_columns_ok; [congruence..|done]. }
        exists st'. split; [done|]. split; [right; split; congruence|].
        unfold header_seen. by rewrite Hn2, Ht2, Hn, Ht.
    + apply process_call_raise. apply sample_columns_unset.
      destruct (with_format_fields st (Py.split tab (Py.strip line))) as (Hn' & _).
      congruence.
  - rewrite Hh, Hr, orb_false_r. exists (count_rejected st).
    split; [by apply process_line_rejected_line|]. done.
  - unfold inert in Hi. rewrite !andb_true_iff, !negb_true_iff in Hi.
    destruct Hi as [[Hh Hr] Hj]. rewrite Hh, Hr, orb_false_r. exists st.
    split; [|done]. apply process_line_inert. unfold inert. by rewrite Hh, Hr, Hj.
Qed.

Lemma scan_lines_outcome {path} name lines : ∀ st,
  indices_consistent st →
  match first_error path (header_seen st) lines with
  | Some e => scan_lines path name st lines = Raise e
  | None => ∃ st', scan_lines path name st lines = Ok st'
  end.
Proof.
  induction lines as [|line rest IH]; intros st Hst; [by exists st|].
  rewrite first_error_cons. cbn [scan_lines].
  pose proof (process_line_outcome (path:=path) name st line Hst) as H.
  destruct (first_error path (header_seen st) [line]) as [e|].
  - by rewrite H.
  - destruct H as (st' & -> & Hst' & <-). cbn [mbind result_bind].
    by apply IH.
Qed.

(** X3: which exception a file raises, and when, can be read off its
    path, the kinds of its lines and the sample columns of its header
    lines.  The first header line with fewer than two sample columns
    raises the ValueError of the header check, whose message lists the
    sample columns of that line; the first call that gets past the tests
    before any header line raises a TypeError (the sample index is still
    None); the first such call with exactly 10 columns after a header
    raises the ValueError of the missing sample column, whose message
    names the path; whichever comes first.  A file none of whose lines
    does so raises exactly when reading it raises, and otherwise
    returns. *)
Theorem process_vcf_to_rows_error path f :
  match first_error path false (file_lines f), file_error f with
  | Some e, _ => process_vcf_to_rows path f = Raise e
  | None, Some e => process_vcf_to_rows path f = Raise e
  | None, None => ∃ rows summary, process_vcf_to_rows path f = Ok (rows, summary)
  end.
Proof.
  unfold process_vcf_to_rows.
  pose proof (scan_lines_outcome (path:=path) (sample_name_of path) (file_lines f) init_state) as H.
  change (header_seen init_state) with false in H.
  destruct (first_error path false (file_lines f)) as [e|].
  - rewrite H; [done|by left].
  - destruct H as (st' & ->); [by left|]. cbn [mbind result_bind].
    destruct (file_error f); eauto.
Qed.

Example process_vcf_to_rows_messages :
  process_vcf_to_rows "in/s1.vcf" (Samples.file_of [Samples.short_header])
  = Raise (ValueError "Expected at least 2 samples (normal, tumor) in VCF: ['NORMAL']")
  ∧ process_vcf_to_rows "in/s1.vcf"
      (Samples.file_of [Samples.header; LegacySamples.call_ten_columns])
    = Raise (ValueError
               "VCF in/s1.vcf does not contain expected normal/tumor sample columns.")
  ∧ process_vcf_to_rows "in/s1.vcf" (Samples.file_of [Samples.call_8_11])
    = Raise (TypeError "list indices must be integers or slices, not NoneType").
Proof. repeat split; vm_compute; reflexivity. Qed.

(** *** Lines without effect *)






(** *** Where the records come from *)

Lemma process_call_record {path} name st cols info st' :
  process_call path name st cols info = Ok st' →
  rows st' = rows st
  ∨ ∃ r, rows st' = rows st ++ [r]
         ∧ sample r = name
         ∧ tmp_id r = col cols 0 +:+ "_" +:+ col cols 1
         ∧ end_ r = dict_get info "END" ""
         ∧ period r = dict_get info "PERIOD" ""
         ∧ ref r = dict_get info "REF" ""
         ∧ motif r = dict_get info "RU" "".
Proof.
  unfold process_call. fold (with_format st cols).
  destruct (with_format_fields st cols) as (_ & _ & Hr & _).
  destruct (sample_columns path (with_format st cols) cols) as [[ns ts]|e]; [|done].
  cbn [mbind result_bind].
  destruct (get_repcn _ ns) as [n_a n_b], (get_repcn _ ts) as [t_a t_b].
  destruct (negb _); intros [= <-].
  - by left.
  - right. eexists. cbn [rows append_row]. rewrite Hr. repeat split.
Qed.

Lemma process_line_record {path} name st line st' :
  process_line path name st line = Ok st' →
  rows st' = rows st
  ∨ ∃ r, rows st' = rows st ++ [r] ∧ record_source name line r.
Proof.
  intros H. pose proof H as Hc. apply process_line_cases in Hc. cbv zeta in Hc.
  destruct Hc as [(_ & _ & _ & [-> | [h ->]]) | [(_ & _ & ->) | [(_ & _ & ->) | (Hr & _ & Hc)]]];
    try (by left).
  apply process_call_record in Hc as [?|(r & ? & ?)]; [by left|].
  right. exists r. split; [done|]. unfold record_source. cbv zeta. by split.
Qed.

Lemma scan_lines_trace {path} name lines : ∀ st st',
  scan_lines path name st lines = Ok st' →
  ∃ sources new,
    rows st' = rows st ++ new
    ∧ sublist sources lines
    ∧ Forall2 (record_source name) sources new.
Proof.
  induction lines as [|line rest IH]; intros st st' H.
  - injection H as <-. exists [], []. by rewrite app_nil_r.
  - apply scan_lines_cons_inv in H as (st1 & H1 & H2).
    apply IH in H2 as (sources & new & Hr & Hsub & Hall).
    apply process_line_record in H1 as [Hr1 | (r & Hr1 & Hsrc)].
    + exists sources, new. rewrite Hr, Hr1. split; [done|].
      split; [by apply sublist_cons|done].
    + exists (line :: sources), (r :: new). rewrite Hr, Hr1, <- app_assoc.
      split; [done|]. split; [by apply sublist_skip|by constructor].
Qed.

(** X6: the records of a file are emitted in the order of its lines, at
    most one per line and only for lines that got past the tests (never for
    a header, a comment, a short line, a call rejected by FILTER or marked
    PERFECT=FALSE); each record carries the sample name of the file, the
    chromosome and position of its line joined by an underscore, and the
    END, PERIOD, REF and RU values of its INFO column, the empty string
    for a key that is absent. *)
Theorem records_trace_to_lines path f rows summary :
  process_vcf_to_rows path f = Ok (rows, summary) →
  ∃ sources,
    sublist sources (file_lines f)
    ∧ Forall2 (record_source (sample_name_of path)) sources rows
    ∧ (length rows ≤ length (List.filter reaches_format (file_lines f)))%nat.
Proof.
  unfold process_vcf_to_rows.
  destruct (scan_lines _ _ init_state (file_lines f)) as [st|e] eqn:Hscan; [|done].
  cbn [mbind result_bind]. destruct (file_error f); [done|]. intros [= <- <-].
  apply scan_lines_trace in Hscan as (sources & new & Hr & Hsub & Hall).
  cbn [rows init_state app] in Hr. subst new.
  exists sources. split; [done|]. split; [done|].
  rewrite <- (Forall2_length _ _ _ Hall).
  assert (Hreach : Forall (λ l, reaches_format l = true) sources).
  { clear -Hall. induction Hall as [|l r ls rs [H _] _ IH]; constructor; done. }
  clear -Hsub Hreach.
  induction Hsub as [|x l1 l2 _ IH|x l1 l2 _ IH]; [done| |].
  - inversion Hreach as [|? ? Hx Hrest]; subst. cbn [List.filter]. rewrite Hx.
    cbn [length]. specialize (IH Hrest). lia.
  - cbn [List.filter]. specialize (IH Hreach).
    destruct (reaches_format x); cbn [length]; lia.
Qed.

Lemma records_trace_to_lines_witness :
  ∃ sources,
    sublist sources [Samples.header; Samples.lowq_other_format; Samples.call_8_11]
    ∧ Forall2 (record_source (sample_name_of "in/s1.vcf")) sources [Samples.record_8_11]
    ∧ (length [Samples.record_8_11]
       ≤ length (List.filter reaches_format
                   [Samples.header; Samples.lowq_other_format; Samples.call_8_11]))%nat.
Proof.
  apply (records_trace_to_lines "in/s1.vcf"
           (Samples.file_of [Samples.header; Samples.lowq_other_format; Samples.call_8_11])
           [Samples.record_8_11] (Some (1%nat, 100 # 2))).
  vm_compute. reflexivity.
Defined.

(** X7: reading more lines only appends records: when a file is processed
    without error, so is every file made of its first lines, and the
    records of the shorter file are the first records of the longer one. *)
Theorem rows_of_prefix path lines1 lines2 rows summary :
  process_vcf_to_rows path {| file_lines := lines1 ++ lines2; file_error := None |}
  = Ok (rows, summary) →
  ∃ rows1 summary1 more,
    process_vcf_to_rows path {| file_lines := lines1; file_error := None |}
    = Ok (rows1, summary1)
    ∧ rows = rows1 ++ more.
Proof.
  unfold process_vcf_to_rows. cbn [file_lines file_error].
  rewrite scan_lines_app.
  destruct (scan_lines _ _ init_state lines1) as [st1|e]; [|done].
  cbn [mbind result_bind].
  destruct (scan_lines path _ st1 lines2) as [st2|e] eqn:H2; [|done].
  cbn [mbind result_bind]. intros [= <- <-].
  apply scan_lines_rows in H2 as (new & Hr & _).
  exists (Extractor.rows st1), (filter_summary st1), new. done.
Qed.

Lemma rows_of_prefix_witness :
  ∃ rows1 summary1 more,
    process_vcf_to_rows "in/s1.vcf"
      {| file_lines := [Samples.header; Samples.call_8_11]; file_error := None |}
    = Ok (rows1, summary1)
    ∧ [Samples.record_8_11; Samples.record_half] = rows1 ++ more.
Proof.
  apply (rows_of_prefix "in/s1.vcf" [Samples.header; Samples.call_8_11]
           [Samples.call_half] [Samples.record_8_11; Samples.record_half]
           (Some (0%nat, 0 # 2))).
  vm_compute. reflexivity.
Defined.

(** *** A FORMAT without REPCN *)

Lemma dict_zip_absent (keys values : list string) (m : gmap string string) k :
  k ∉ take (length values) keys →
  foldl (λ d kv, <[kv.1 := kv.2]> d) m (zip keys values) !! k = m !! k.
Proof.
  revert values m. induction keys as [|key keys IH]; intros values m Hk; [done|].
  destruct values as [|v values]; [done|].
  cbn [zip zip_with foldl length take fst snd] in *.
  rewrite IH by (intros ?; apply Hk; by right).
  apply lookup_insert_ne. intros ->. apply Hk. left.
Qed.

Lemma get_repcn_missing format_fields sample_str :
  "REPCN" ∉ take (length (Py.split ":" sample_str)) format_fields →
  get_repcn format_fields sample_str = (".", ".").
Proof.
  intros H. unfold get_repcn, dict_get, dict_zip.
  by rewrite dict_zip_absent.
Qed.

Lemma not_in_take {A} (l : list A) n x : x ∉ l → x ∉ take n l.
Proof. intros H Hin. apply H. by apply (subseteq_take n l). Qed.

Lemma process_line_no_repcn {path} name st line st' ff :
  format_fields st = Some ff → "REPCN" ∉ ff →
  process_line path name st line = Ok st' →
  rows st' = rows st ∧ format_fields st' = Some ff.
Proof.
  intros Hff Hno H. pose proof (process_line_format (path:=path) _ _ _ _ H) as Hf.
  rewrite Hff in Hf. split; [|done].
  apply process_line_cases in H. cbv zeta in H.
  destruct H as [(_ & _ & _ & [-> | [h ->]]) | [(_ & _ & ->) | [(_ & _ & ->) | (_ & _ & H)]]];
    try done.
  apply process_call_spec in H as (ns & ts & H). cbv zeta in H.
  destruct H as (_ & _ & _ & _ & _ & _ & H). rewrite Hff in H.
  rewrite (get_repcn_missing ff ns) in H by (by apply not_in_take).
  by destruct H.
Qed.

Lemma scan_lines_no_repcn {path} name lines : ∀ st st' ff,
  format_fields st = Some ff → "REPCN" ∉ ff →
  scan_lines path name st lines = Ok st' →
  rows st' = rows st.
Proof.
  induction lines as [|line rest IH]; intros st st' ff Hff Hno H.
  - by injection H as <-.
  - apply scan_lines_cons_inv in H as (st1 & H1 & H2).
    destruct (process_line_no_repcn (path:=path) _ _ _ _ _ Hff Hno H1) as [Hr Hf].
    rewrite <- Hr. by apply (IH st1 st' ff).
Qed.

Lemma scan_lines_not_reaching {path} name lines : ∀ st st',
  Forall (λ l, reaches_format l = false) lines →
  scan_lines path name st lines = Ok st' →
  rows st' = rows st.
Proof.
  induction lines as [|line rest IH]; intros st st' Hall H.
  - by injection H as <-.
  - apply scan_lines_cons_inv in H as (st1 & H1 & H2).
    inversion Hall as [|? ? Hl Hrest]; subst.
    rewrite (IH st1 st' Hrest H2).
    apply process_line_cases in H1. cbv zeta in H1.
    destruct H1 as [(_ & _ & _ & [-> | [h ->]]) | [(_ & _ & ->) | [(_ & _ & ->) | (Hr & _)]]];
      try done. congruence.
Qed.

(** X8: the FORMAT of the first call that gets past the tests decides for
    the whole file: when its key list has no REPCN, the file yields no
    record at all, whatever the FORMAT columns of the later lines say. *)
Theorem no_repcn_no_records path before line after err rows summary :
  Forall (λ l, reaches_format l = false) before →
  reaches_format line = true →
  "REPCN" ∉ format_of_line line →
  process_vcf_to_rows path {| file_lines := before ++ line :: after; file_error := err |}
  = Ok (rows, summary) →
  rows = [].
Proof.
  intros Hbefore Hline Hno. unfold process_vcf_to_rows. cbn [file_lines file_error].
  rewrite scan_lines_app.
  destruct (scan_lines _ _ init_state before) as [st1|e] eqn:H1; [|done].
  cbn [mbind result_bind].
  destruct (scan_lines path _ st1 (line :: after)) as [st2|e] eqn:H2; [|done].
  cbn [mbind result_bind]. destruct err; [done|]. intros [= <- <-].
  pose proof (scan_lines_not_reaching (path:=path) _ _ _ _ Hbefore H1) as Hr1.
  pose proof (scan_lines_format_unset (path:=path) _ init_state _ _ eq_refl Hbefore H1) as Hf1.
  apply scan_lines_cons_inv in H2 as (st1' & Hl & H2).
  pose proof (process_line_format (path:=path) _ _ _ _ Hl) as Hf. rewrite Hf1, Hline in Hf.
  rewrite (scan_lines_no_repcn (path:=path) _ _ _ _ _ Hf Hno H2).
  apply process_line_cases in Hl. cbv zeta in Hl.
  destruct Hl as [(_ & ? & _) | [(? & _) | [(? & _) | (_ & _ & Hl)]]]; try congruence.
  apply process_call_spec in Hl as (ns & ts & Hl). cbv zeta in Hl.
  destruct Hl as (_ & _ & _ & _ & _ & _ & Hl). rewrite Hf1 in Hl.
  fold (format_of_line line) in Hl.
  rewrite (get_repcn_missing (format_of_line line) ns) in Hl by (by apply not_in_take).
  destruct Hl as [-> _]. by rewrite Hr1.
Qed.

Lemma no_repcn_no_records_witness :
  let line := Samples.tsv ["chr1"; "90"; "."; "A"; "."; "."; "PASS"; Samples.info_AT;
                           "GT:DP"; "0/1:8"; "0/1:9"] in
  process_vcf_to_rows "in/s1.vcf"
    {| file_lines := [Samples.header] ++ line :: [Samples.call_8_11];
       file_error := None |}
  = Ok ([], None)
  ∧ ([] : list MutationRecord) = [].
Proof.
  split; [vm_compute; reflexivity|].
  apply (no_repcn_no_records "in/s1.vcf" [Samples.header]
           (Samples.tsv ["chr1"; "90"; "."; "A"; "."; "."; "PASS"; Samples.info_AT;
                         "GT:DP"; "0/1:8"; "0/1:9"])
           [Samples.call_8_11] None [] None).
  - repeat constructor.
  - vm_compute. reflexivity.
  - vm_compute. intros H. repeat (apply elem_of_cons in H as [H|H]; [discriminate H|]).
    inversion H.
  - vm_compute. reflexivity.
Defined.

(** *** The sample name of a file *)

Lemma str_app_nil_r (s : string) : s +:+ "" = s.
Proof.
  induction s as [|c s IH]; [done|].
  change (String c s +:+ "") with (String c (s +:+ "")). by rewrite IH.
Qed.

Lemma remove_aux_no_dot old stem rest :
  occurrences "." stem = 0 →
  Py.remove_aux (String "." old) (stem +:+ rest) 0
  = stem +:+ Py.remove_aux (String "." old) rest 0.
Proof.
  induction stem as [|c stem IH]; [done|]. cbn [occurrences].
  destruct (Ascii.eqb_spec c ".") as [->|Hne]; [done|]. intros Hocc.
  change (String c stem +:+ rest) with (String c (stem +:+ rest)).
  cbn [Py.remove_aux].
  destruct (String.prefix (String "." old) (String c (stem +:+ rest))) eqn:Hp.
  - exfalso. cbn [String.prefix] in Hp. destruct (ascii_dec "." c); [congruence|done].
  - rewrite IH by done. done.
Qed.

(** X9: the sample name of a file is its base name without the extension
    [.vcf]; for a compressed file [stem.vcf.gz] it is [stem.gz], since the
    first replacement takes [.vcf] out and leaves the second nothing to
    match.  (For a stem without a dot.) *)
Theorem sample_name_by_extension path stem :
  occurrences "." stem = 0 →
  (Py.basename path = stem +:+ ".vcf" → sample_name_of path = stem)
  ∧ (Py.basename path = stem +:+ ".vcf.gz" → sample_name_of path = stem +:+ ".gz").
Proof.
  intros Hstem. unfold sample_name_of, Py.remove_all. split; intros ->.
  - rewrite (remove_aux_no_dot "vcf" stem ".vcf") by done.
    change (Py.remove_aux ".vcf" ".vcf" 0) with "". rewrite str_app_nil_r.
    rewrite <- (str_app_nil_r stem) at 1.
    rewrite (remove_aux_no_dot "vcf.gz" stem "") by done.
    change (Py.remove_aux ".vcf.gz" "" 0) with "". apply str_app_nil_r.
  - rewrite (remove_aux_no_dot "vcf" stem ".vcf.gz") by done.
    change (Py.remove_aux ".vcf" ".vcf.gz" 0) with ".gz".
    rewrite (remove_aux_no_dot "vcf.gz" stem ".gz") by done.
    done.
Qed.

Lemma sample_name_by_extension_witness :
  sample_name_of "in/s1.vcf" = "s1" ∧ sample_name_of "in/s1.vcf.gz" = "s1.gz".
Proof.
  split.
  - apply (proj1 (sample_name_by_extension "in/s1.vcf" "s1" eq_refl)). reflexivity.
  - apply (proj2 (sample_name_by_extension "in/s1.vcf.gz" "s1" eq_refl)). reflexivity.
Defined.

(** *** The scan of a directory *)

Lemma parse_one_unrecognized dir acc file data :
  recognized file = false → parse_one dir acc (file, data) = acc.
Proof. unfold parse_one. destruct acc. by intros ->. Qed.

(** X10: a file whose name ends neither in [.vcf] nor in [.vcf.gz] is
    passed over in silence: the table and the printed lines are those of the
    listing without it, whatever the file holds. *)
Theorem unrecognized_file_ignored dir before file data after :
  recognized file = false →
  parse_vcf_files dir (before ++ (file, data) :: after)
  = parse_vcf_files dir (before ++ after).
Proof.
  intros H. rewrite !parse_vcf_files_app, parse_vcf_files_cons.
  rewrite parse_one_unrecognized by done. done.
Qed.

Lemma unrecognized_file_ignored_witness :
  parse_vcf_files "in"
    ([] ++ ("notes.txt", Samples.file_of [Samples.short_header])
        :: [("s1.vcf", Samples.file_of [Samples.header; Samples.call_8_11])])
  = parse_vcf_files "in"
      ([] ++ [("s1.vcf", Samples.file_of [Samples.header; Samples.call_8_11])]).
Proof.
  apply (unrecognized_file_ignored "in" [] "notes.txt"
           (Samples.file_of [Samples.short_header])
           [("s1.vcf", Samples.file_of [Samples.header; Samples.call_8_11])]).
  vm_compute. reflexivity.
Defined.

Lemma parse_rows_concat dir listing :
  (parse_vcf_files dir listing).1 = concat (map (rows_of_entry dir) listing).
Proof.
  induction listing as [|[f d] l IH]; [done|].
  rewrite parse_vcf_files_cons. cbn [fst map concat]. rewrite IH. f_equal.
  unfold parse_one, rows_of_entry. cbn [fst snd].
  destruct (recognized f); [|done].
  by destruct (process_vcf_to_rows _ d) as [[rs summary]|e'].
Qed.

(** X11: the table is the concatenation, in the order of the listing, of
    the records of the recognized files that are processed without error;
    so every row carries the sample name of a recognized file of the
    listing.  With no such file the table has no rows. *)
Theorem table_is_concatenation dir listing :
  (parse_vcf_files dir listing).1 = concat (map (rows_of_entry dir) listing)
  ∧ (∀ r, r ∈ (parse_vcf_files dir listing).1 →
          ∃ file data, (file, data) ∈ listing ∧ recognized file = true
                       ∧ sample r = sample_name_of (Py.path_join dir file))
  ∧ (Forall (λ entry, rows_of_entry dir entry = []) listing →
     (parse_vcf_files dir listing).1 = []).
Proof.
  split; [apply parse_rows_concat|]. split.
  - intros r. rewrite parse_rows_concat.
    intros Hin. apply list_elem_of_In, in_concat in Hin as (rs & Hrs & Hr).
    apply list_elem_of_In in Hr.
    apply in_map_iff in Hrs as ([file data] & <- & Hentry).
    apply list_elem_of_In in Hentry.
    exists file, data. split; [done|].
    unfold rows_of_entry in Hr. cbn [fst snd] in Hr.
    destruct (recognized file); [|inversion Hr]. split; [done|].
    destruct (process_vcf_to_rows _ data) as [[rs summary]|e] eqn:Hp; [|inversion Hr].
    unfold process_vcf_to_rows in Hp.
    destruct (scan_lines _ _ init_state (file_lines data)) as [st|e] eqn:Hscan; [|done].
    cbn [mbind result_bind] in Hp. destruct (file_error data); [done|].
    injection Hp as <- _.
    apply scan_lines_trace in Hscan as (sources & new & Hnew & _ & Hall).
    cbn [rows init_state app] in Hnew. rewrite Hnew in Hr.
    clear Hnew. induction Hall as [|l x ls xs (_ & Hs & _) _ IH]; [inversion Hr|].
    apply elem_of_cons in Hr as [->|Hr]; [done|by apply IH].
  - intros Hall. rewrite parse_rows_concat.
    induction Hall as [|entry rest He _ IH]; [done|].
    cbn [map concat]. by rewrite He, IH.
Qed.

(** X12: scanning a listing made of two parts gives the rows of the first
    part followed by the rows of the second, and likewise the printed
    lines: no file changes what another file contributes. *)
Theorem scan_of_concatenated_listings dir listing1 listing2 :
  parse_vcf_files dir (listing1 ++ listing2)
  = ((parse_vcf_files dir listing1).1 ++ (parse_vcf_files dir listing2).1,
     (parse_vcf_files dir listing1).2 ++ (parse_vcf_files dir listing2).2).
Proof. apply parse_vcf_files_app. Qed.

Lemma parse_log_counts dir listing :
  length (List.filter is_skipping (parse_vcf_files dir listing).2)
  = length (List.filter (fails dir) listing)
  ∧ length (List.filter is_processing (parse_vcf_files dir listing).2)
    = length (List.filter (λ entry, recognized entry.1) listing).
Proof.
  induction listing as [|[f d] l [IH1 IH2]]; [done|].
  rewrite parse_vcf_files_cons. cbn [snd List.filter].
  rewrite !List.filter_app, !length_app, IH1, IH2.
  unfold parse_one, fails. cbn [fst snd].
  destruct (recognized f); [|done]. cbn [andb].
  destruct (process_vcf_to_rows _ d) as [[rs [[n pt]|]]|e]; done.
Qed.

Lemma parse_log_concat dir listing :
  (parse_vcf_files dir listing).2 = concat (map (log_of_entry dir) listing).
Proof.
  induction listing as [|[f d] l IH]; [done|].
  rewrite parse_vcf_files_cons. cbn [snd map concat]. rewrite IH. f_equal.
  unfold parse_one, log_of_entry. cbn [fst snd].
  destruct (recognized f); [|done].
  by destruct (process_vcf_to_rows _ d) as [[rs [[n pt]|]]|e'].
Qed.

(** X13: the printed lines are those of the entries of the listing, one
    entry after the other.  So the files announced are the recognized
    files of the listing, each once and in the order of the listing; the
    skip reports are those of the recognized files that raise, each once,
    in the order of the listing and with the exception the file raised;
    and there is no other skip report. *)
Theorem one_report_per_failure dir listing :
  (parse_vcf_files dir listing).2 = concat (map (log_of_entry dir) listing)
  ∧ announced (parse_vcf_files dir listing).2
    = List.filter recognized listing.*1
  ∧ reported (parse_vcf_files dir listing).2 = omap (failure dir) listing
  ∧ length (List.filter is_processing (parse_vcf_files dir listing).2)
    = length (List.filter (λ entry, recognized entry.1) listing)
  ∧ length (List.filter is_skipping (parse_vcf_files dir listing).2)
    = length (List.filter (fails dir) listing)
  ∧ (∀ file e, Skipping file e ∈ (parse_vcf_files dir listing).2 →
               ∃ data, (file, data) ∈ listing ∧ recognized file = true
                       ∧ process_vcf_to_rows (Py.path_join dir file) data = Raise e).
Proof.
  destruct (parse_log_counts dir listing) as [H1 H2].
  split; [apply parse_log_concat|].
  split; [|split].
  { rewrite parse_log_concat. unfold announced.
    induction listing as [|[f d] l IH]; [done|].
    cbn [map concat fmap list_fmap List.filter fst]. rewrite omap_app.
    destruct (parse_log_counts dir l) as [H1' H2']. rewrite (IH H1' H2').
    unfold log_of_entry. cbn [fst snd].
    destruct (recognized f); [|done].
    by destruct (process_vcf_to_rows _ d) as [[rs [[n pt]|]]|e']. }
  { rewrite parse_log_concat. unfold reported.
    induction listing as [|[f d] l IH]; [done|].
    cbn [map concat omap list_omap]. rewrite omap_app.
    destruct (parse_log_counts dir l) as [H1' H2']. rewrite (IH H1' H2').
    unfold log_of_entry, failure. cbn [fst snd].
    destruct (recognized f); [|done].
    by destruct (process_vcf_to_rows _ d) as [[rs [[n pt]|]]|e']. }
  split; [done|]. split; [done|].
  clear H1 H2.
  induction listing as [|[f d] l IH]; intros file e Hin.
  - inversion Hin.
  - rewrite parse_vcf_files_cons in Hin. cbn [snd] in Hin.
    apply elem_of_app in Hin as [Hin|Hin].
    + unfold parse_one in Hin. cbn [fst snd] in Hin.
      destruct (recognized f) eqn:Hrec; [|inversion Hin].
      destruct (process_vcf_to_rows _ d) as [[rs [[n pt]|]]|e'] eqn:Hp;
        cbn [snd app] in Hin;
        repeat (apply elem_of_cons in Hin as [Hin|Hin]; [try discriminate Hin|]);
        try (by inversion Hin).
      injection Hin as -> ->. exists d. split; [left|done].
    + destruct (IH file e Hin) as (data & Hd & Hrest).
      exists data. split; [by right|done].
Qed.

End ExtractorMore.

(** ** Further properties of the matrix builder *)

Module MatrixBuilderMore.
Import MatrixBuilder MatrixBuilderNotions MatrixBuilderProps.

(** *** The derived cells *)

Lemma sorted2_swap a b : Py.sorted2 a b = Py.sorted2 b a.
Proof.
  unfold Py.sorted2.
  destruct (Z.leb_spec a b), (Z.leb_spec b a); try done; try lia.
  assert (a = b) by lia. by subst.
Qed.

Lemma sorted2_ordered a b : ((Py.sorted2 a b).1 ≤ (Py.sorted2 a b).2)%Z.
Proof. unfold Py.sorted2. destruct (Z.leb_spec a b); cbn; lia. Qed.

Lemma sorted2_sum a b : ((Py.sorted2 a b).1 + (Py.sorted2 a b).2 = a + b)%Z.
Proof. unfold Py.sorted2. destruct (Z.leb_spec a b); cbn; lia. Qed.

Lemma compute_allele_changes_parsed row ta tb na nb :
  py_int (tumor_allele_a row) = Some ta →
  py_int (tumor_allele_b row) = Some tb →
  py_int (normal_allele_a row) = Some na →
  py_int (normal_allele_b row) = Some nb →
  compute_allele_changes row
  = {| change_a := Some ((Py.sorted2 ta tb).1 - (Py.sorted2 na nb).1)%Z;
       change_b := Some ((Py.sorted2 ta tb).2 - (Py.sorted2 na nb).2)%Z;
       ref_a := Some (Py.sorted2 na nb).1;
       ref_b := Some (Py.sorted2 na nb).2 |}.
Proof. unfold compute_allele_changes. by intros -> -> -> ->. Qed.

Lemma compute_allele_changes_unparsed row :
  py_int (tumor_allele_a row) = None ∨ py_int (tumor_allele_b row) = None
  ∨ py_int (normal_allele_a row) = None ∨ py_int (normal_allele_b row) = None →
  compute_allele_changes row = missing_changes.
Proof.
  unfold compute_allele_changes.
  destruct (py_int (tumor_allele_a row)), (py_int (tumor_allele_b row)),
    (py_int (normal_allele_a row)), (py_int (normal_allele_b row)); try done;
    intros [?|[?|[?|?]]]; done.
Qed.

(** X14: the two alleles of a sample are unordered: writing the tumor pair,
    the normal pair or both the other way round changes neither the derived
    changes and reference lengths nor the events of the row, under any
    configuration. *)
Theorem allele_order_irrelevant cfg row row' :
  sample row' = sample row → motif row' = motif row →
  (py_int (tumor_allele_a row'), py_int (tumor_allele_b row'))
  = (py_int (tumor_allele_b row), py_int (tumor_allele_a row)) →
  ((py_int (normal_allele_a row'), py_int (normal_allele_b row'))
   = (py_int (normal_allele_b row), py_int (normal_allele_a row))
   ∨ (py_int (normal_allele_a row'), py_int (normal_allele_b row'))
     = (py_int (normal_allele_a row), py_int (normal_allele_b row))) →
  compute_allele_changes row' = compute_allele_changes row
  ∧ row_events cfg row' = row_events cfg row.
Proof.
  intros Hs Hm [= Hta Htb] Hn.
  assert (Hch : compute_allele_changes row' = compute_allele_changes row).
  { unfold compute_allele_changes. rewrite Hta, Htb.
    destruct Hn as [[= -> ->]|[= -> ->]];
      destruct (py_int (tumor_allele_a row)) as [ta|], (py_int (tumor_allele_b row)) as [tb|],
        (py_int (normal_allele_a row)) as [na|], (py_int (normal_allele_b row)) as [nb|];
      try done; cbv zeta; by rewrite ?(sorted2_swap tb ta), ?(sorted2_swap nb na). }
  split; [done|].
  unfold row_events, df_long, melt, mutation_type_a, mutation_type_b.
  cbn [fmap list_fmap]. by rewrite Hch, Hs, Hm.
Qed.

Lemma allele_order_irrelevant_witness :
  compute_allele_changes (Samples.row_AT_swapped "s1")
  = compute_allele_changes (Samples.row_AT "s1")
  ∧ row_events Samples.cfg_default (Samples.row_AT_swapped "s1")
    = row_events Samples.cfg_default (Samples.row_AT "s1").
Proof.
  apply (allele_order_irrelevant Samples.cfg_default (Samples.row_AT "s1")
           (Samples.row_AT_swapped "s1")).
  - reflexivity.
  - reflexivity.
  - reflexivity.
  - left. reflexivity.
Defined.

(** X15: when the four alleles of a row parse, the reference length of
    slot A is at most that of slot B and the two are the normal alleles,
    each reference length plus its change is a tumor allele with slot A
    at most slot B, and the two changes add up to the difference of the
    allele sums of tumor and normal. *)
Theorem parsed_changes_arithmetic row ta tb na nb :
  py_int (tumor_allele_a row) = Some ta →
  py_int (tumor_allele_b row) = Some tb →
  py_int (normal_allele_a row) = Some na →
  py_int (normal_allele_b row) = Some nb →
  ∃ ca cb ra rb,
    compute_allele_changes row
    = {| change_a := Some ca; change_b := Some cb; ref_a := Some ra; ref_b := Some rb |}
    ∧ (ra = Z.min na nb ∧ rb = Z.max na nb)%Z
    ∧ (ra + ca = Z.min ta tb ∧ rb + cb = Z.max ta tb)%Z
    ∧ (ca + cb = (ta + tb) - (na + nb))%Z.
Proof.
  intros Hta Htb Hna Hnb.
  rewrite (compute_allele_changes_parsed row ta tb na nb) by done.
  do 4 eexists. split; [reflexivity|].
  unfold Py.sorted2.
  destruct (Z.leb_spec ta tb), (Z.leb_spec na nb); cbn [fst snd]; lia.
Qed.

Lemma parsed_changes_arithmetic_witness :
  ∃ ca cb ra rb,
    compute_allele_changes (Samples.row_AT_swapped "s1")
    = {| change_a := Some ca; change_b := Some cb; ref_a := Some ra; ref_b := Some rb |}
    ∧ (ra = Z.min 10 8 ∧ rb = Z.max 10 8)%Z
    ∧ (ra + ca = Z.min 11 8 ∧ rb + cb = Z.max 11 8)%Z
    ∧ (ca + cb = (11 + 8) - (10 + 8))%Z.
Proof.
  apply (parsed_changes_arithmetic (Samples.row_AT_swapped "s1") 11 8 10 8);
    reflexivity.
Defined.

(** *** Rows whose alleles do not parse *)

Lemma row_events_unfold cfg row :
  row_events cfg row
  = match mutation_type_a cfg row with
    | Some la => [(sample row, la)]
    | None => []
    end
    ++ match mutation_type_b cfg row with
       | Some lb => [(sample row, lb)]
       | None => []
       end.
Proof.
  unfold row_events, df_long, melt, dropna. cbn [fmap list_fmap app omap list_omap fst snd].
  by destruct (mutation_type_a cfg row), (mutation_type_b cfg row).
Qed.

Lemma make_feature_motif_only cfg motif :
  ref_length cfg = false → change cfg = false →
  ∀ ref delta, make_feature cfg motif ref delta
               = if isna motif then None
                 else match motif_parts (ru cfg) motif with
                      | [] => None
                      | ps => Some (String.concat "_" ps)
                      end.
Proof.
  intros Hr Hc ref delta. unfold make_feature. rewrite Hr, Hc.
  destruct (isna motif); [done|]. cbn [mbind option_bind].
  by destruct (motif_parts (ru cfg) motif).
Qed.

(** X16: a row one of whose alleles is no integer (a missing value, text
    that [int] rejects) has no event as soon as [ref_length] or [change] is
    on; with both off and the motif switch on it still counts twice, under
    the label of its motif alone. *)
Theorem unparsed_row_events cfg row :
  py_int (tumor_allele_a row) = None ∨ py_int (tumor_allele_b row) = None
  ∨ py_int (normal_allele_a row) = None ∨ py_int (normal_allele_b row) = None →
  (ref_length cfg = true ∨ change cfg = true → row_events cfg row = [])
  ∧ (ref_length cfg = false → change cfg = false →
     isna (motif row) = false →
     (ru cfg = Some "ru" →
      row_events cfg row
      = [(sample row, py_str (motif row)); (sample row, py_str (motif row))])
     ∧ (ru cfg = Some "length" →
        row_events cfg row
        = [(sample row, "LEN" +:+ Py.str_of_nat (String.length (py_str (motif row))));
           (sample row, "LEN" +:+ Py.str_of_nat (String.length (py_str (motif row))))])).
Proof.
  intros Hbad. rewrite row_events_unfold. unfold mutation_type_a, mutation_type_b.
  rewrite (compute_allele_changes_unparsed row Hbad).
  cbn [missing_changes ref_a ref_b change_a change_b]. split.
  - intros Hon. unfold make_feature. destruct (isna (motif row)); [done|].
    destruct (ref_length cfg) eqn:Hr; [done|].
    destruct Hon as [?|Hc]; [done|]. rewrite Hc. done.
  - intros Hr Hc Hm. rewrite !(make_feature_motif_only cfg _ Hr Hc), Hm.
    split; intros ->; done.
Qed.

Lemma unparsed_row_events_witness :
  let row := of_record Samples.record_half in
  row_events Samples.cfg_default row = []
  ∧ row_events {| ru := Some "ru"; ref_length := false; change := false |} row
    = [("s1", "AT"); ("s1", "AT")].
Proof.
  split.
  - apply (proj1 (unparsed_row_events Samples.cfg_default
                    (of_record Samples.record_half) (or_introl eq_refl))).
    left. reflexivity.
  - apply (proj1 (proj2 (unparsed_row_events
                           {| ru := Some "ru"; ref_length := false; change := false |}
                           (of_record Samples.record_half) (or_introl eq_refl))
                    eq_refl eq_refl eq_refl)).
    reflexivity.
Defined.

(** *** The shape of a label *)

Lemma concat_cons sep x (ps : list string) :
  String.concat sep (x :: ps)
  = x +:+ match ps with
          | [] => ""
          | _ => sep +:+ String.concat sep ps
          end.
Proof.
  destruct ps as [|y ps]; [|done].
  cbn [String.concat]. induction x as [|c x IH]; [done|].
  change (String c x +:+ "") with (String c (x +:+ "")). by rewrite <- IH.
Qed.

Lemma digits_signed_numeral s :
  Py.all_decimal_digits s = true → is_signed_numeral s = true.
Proof.
  destruct s as [|c d]; [done|]. unfold is_signed_numeral.
  destruct (Ascii.eqb c "+" || Ascii.eqb c "-") eqn:E; [|done].
  intros H. apply orb_true_iff in E as [->%Ascii.eqb_eq| ->%Ascii.eqb_eq];
    discriminate H.
Qed.

Lemma str_of_Z_signed_numeral z : is_signed_numeral (Py.str_of_Z z) = true.
Proof.
  destruct z as [|p|p]; [done| |].
  - apply digits_signed_numeral, str_of_Z_pos_digits.
  - pose proof (str_of_Z_pos_digits p) as H.
    unfold Py.str_of_Z in *. cbn [Z.to_int NilZero.string_of_int] in *. exact H.
Qed.

Lemma signed_signed_numeral d : d ≠ 0%Z → is_signed_numeral (signed d) = true.
Proof.
  intros Hd. destruct (signed_spec d Hd) as [-> H].
  by destruct (0 <? d)%Z.
Qed.

(** X17: a column label is the motif component, decided by the motif
    switch, followed by the reference length and the change of one allele
    slot of one row, as far as they are switched on, and by nothing else.
    With ru="length" the label begins with LEN and the number of
    characters of the motif of that row, with ru="ru" with the motif
    itself, in both cases alone or followed by an underscore and the
    numbers; with ru=None the label is the numbers alone.  Each number is a
    decimal numeral with an optional sign: the reference length of the
    slot, then its non-zero change. *)
Theorem labels_begin_with_motif df cfg m label :
  build_mutation_matrix df cfg = Ok m →
  label ∈ columns m →
  ∃ row slot, row ∈ df ∧ slot ∈ slots row ∧ isna (motif row) = false
    ∧ (ref_length cfg = true → is_Some slot.1)
    ∧ (change cfg = true → ∃ d, slot.2 = Some d ∧ d ≠ 0%Z)
    ∧ Forall (λ part, is_signed_numeral part = true) (number_parts cfg slot)
    ∧ length (number_parts cfg slot)
      = (if ref_length cfg then 1 else 0) + (if change cfg then 1 else 0)
    ∧ match ru cfg with
      | None => label = String.concat "_" (number_parts cfg slot)
      | Some mode =>
          label
          = (if String.eqb mode "length"
             then "LEN" +:+ Py.str_of_nat (String.length (py_str (motif row)))
             else py_str (motif row))
            +:+ match number_parts cfg slot with
                | [] => ""
                | others => "_" +:+ String.concat "_" others
                end
      end.
Proof.
  intros Hm Hin.
  assert (Hv : ru_valid (ru cfg) = true) by (by apply build_returns in Hm as (_ & ? & _)).
  destruct (build_columns cfg df m label Hm Hin) as (row & slot & Hrow & Hslot & Hf).
  exists row, slot. split; [done|]. split; [done|].
  destruct (make_feature_spec _ _ _ _ _ Hf) as (Hna & Href & Hlabel).
  split; [done|]. split; [done|].
  assert (Hchange : change cfg = true → ∃ d, slot.2 = Some d ∧ d ≠ 0%Z).
  { intros Hc. rewrite Hc in Hlabel. destruct Hlabel as (d & ? & ? & _). eauto. }
  split; [done|].
  assert (Hparts : label
                   = String.concat "_" (motif_parts (ru cfg) (motif row)
                                        ++ number_parts cfg slot)).
  { unfold number_parts, base_parts in *.
    destruct (ref_length cfg).
    - destruct (Href eq_refl) as [r Hr]. rewrite Hr in *. cbn [from_option] in *.
      destruct (change cfg).
      + destruct Hlabel as (d & -> & _ & ->). cbn [from_option]. by rewrite app_assoc.
      + by rewrite app_nil_r.
    - cbn [app]. destruct (change cfg).
      + destruct Hlabel as (d & -> & _ & ->). cbn [from_option]. by rewrite app_nil_r.
      + by rewrite Hlabel, !app_nil_r. }
  split; [|split].
  - unfold number_parts. apply Forall_app. split.
    + destruct (ref_length cfg); [|constructor].
      destruct (Href eq_refl) as [r ->]. cbn [from_option].
      repeat constructor. apply str_of_Z_signed_numeral.
    + destruct (change cfg); [|constructor].
      destruct (Hchange eq_refl) as (d & -> & Hd). cbn [from_option].
      repeat constructor. by apply signed_signed_numeral.
  - unfold number_parts. rewrite length_app.
    destruct (ref_length cfg), (change cfg); cbn [length];
      try (destruct (Href eq_refl) as [r ->]);
      try (destruct (Hchange eq_refl) as (d & -> & _)); reflexivity.
  - rewrite Hparts. unfold motif_parts. destruct (ru cfg) as [s|] eqn:Hru; [|done].
    cbn in Hv.
    destruct (String.eqb s "length");
      [cbn [app]; rewrite concat_cons; by destruct (number_parts cfg slot)|].
    cbn in Hv. rewrite Hv. cbn [app]. rewrite concat_cons.
    by destruct (number_parts cfg slot).
Qed.

Lemma labels_begin_with_motif_witness :
  ∃ row slot, row ∈ [Samples.row_AT "s1"] ∧ slot ∈ slots row ∧ isna (motif row) = false
    ∧ (true = true → is_Some slot.1)
    ∧ (true = true → ∃ d, slot.2 = Some d ∧ d ≠ 0%Z)
    ∧ Forall (λ part, is_signed_numeral part = true)
             (number_parts Samples.cfg_default slot)
    ∧ length (number_parts Samples.cfg_default slot) = 1 + 1
    ∧ "LEN2_10_+1"
      = "LEN" +:+ Py.str_of_nat (String.length (py_str (motif row)))
        +:+ match number_parts Samples.cfg_default slot with
            | [] => ""
            | others => "_" +:+ String.concat "_" others
            end.
Proof.
  apply (labels_begin_with_motif [Samples.row_AT "s1"] Samples.cfg_default
           {| index := ["s1"]; columns := ["LEN2_10_+1"]; cells := [[1]] |}
           "LEN2_10_+1").
  - vm_compute. reflexivity.
  - apply list_elem_of_In. simpl. left. reflexivity.
Defined.

(** *** How many events a row has *)




(** *** The counts *)

Lemma sum_list_fmap_add {A} (f g : A → nat) (l : list A) :
  sum_list ((λ x, f x + g x) <$> l) = sum_list (f <$> l) + sum_list (g <$> l).
Proof. induction l as [|x l IH]; [done|]. cbn [fmap list_fmap sum_list sum_list_with] in *. cbn. cbn in IH. lia. Qed.

Lemma sum_list_zero {A} (l : list A) : sum_list ((λ _, 0) <$> l) = 0.
Proof. induction l as [|x l IH]; [done|]. cbn in *. done. Qed.

Lemma sum_indicator (x : string) (l : list string) :
  NoDup l →
  sum_list ((λ y, if decide (x = y) then 1 else 0) <$> l)
  = if decide (x ∈ l) then 1 else 0.
Proof.
  induction 1 as [|y l Hy Hl IH]; [done|].
  rewrite fmap_cons. cbn [sum_list sum_list_with]. change (sum_list_with id) with (@sum_list) in *.
  rewrite IH. destruct (decide (x = y)) as [->|Hne].
  - rewrite (decide_False (P := y ∈ l)) by done.
    by rewrite (decide_True (P := y ∈ y :: l)) by left.
  - destruct (decide (x ∈ l)).
    + by rewrite (decide_True (P := x ∈ y :: l)) by (by right).
    + rewrite (decide_False (P := x ∈ y :: l)); [done|].
      intros [?|?]%elem_of_cons; done.
Qed.

Lemma count_events_cons e ev s label :
  count_events (e :: ev) s label
  = (if decide (e = (s, label)) then 1 else 0) + count_events ev s label.
Proof.
  unfold count_events. rewrite filter_cons.
  destruct (decide (e = (s, label))); done.
Qed.

Lemma count_events_present ev s label :
  (s, label) ∈ ev → (0 < count_events ev s label)%nat.
Proof.
  induction ev as [|e ev IH]; [by intros ?%elem_of_nil|].
  rewrite count_events_cons. intros [->|Hin]%elem_of_cons.
  - rewrite decide_True by done. lia.
  - specialize (IH Hin). lia.
Qed.

Lemma sum_row_indicator (e : string * string) (s : string) (cols : list string) :
  NoDup cols → e.2 ∈ cols →
  sum_list ((λ l, if decide (e = (s, l)) then 1 else 0) <$> cols)
  = if decide (e.1 = s) then 1 else 0.
Proof.
  intros Hnd Hin. destruct e as [es el]. cbn [fst snd] in *.
  destruct (decide (es = s)) as [->|Hne].
  - rewrite (list_fmap_ext _ (λ y, if decide (el = y) then 1 else 0)).
    + rewrite sum_indicator by done. by rewrite decide_True.
    + intros _ y _. destruct (decide ((s, el) = (s, y))) as [[= ->]|Hn].
      * by rewrite decide_True.
      * rewrite decide_False; [done|]. congruence.
  - rewrite (list_fmap_ext _ (λ _, 0)); [apply sum_list_zero|].
    intros _ y _. rewrite decide_False; [done|]. congruence.
Qed.

Lemma total_of_counts (ev : list (string * string)) (idx cols : list string) :
  NoDup idx → NoDup cols →
  Forall (λ e, e.1 ∈ idx ∧ e.2 ∈ cols) ev →
  sum_list ((λ s, sum_list ((λ l, count_events ev s l) <$> cols)) <$> idx)
  = length ev.
Proof.
  intros Hi Hc. induction 1 as [|e ev [He1 He2] _ IH].
  - rewrite (list_fmap_ext _ (λ _, 0)); [apply sum_list_zero|].
    intros _ s _. apply sum_list_zero.
  - rewrite (list_fmap_ext _
               (λ s, (if decide (e.1 = s) then 1 else 0)
                     + sum_list ((λ l, count_events ev s l) <$> cols))).
    + rewrite sum_list_fmap_add, IH.
      rewrite sum_indicator by done. by rewrite decide_True.
    + intros _ s _.
      rewrite (list_fmap_ext _
                 (λ l, (if decide (e = (s, l)) then 1 else 0) + count_events ev s l)).
      * by rewrite sum_list_fmap_add, sum_row_indicator.
      * intros _ l _. apply count_events_cons.
Qed.

Lemma sum_list_concat (ll : list (list nat)) :
  sum_list (concat ll) = sum_list (sum_list <$> ll).
Proof.
  induction ll as [|l ll IH]; [done|].
  cbn [concat]. rewrite sum_list_with_app, fmap_cons. cbn. cbn in IH. by rewrite IH.
Qed.

Lemma row_events_length cfg row : (length (row_events cfg row) ≤ 2)%nat.
Proof.
  rewrite row_events_unfold.
  destruct (mutation_type_a cfg row), (mutation_type_b cfg row); cbn; lia.
Qed.

Lemma df_long_length cfg df : (length (df_long cfg df) ≤ 2 * length df)%nat.
Proof.
  induction df as [|row df IH]; [done|].
  rewrite (Permutation_length (df_long_cons cfg row df)), length_app.
  pose proof (row_events_length cfg row). cbn [length]. lia.
Qed.

Lemma build_result cfg df m :
  build_mutation_matrix df cfg = Ok m →
  (df_long cfg df = [] ∧ m = empty_matrix)
  ∨ (df_long cfg df ≠ [] ∧ m = count_matrix (df_long cfg df)).
Proof.
  intros (_ & _ & Hm)%build_returns. revert Hm.
  destruct (df_long cfg df) as [|e ev]; intros [= ->]; [by left|by right].
Qed.

(** X19: the cells of the matrix add up to the number of allele-level
    events of the table, which is at most twice its number of rows: every
    event is counted in exactly one cell. *)
Theorem cells_total_is_event_count cfg df m :
  build_mutation_matrix df cfg = Ok m →
  sum_list (concat (cells m)) = length (df_long cfg df)
  ∧ (length (df_long cfg df) ≤ 2 * length df)%nat.
Proof.
  intros Hm. split; [|apply df_long_length].
  destruct (build_result cfg df m Hm) as [[-> ->]|[_ ->]]; [done|].
  unfold count_matrix. cbn [cells]. rewrite sum_list_concat, <- list_fmap_compose.
  apply total_of_counts; try apply sorted_unique_NoDup.
  apply Forall_forall. intros [s l] Hin. cbn [fst snd].
  rewrite !elem_of_sorted_unique, !list_elem_of_fmap.
  split; by exists (s, l).
Qed.

Lemma cells_total_is_event_count_witness :
  sum_list (concat [[2; 1; 1]; [1; 0; 1]])
  = length (df_long Samples.cfg_ref_only
              [Samples.row_AT "s2"; Samples.row_unchanged "s1"; Samples.row_AT "s1"])
  ∧ (length (df_long Samples.cfg_ref_only
               [Samples.row_AT "s2"; Samples.row_unchanged "s1"; Samples.row_AT "s1"])
     ≤ 2 * length [Samples.row_AT "s2"; Samples.row_unchanged "s1"; Samples.row_AT "s1"])%nat.
Proof.
  apply (cells_total_is_event_count Samples.cfg_ref_only
           [Samples.row_AT "s2"; Samples.row_unchanged "s1"; Samples.row_AT "s1"]
           {| index := ["s1"; "s2"]; columns := ["10"; "12"; "8"];
              cells := [[2; 1; 1]; [1; 0; 1]] |}).
  vm_compute. reflexivity.
Defined.

(** X20: a returned matrix is rectangular, one list of cells per row label
    and one cell per column label; its row labels are exactly the samples
    that have an event and its column labels exactly the labels of the
    events, so a sample all of whose records are suppressed has no row; and
    no row and no column is all zero. *)
Theorem matrix_axes_are_observed cfg df m :
  build_mutation_matrix df cfg = Ok m →
  length (cells m) = length (index m)
  ∧ Forall (λ row, length row = length (columns m)) (cells m)
  ∧ (∀ s, s ∈ index m ↔ ∃ label, (s, label) ∈ df_long cfg df)
  ∧ (∀ label, label ∈ columns m ↔ ∃ s, (s, label) ∈ df_long cfg df)
  ∧ (∀ s, s ∈ index m → ∃ label, label ∈ columns m ∧ (0 < cell m s label)%nat)
  ∧ (∀ label, label ∈ columns m → ∃ s, s ∈ index m ∧ (0 < cell m s label)%nat).
Proof.
  intros Hm.
  assert (Hidx : ∀ s, s ∈ index m ↔ ∃ label, (s, label) ∈ df_long cfg df).
  { intros s. destruct (build_result cfg df m Hm) as [[-> ->]|[_ ->]].
    - cbn. split; [by intros ?%elem_of_nil|]. intros [l Hl]. by apply elem_of_nil in Hl.
    - cbn [count_matrix index]. rewrite elem_of_sorted_unique, list_elem_of_fmap.
      split.
      + intros ([s' l] & -> & Hin). by exists l.
      + intros [l Hin]. by exists (s, l). }
  assert (Hcol : ∀ label, label ∈ columns m ↔ ∃ s, (s, label) ∈ df_long cfg df).
  { intros label. destruct (build_result cfg df m Hm) as [[-> ->]|[_ ->]].
    - cbn. split; [by intros ?%elem_of_nil|]. intros [l Hl]. by apply elem_of_nil in Hl.
    - cbn [count_matrix columns]. rewrite elem_of_sorted_unique, list_elem_of_fmap.
      split.
      + intros ([s l'] & -> & Hin). by exists s.
      + intros [s Hin]. by exists (s, label). }
  assert (Hcell : ∀ s label, cell m s label = count_events (df_long cfg df) s label).
  { intros s label. destruct (build_result cfg df m Hm) as [[-> ->]|[_ ->]]; [done|].
    apply cell_count_matrix. }
  split; [|split]; [| |split; [done|split; [done|split]]].
  - destruct (build_result cfg df m Hm) as [[_ ->]|[_ ->]]; [done|].
    cbn [count_matrix cells index]. by rewrite length_fmap.
  - destruct (build_result cfg df m Hm) as [[_ ->]|[_ ->]]; [constructor|].
    cbn [count_matrix cells columns]. apply Forall_fmap, Forall_forall.
    intros s _. cbn. by rewrite length_fmap.
  - intros s [label Hin]%Hidx. exists label. split; [apply Hcol; eauto|].
    rewrite Hcell. by apply count_events_present.
  - intros label [s Hin]%Hcol. exists s. split; [apply Hidx; eauto|].
    rewrite Hcell. by apply count_events_present.
Qed.

Lemma matrix_axes_are_observed_witness :
  let df := [Samples.row_AT "s2"; Samples.row_unchanged "s1"] in
  let m := {| index := ["s2"]; columns := ["LEN2_10_+1"]; cells := [[1]] |} in
  length (cells m) = length (index m)
  ∧ Forall (λ row, length row = length (columns m)) (cells m)
  ∧ (∀ s, s ∈ index m ↔ ∃ label, (s, label) ∈ df_long Samples.cfg_default df)
  ∧ (∀ label, label ∈ columns m ↔ ∃ s, (s, label) ∈ df_long Samples.cfg_default df)
  ∧ (∀ s, s ∈ index m → ∃ label, label ∈ columns m ∧ (0 < cell m s label)%nat)
  ∧ (∀ label, label ∈ columns m → ∃ s, s ∈ index m ∧ (0 < cell m s label)%nat).
Proof.
  apply (matrix_axes_are_observed Samples.cfg_default
           [Samples.row_AT "s2"; Samples.row_unchanged "s1"]
           {| index := ["s2"]; columns := ["LEN2_10_+1"]; cells := [[1]] |}).
  vm_compute. reflexivity.
Defined.

End MatrixBuilderMore.

(** ** From the extractor to the builder *)

Module PipelineProps.
Import MatrixBuilder MatrixBuilderNotions ExtractorProps MatrixBuilderMore.

Lemma digit_not_space c : Py.is_digit c = true → Py.char_int_space c = false.
Proof.
  intros H%in_range_spec. destruct (Py.char_int_space c) eqn:E; [|done].
  unfold Py.char_int_space in E. rewrite !orb_true_iff, !in_range_spec in E. lia.
Qed.

Lemma digit_code c : Py.is_digit c = true → (0 ≤ Z.of_N (Py.code c) - 48)%Z.
Proof. intros [H _]%in_range_spec. lia. Qed.

Lemma rstrip_digits s :
  forallb Py.is_digit (Py.chars s) = true → Py.rstrip_by Py.char_int_space s = s.
Proof.
  induction s as [|c s IH]; [done|]. cbn [Py.chars list_ascii_of_string forallb].
  intros [Hc Hs]%andb_true_iff. cbn [Py.rstrip_by]. rewrite (IH Hs).
  destruct s; [|done]. by rewrite digit_not_space.
Qed.

Lemma digit_cases c :
  Py.is_digit c = true →
  c ∈ ["0"; "1"; "2"; "3"; "4"; "5"; "6"; "7"; "8"; "9"]%char.
Proof.
  intros [H1 H2]%in_range_spec. unfold Py.code in *.
  pose proof (ascii_N_embedding c) as E.
  remember (N_of_ascii c) as n eqn:Hn. clear Hn. subst c.
  assert (n = 48 ∨ n = 49 ∨ n = 50 ∨ n = 51 ∨ n = 52 ∨ n = 53 ∨ n = 54
          ∨ n = 55 ∨ n = 56 ∨ n = 57)%N as Hcases by lia.
  repeat (destruct Hcases as [->|Hcases]; [apply list_elem_of_In; simpl; tauto|]).
  subst n. apply list_elem_of_In. simpl. tauto.
Qed.

Lemma int_of_str_unsigned c s :
  Py.is_digit c = true →
  match String c s with
  | String "+" d => Py.int_literal d
  | String "-" d => Z.opp <$> Py.int_literal d
  | d => Py.int_literal d
  end = Py.int_literal (String c s).
Proof.
  intros H%digit_cases.
  repeat (apply elem_of_cons in H as [->|H]; [reflexivity|]).
  inversion H.
Qed.

Lemma count_digits_all s :
  forallb Py.is_digit (Py.chars s) = true →
  Py.count_digits s = N.of_nat (String.length s).
Proof.
  induction s as [|c s IH]; [done|].
  cbn [Py.chars list_ascii_of_string forallb]. intros [Hc Hs]%andb_true_iff.
  cbn [Py.count_digits String.length]. rewrite Hc, (IH Hs). lia.
Qed.

(** The value of a run of digits. *)
Lemma int_digits_value s : ∀ acc after_digit,
  forallb Py.is_digit (Py.chars s) = true → (0 ≤ acc)%Z →
  s ≠ "" ∨ after_digit = true →
  ∃ v, (0 ≤ v < 10 ^ Z.of_nat (String.length s))%Z
       ∧ Py.int_digits s acc after_digit
         = Some (acc * 10 ^ Z.of_nat (String.length s) + v)%Z.
Proof.
  induction s as [|c s IH]; intros acc b Hd Hacc Hne.
  - destruct Hne as [? | ->]; [done|]. exists 0%Z. cbn. split; [lia|]. f_equal. lia.
  - cbn [Py.chars list_ascii_of_string forallb] in Hd.
    apply andb_true_iff in Hd as [Hc Hs]. cbn [Py.int_digits]. rewrite Hc.
    pose proof Hc as [Hlo Hhi]%in_range_spec.
    destruct (IH (10 * acc + (Z.of_N (Py.code c) - 48))%Z true Hs) as (v & Hv & ->);
      [lia|by right|].
    cbn [String.length]. rewrite Nat2Z.inj_succ, Z.pow_succ_r by lia.
    set (P := (10 ^ Z.of_nat (String.length s))%Z) in *.
    exists ((Z.of_N (Py.code c) - 48) * P + v)%Z. split; [nia|]. f_equal. lia.
Qed.

(** [int] on a non-empty string of decimal digits: its value when it has
    at most 4300 digits, and no value otherwise. *)
Lemma int_of_str_decimal s :
  Py.all_decimal_digits s = true →
  if (N.of_nat (String.length s) <=? Py.max_str_digits)%N
  then ∃ n, (0 ≤ n < 10 ^ Z.of_N Py.max_str_digits)%Z ∧ Py.int_of_str s = Some n
  else Py.int_of_str s = None.
Proof.
  destruct s as [|c s]; [done|]. unfold Py.all_decimal_digits. intros Hd.
  pose proof Hd as Hd'. cbn [Py.chars list_ascii_of_string forallb] in Hd'.
  apply andb_true_iff in Hd' as [Hc Hs].
  unfold Py.int_of_str. cbn [Py.lstrip_by]. rewrite (digit_not_space c Hc).
  rewrite (rstrip_digits (String c s) Hd), (int_of_str_unsigned c s Hc).
  unfold Py.int_literal. rewrite (count_digits_all _ Hd).
  destruct (N.leb_spec (N.of_nat (String.length (String c s))) Py.max_str_digits)
    as [Hle|Hgt]; [|done].
  destruct (int_digits_value (String c s) 0 false Hd) as (v & Hv & ->);
    [lia|by left|].
  exists v. split; [|f_equal; lia].
  split; [lia|]. eapply Z.lt_le_trans; [apply Hv|].
  apply Z.pow_le_mono_r; lia.
Qed.

Lemma sorted2_bounds (P a b : Z) :
  (0 ≤ a < P)%Z → (0 ≤ b < P)%Z →
  (0 ≤ (Py.sorted2 a b).1 ≤ (Py.sorted2 a b).2)%Z ∧ ((Py.sorted2 a b).2 < P)%Z.
Proof. unfold Py.sorted2. destruct (Z.leb_spec a b); cbn [fst snd]; lia. Qed.

(** X21: a record the extractor emits whose four allele fields are plain
    ASCII is one the builder can read, and its motif is never missing.
    When each allele has at most 4300 characters the four parse: the
    changes and reference lengths of the row are present, and the
    reference lengths and the tumor alleles they lead to are not negative.
    When an allele is longer, [int] refuses it and the builder takes the
    row as unparsed: its four derived cells are missing.  Either way every
    conversion to [str] that the builder can make for the row returns. *)
Theorem extracted_record_parses path f rows summary r :
  Extractor.process_vcf_to_rows path f = Ok (rows, summary) →
  r ∈ rows →
  Forall (λ s, Py.is_ascii_str s = true) (Extractor.alleles r) →
  isna (motif (of_record r)) = false
  ∧ row_fits (of_record r)
  ∧ if forallb (λ s, (N.of_nat (String.length s) <=? Py.max_str_digits)%N)
         (Extractor.alleles r)
    then ∃ ca cb ra rb,
           compute_allele_changes (of_record r)
           = {| change_a := Some ca; change_b := Some cb;
                ref_a := Some ra; ref_b := Some rb |}
           ∧ (0 ≤ ra ≤ rb)%Z ∧ (0 ≤ ra + ca ≤ rb + cb)%Z
    else compute_allele_changes (of_record r) = missing_changes.
Proof.
  intros Hp Hin Hascii. split; [done|].
  unfold Extractor.process_vcf_to_rows in Hp.
  destruct (Extractor.scan_lines _ _ Extractor.init_state (Extractor.file_lines f))
    as [st|e] eqn:Hscan; [|done].
  cbn [mbind result_bind] in Hp. destruct (Extractor.file_error f); [done|].
  injection Hp as <- _.
  apply scan_lines_rows in Hscan as (new & Hr & _ & Hall).
  cbn in Hr. rewrite Hr in Hin. rewrite Forall_forall in Hall.
  specialize (Hall r Hin). unfold Extractor.all_numeric, Extractor.alleles in *.
  cbn [forallb] in Hall. rewrite !andb_true_iff in Hall.
  destruct Hall as (Hta & Htb & Hna & Hnb & _).
  inversion Hascii as [|? ? Ata H1]; subst. inversion H1 as [|? ? Atb H2]; subst.
  inversion H2 as [|? ? Ana H3]; subst. inversion H3 as [|? ? Anb _]; subst.
  pose proof (int_of_str_decimal _ (isnumeric_ascii_decimal _ Hta Ata)) as Eta.
  pose proof (int_of_str_decimal _ (isnumeric_ascii_decimal _ Htb Atb)) as Etb.
  pose proof (int_of_str_decimal _ (isnumeric_ascii_decimal _ Hna Ana)) as Ena.
  pose proof (int_of_str_decimal _ (isnumeric_ascii_decimal _ Hnb Anb)) as Enb.
  assert (Hmissing : compute_allele_changes (of_record r) = missing_changes → row_fits (of_record r)).
  { intros Hm. unfold row_fits, slots. rewrite Hm. cbn. split; [done|]. repeat constructor. }
  cbn [forallb].
  set (P := (10 ^ Z.of_N Py.max_str_digits)%Z) in *.
  destruct (N.of_nat (String.length (Extractor.tumor_allele_a r)) <=? Py.max_str_digits)%N;
    [destruct Eta as (ta & Hta0 & Eta)|];
    [|assert (compute_allele_changes (of_record r) = missing_changes) as Hm
        by (unfold compute_allele_changes, of_record; cbn [tumor_allele_a py_int];
            by rewrite Eta); by split; [apply Hmissing|]].
  destruct (N.of_nat (String.length (Extractor.tumor_allele_b r)) <=? Py.max_str_digits)%N;
    [destruct Etb as (tb & Htb0 & Etb)|];
    [|assert (compute_allele_changes (of_record r) = missing_changes) as Hm
        by (unfold compute_allele_changes, of_record;
            cbn [tumor_allele_a tumor_allele_b py_int];
            by rewrite Eta, Etb); by split; [apply Hmissing|]].
  destruct (N.of_nat (String.length (Extractor.normal_allele_a r)) <=? Py.max_str_digits)%N;
    [destruct Ena as (na & Hna0 & Ena)|];
    [|assert (compute_allele_changes (of_record r) = missing_changes) as Hm
        by (unfold compute_allele_changes, of_record;
            cbn [tumor_allele_a tumor_allele_b normal_allele_a py_int];
            by rewrite Eta, Etb, Ena); by split; [apply Hmissing|]].
  destruct (N.of_nat (String.length (Extractor.normal_allele_b r)) <=? Py.max_str_digits)%N;
    [destruct Enb as (nb & Hnb0 & Enb)|];
    [|assert (compute_allele_changes (of_record r) = missing_changes) as Hm
        by (unfold compute_allele_changes, of_record;
            cbn [tumor_allele_a tumor_allele_b normal_allele_a normal_allele_b py_int];
            by rewrite Eta, Etb, Ena, Enb); by split; [apply Hmissing|]].
  cbn [andb].
  pose proof (compute_allele_changes_parsed (of_record r) ta tb na nb Eta Etb Ena Enb) as Hc.
  pose proof (sorted2_bounds P ta tb Hta0 Htb0) as (Ht1 & Ht2).
  pose proof (sorted2_bounds P na nb Hna0 Hnb0) as (Hn1 & Hn2).
  split.
  - unfold row_fits, slots. rewrite Hc. cbn [motif of_record ref_a ref_b change_a change_b].
    split; [done|]. unfold Py.str_fits. fold P.
    repeat constructor; cbn [fst snd from_option]; lia.
  - rewrite Hc. do 4 eexists. split; [reflexivity|]. lia.
Qed.

Lemma extracted_record_parses_witness :
  isna (motif (of_record Samples.record_8_11)) = false
  ∧ row_fits (of_record Samples.record_8_11)
  ∧ ∃ ca cb ra rb,
      compute_allele_changes (of_record Samples.record_8_11)
      = {| change_a := Some ca; change_b := Some cb;
           ref_a := Some ra; ref_b := Some rb |}
      ∧ (0 ≤ ra ≤ rb)%Z ∧ (0 ≤ ra + ca ≤ rb + cb)%Z.
Proof.
  apply (extracted_record_parses "in/s1.vcf"
           (Samples.file_of [Samples.header; Samples.call_8_11])
           [Samples.record_8_11] (Some (0%nat, 0%Q))).
  - vm_compute. reflexivity.
  - apply list_elem_of_In. simpl. left. reflexivity.
  - repeat constructor.
Defined.

End PipelineProps.
(** ** The earlier extraction script *)

Module LegacyProps.
Import Extractor ExtractorNotions ExtractorProps ExtractorMore LegacyNotions.

(** *** The loop body, by kind of line *)

Lemma legacy_line_inert name id st line :
  inert line = true → Legacy.process_line name id st line = Ok st.
Proof.
  unfold inert, is_header, reaches_format, rejected_by_filter, Legacy.process_line.
  intros [[Hh Hr]%andb_true_iff Hj]%andb_true_iff.
  apply negb_true_iff in Hh, Hr, Hj. rewrite Hh.
  destruct (Py.startswith line "#"); [done|]. cbn [negb andb] in *.
  destruct (length (Py.split tab (Py.strip line)) <? 10)%nat eqn:Hlen; [done|].
  apply Nat.ltb_ge in Hlen.
  assert ((10 <=? length (Py.split tab (Py.strip line)))%nat = true) as Hle
    by (by apply Nat.leb_le).
  rewrite Hle in Hr, Hj. cbn [andb] in *.
  destruct (String.eqb (col (Py.split tab (Py.strip line)) 6) "PASS"); [|done].
  cbn [negb andb] in *. apply negb_false_iff in Hr. by rewrite Hr.
Qed.

Lemma legacy_line_rejected name id st line :
  rejected_by_filter line = true →
  Legacy.process_line name id st line
  = Ok {| Legacy.written := Legacy.written st;
          Legacy.filter_not_passed_count := Legacy.filter_not_passed_count st + 1;
          Legacy.written_variants := Legacy.written_variants st;
          Legacy.bound := Legacy.bound st |}.
Proof.
  unfold rejected_by_filter, Legacy.process_line.
  intros [[Hc Hlen]%andb_true_iff Hp]%andb_true_iff.
  apply negb_true_iff in Hc.
  destruct (Py.startswith line "#CHROM") eqn:Hh.
  { apply startswith_header_comment in Hh. congruence. }
  rewrite Hc. apply Nat.leb_le in Hlen.
  assert ((length (Py.split tab (Py.strip line)) <? 10)%nat = false) as ->
    by (apply Nat.ltb_ge; lia).
  by rewrite Hp.
Qed.

Lemma legacy_line_reaching name id st line :
  reaches_format line = true →
  Legacy.process_line name id st line
  = Legacy.process_call name st (Py.split tab (Py.strip line))
      (parse_info (col (Py.split tab (Py.strip line)) 7)).
Proof.
  unfold reaches_format, Legacy.process_line.
  intros [[[Hc Hlen]%andb_true_iff Hp]%andb_true_iff Hf]%andb_true_iff.
  apply negb_true_iff in Hc, Hf.
  destruct (Py.startswith line "#CHROM") eqn:Hh.
  { apply startswith_header_comment in Hh. congruence. }
  rewrite Hc. apply Nat.leb_le in Hlen.
  assert ((length (Py.split tab (Py.strip line)) <? 10)%nat = false) as ->
    by (apply Nat.ltb_ge; lia).
  rewrite Hp. cbn [negb]. by rewrite Hf.
Qed.

Lemma legacy_line_header name id st line i :
  is_header line = true → short_header line = false →
  Legacy.index_of id (sample_cols line) = Some i →
  Legacy.process_line name id st line
  = Ok {| Legacy.written := Legacy.written st;
          Legacy.filter_not_passed_count := Legacy.filter_not_passed_count st;
          Legacy.written_variants := Legacy.written_variants st;
          Legacy.bound :=
            Some {| Legacy.tumor_idx := i + 9;
                    Legacy.normal_idx := if (i + 9 =? 10)%nat then 9 else 10;
                    Legacy.format_fields := None |} |}.
Proof.
  unfold short_header, is_header, Legacy.process_line, Legacy.process_header, sample_cols.
  intros Hh. rewrite Hh. cbn [andb].
  intros Hlen%Nat.ltb_ge Hi. rewrite length_drop.
  assert ((length (Py.split tab (Py.strip line)) - 9 <? 2)%nat = false) as ->
    by (apply Nat.ltb_ge; lia).
  by rewrite Hi.
Qed.

Lemma legacy_line_header_absent name id st line :
  is_header line = true → short_header line = false →
  Legacy.index_of id (sample_cols line) = None →
  Legacy.process_line name id st line
  = Raise (Legacy.not_in_header id (sample_cols line)).
Proof.
  unfold short_header, is_header, Legacy.process_line, Legacy.process_header, sample_cols.
  intros Hh. rewrite Hh. cbn [andb].
  intros Hlen%Nat.ltb_ge Hi. rewrite length_drop.
  assert ((length (Py.split tab (Py.strip line)) - 9 <? 2)%nat = false) as ->
    by (apply Nat.ltb_ge; lia).
  by rewrite Hi.
Qed.

Example legacy_header_messages :
  Legacy.process_vcf "in/a.b.OTHER.vcf" (Samples.file_of [Samples.header])
  = ([], Some (ValueError
                 "Tumor sample OTHER not found in VCF header: ['NORMAL', 'TUMOR']"))
  ∧ Legacy.process_vcf "in/a.b.TUMOR.vcf" (Samples.file_of [Samples.short_header])
    = ([], Some (ValueError "Expected at least 2 samples in VCF: ['NORMAL']")).
Proof. split; vm_compute; reflexivity. Qed.

Lemma legacy_scan_app name id st l1 l2 :
  Legacy.scan_lines name id st (l1 ++ l2)
  = match Legacy.scan_lines name id st l1 with
    | (st1, None) => Legacy.scan_lines name id st1 l2
    | (st1, Some e) => (st1, Some e)
    end.
Proof.
  revert st. induction l1 as [|x l1 IH]; intros st; cbn [app Legacy.scan_lines]; [done|].
  destruct (Legacy.process_line name id st x) as [st1|e]; [apply IH|done].
Qed.

Lemma index_of_first id (l : list string) :
  l !! 0 = Some id → Legacy.index_of id l = Some 0.
Proof.
  destruct l as [|y l]; [done|]. cbn. intros [= ->]. by rewrite String.eqb_refl.
Qed.

Lemma index_of_second id (l : list string) :
  l !! 0 ≠ Some id → l !! 1 = Some id → Legacy.index_of id l = Some 1.
Proof.
  destruct l as [|y [|z l]]; [done..|]. cbn. intros Hy [= ->].
  destruct (String.eqb_spec y id) as [->|_]; [done|].
  by rewrite String.eqb_refl.
Qed.

(** *** The two scans, side by side *)

Lemma agree_unbound_step {path} name tid c l line c' :
  agree_unbound c l → is_header line = false →
  process_line path name c line = Ok c' →
  ∃ l', Legacy.process_line name tid l line = Ok l' ∧ agree_unbound c' l'.
Proof.
  intros (Hr & Hw & Hv & Hlv & Hf & Hn & Hff & Hb) Hh Hc.
  destruct (line_kinds line) as [(? & _)|[(_ & Hreach & _)|[(_ & _ & Hrej)|Hin]]].
  - congruence.
  - rewrite process_line_reaching in Hc by done.
    rewrite (process_call_raise (path:=path) _ _ _ _ (TypeError "list indices must be integers or slices, not NoneType")) in Hc; [done|].
    apply sample_columns_unset. by destruct (with_format_fields c (Py.split tab (Py.strip line))) as (-> & _).
  - rewrite process_line_rejected_line in Hc by done. injection Hc as <-.
    rewrite legacy_line_rejected by done. eexists. split; [done|].
    unfold agree_unbound. cbn. by rewrite Hf.
  - rewrite process_line_inert in Hc by done. injection Hc as <-.
    rewrite legacy_line_inert by done. eexists. split; [done|].
    by unfold agree_unbound.
Qed.

Lemma agree_unbound_scan {path} name tid c l lines c' :
  agree_unbound c l → Forall (λ x, is_header x = false) lines →
  scan_lines path name c lines = Ok c' →
  ∃ l', Legacy.scan_lines name tid l lines = (l', None) ∧ agree_unbound c' l'.
Proof.
  intros Ha Hall. revert c l Ha.
  induction Hall as [|line rest Hh _ IH]; intros c l Ha Hc.
  { injection Hc as <-. by exists l. }
  apply scan_lines_cons_inv in Hc as (c1 & Hc1 & Hc).
  destruct (agree_unbound_step (path:=path) name tid c l line c1 Ha Hh Hc1) as (l1 & Hl1 & Ha1).
  destruct (IH c1 l1 Ha1 Hc) as (l' & Hl' & Ha').
  exists l'. split; [|done]. cbn [Legacy.scan_lines]. by rewrite Hl1.
Qed.

Lemma agree_bound_call {path} g t n name c l cols info c' :
  (t = 10 ∧ n = 9 ∧ g = id%function) ∨ (t = 9 ∧ n = 10 ∧ g = Legacy.exchange) →
  agree_bound g t n c l → (10 ≤ length cols)%nat →
  process_call path name c cols info = Ok c' →
  ∃ l', Legacy.process_call name l cols info = Ok l' ∧ agree_bound g t n c' l'.
Proof.
  intros Hcase (Hw & Hv & Hf & Hn & Ht & Hb) Hlen Hc.
  destruct (decide (length cols = 10)) as [Hten|Hne].
  { rewrite (process_call_raise (path:=path) _ _ _ _
               (no_sample_columns path)) in Hc;
      [done|].
    destruct (with_format_fields c cols) as (Hn' & Ht' & _).
    apply sample_columns_short; congruence. }
  assert (11 ≤ length cols)%nat as Hlen' by lia.
  destruct (lookup_lt_is_Some_2 cols 9) as [x Hx]; [lia|].
  destruct (lookup_lt_is_Some_2 cols 10) as [y Hy]; [lia|].
  unfold process_call in Hc. fold (with_format c cols) in Hc.
  destruct (with_format_fields c cols) as (Hn' & Ht' & Hr' & Hv' & Hf').
  rewrite sample_columns_ok in Hc by congruence.
  cbn [mbind result_bind] in Hc.
  unfold col in Hc at 1 2. rewrite !nth_lookup, Hx, Hy in Hc. cbn [from_option id] in Hc.
  unfold Legacy.process_call. rewrite Hb. cbn [Legacy.format_fields Legacy.tumor_idx Legacy.normal_idx].
  assert (default [] (format_fields (with_format c cols))
          = match format_fields c with
            | Some ff => ff
            | None => Py.split ":" (col cols 8)
            end) as Hfmt
    by (unfold with_format; destruct (format_fields c) eqn:E; cbn; by rewrite ?E).
  assert (format_fields (with_format c cols)
          = Some (match format_fields c with
                  | Some ff => ff
                  | None => Py.split ":" (col cols 8)
                  end)) as Hfmt'
    by (unfold with_format; destruct (format_fields c) eqn:E; cbn; by rewrite ?E).
  rewrite Hfmt in Hc.
  set (fmt := match format_fields c with
              | Some ff => ff
              | None => Py.split ":" (col cols 8)
              end) in *.
  destruct Hcase as [(-> & -> & ->)|(-> & -> & ->)]; unfold Legacy.getitem;
    rewrite Hx, Hy; cbn [mbind result_bind].
  - destruct (get_repcn fmt x) as [n_a n_b], (get_repcn fmt y) as [t_a t_b].
    assert (Py.isnumeric t_a && Py.isnumeric t_b && Py.isnumeric n_a && Py.isnumeric n_b
            = Py.isnumeric n_a && Py.isnumeric n_b && Py.isnumeric t_a && Py.isnumeric t_b)
      as -> by (by destruct (Py.isnumeric t_a), (Py.isnumeric t_b),
                     (Py.isnumeric n_a), (Py.isnumeric n_b)).
    destruct (negb _); injection Hc as <-; eexists; (split; [reflexivity|]);
      unfold agree_bound; cbn;
      rewrite ?Hr', ?Hv', ?Hf', ?Hn', ?Ht', ?Hfmt', ?Hw, ?Hv, ?Hf, ?fmap_app; done.
  - destruct (get_repcn fmt x) as [n_a n_b], (get_repcn fmt y) as [t_a t_b].
    destruct (negb _); injection Hc as <-; eexists; (split; [reflexivity|]);
      unfold agree_bound; cbn;
      rewrite ?Hr', ?Hv', ?Hf', ?Hn', ?Ht', ?Hfmt', ?Hw, ?Hv, ?Hf, ?fmap_app; done.
Qed.

Lemma agree_bound_step {path} g t n name tid c l line c' :
  (t = 10 ∧ n = 9 ∧ g = id%function) ∨ (t = 9 ∧ n = 10 ∧ g = Legacy.exchange) →
  agree_bound g t n c l → is_header line = false →
  process_line path name c line = Ok c' →
  ∃ l', Legacy.process_line name tid l line = Ok l' ∧ agree_bound g t n c' l'.
Proof.
  intros Hcase Ha Hh Hc.
  destruct (line_kinds line) as [(? & _)|[(_ & Hreach & _)|[(_ & _ & Hrej)|Hin]]].
  - congruence.
  - rewrite process_line_reaching in Hc by done.
    rewrite legacy_line_reaching by done.
    apply (agree_bound_call (path:=path) g t n name c l _ _ c' Hcase Ha); [|done].
    unfold reaches_format in Hreach.
    apply andb_true_iff in Hreach as [[[_ Hlen]%andb_true_iff _]%andb_true_iff _].
    by apply Nat.leb_le.
  - rewrite process_line_rejected_line in Hc by done. injection Hc as <-.
    rewrite legacy_line_rejected by done. eexists. split; [done|].
    destruct Ha as (Hw & Hv & Hf & Hn & Ht & Hb).
    unfold agree_bound. cbn. by rewrite Hf.
  - rewrite process_line_inert in Hc by done. injection Hc as <-.
    rewrite legacy_line_inert by done. by eexists.
Qed.

Lemma agree_bound_scan {path} g t n name tid c l lines c' :
  (t = 10 ∧ n = 9 ∧ g = id%function) ∨ (t = 9 ∧ n = 10 ∧ g = Legacy.exchange) →
  agree_bound g t n c l → Forall (λ x, is_header x = false) lines →
  scan_lines path name c lines = Ok c' →
  ∃ l', Legacy.scan_lines name tid l lines = (l', None) ∧ agree_bound g t n c' l'.
Proof.
  intros Hcase Ha Hall. revert c l Ha.
  induction Hall as [|line rest Hh _ IH]; intros c l Ha Hc.
  { injection Hc as <-. by exists l. }
  apply scan_lines_cons_inv in Hc as (c1 & Hc1 & Hc).
  destruct (agree_bound_step (path:=path) g t n name tid c l line c1 Hcase Ha Hh Hc1) as (l1 & Hl1 & Ha1).
  destruct (IH c1 l1 Ha1 Hc) as (l' & Hl' & Ha').
  exists l'. split; [|done]. cbn [Legacy.scan_lines]. by rewrite Hl1.
Qed.

(** One header line, and otherwise none: what the earlier script does where
    the package returns. *)
Lemma agree_one_header {path} g t n i name tid before hdr rest c' :
  (t = 10 ∧ n = 9 ∧ g = id%function ∧ i = 1) ∨ (t = 9 ∧ n = 10 ∧ g = Legacy.exchange ∧ i = 0) →
  Forall (λ x, is_header x = false) before →
  is_header hdr = true →
  Legacy.index_of tid (sample_cols hdr) = Some i →
  Forall (λ x, is_header x = false) rest →
  scan_lines path name init_state (before ++ hdr :: rest) = Ok c' →
  ∃ l', Legacy.scan_lines name tid Legacy.init_state (before ++ hdr :: rest) = (l', None)
        ∧ agree_bound g t n c' l'.
Proof.
  intros Hcase Hbefore Hh Hi Hrest Hc.
  rewrite scan_lines_app in Hc.
  destruct (scan_lines path name init_state before) as [c0|] eqn:Hc0; [|done].
  cbn [mbind result_bind] in Hc.
  apply scan_lines_cons_inv in Hc as (c1 & Hc1 & Hc).
  destruct (agree_unbound_scan (path:=path) name tid init_state Legacy.init_state before c0)
    as (l0 & Hl0 & Ha0); [by unfold agree_unbound|done..|].
  assert (short_header hdr = false) as Hshort.
  { destruct (short_header hdr) eqn:E; [|done].
    by rewrite process_line_short_header in Hc1. }
  rewrite process_line_header in Hc1 by done. injection Hc1 as <-.
  destruct Ha0 as (Hr & Hw & Hv & Hlv & Hf & Hn & Hff & Hb).
  assert ((t = 10 ∧ n = 9 ∧ g = id%function) ∨ (t = 9 ∧ n = 10 ∧ g = Legacy.exchange))
    as Hcase' by (destruct Hcase as [(? & ? & ? & ?)|(? & ? & ? & ?)]; [left|right]; done).
  destruct (agree_bound_scan (path:=path) g t n name tid (set_header c0 (Py.split tab (Py.strip hdr)))
              {| Legacy.written := Legacy.written l0;
                 Legacy.filter_not_passed_count := Legacy.filter_not_passed_count l0;
                 Legacy.written_variants := Legacy.written_variants l0;
                 Legacy.bound :=
                   Some {| Legacy.tumor_idx := t; Legacy.normal_idx := n;
                           Legacy.format_fields := None |} |} rest c')
    as (l' & Hl' & Ha'); [done| |done..|].
  { unfold agree_bound. cbn. by rewrite Hr, Hw, Hv, Hlv, Hf, Hff. }
  exists l'. split; [|done].
  rewrite legacy_scan_app, Hl0. cbn [Legacy.scan_lines].
  rewrite (legacy_line_header _ _ _ _ i) by done.
  destruct Hcase as [(-> & -> & _ & ->)|(-> & -> & _ & ->)]; exact Hl'.
Qed.

(** X22: the earlier script against the package, on a file with exactly
    one header line, read without error, whose name has a third
    dot-separated part (the tumor sample id the script looks up), and which
    the package returns rows for.  If the header names the tumor sample
    second, the script writes the same rows; if it names it first, the
    script writes the rows with the tumor and normal alleles exchanged.  In
    both cases it then raises ZeroDivisionError exactly when the package
    prints no summary. *)
Theorem legacy_same_or_exchanged path tid before hdr rest rows summary :
  tumor_id_of path tid →
  Forall (λ x, is_header x = false) before →
  is_header hdr = true →
  Forall (λ x, is_header x = false) rest →
  process_vcf_to_rows path {| file_lines := before ++ hdr :: rest; file_error := None |}
  = Ok (rows, summary) →
  (sample_cols hdr !! 0 ≠ Some tid → sample_cols hdr !! 1 = Some tid →
   Legacy.process_vcf path {| file_lines := before ++ hdr :: rest; file_error := None |}
   = (rows, division_outcome summary))
  ∧ (sample_cols hdr !! 0 = Some tid →
     Legacy.process_vcf path {| file_lines := before ++ hdr :: rest; file_error := None |}
     = (Legacy.exchange <$> rows, division_outcome summary)).
Proof.
  unfold tumor_id_of, process_vcf_to_rows, Legacy.process_vcf.
  cbn [file_lines file_error]. intros Hid Hbefore Hh Hrest Hc. rewrite Hid.
  destruct (scan_lines path (sample_name_of path) init_state (before ++ hdr :: rest))
    as [c'|] eqn:Hscan; [|done].
  cbn [mbind result_bind] in Hc. injection Hc as <- <-.
  assert (∀ g t n i,
            (t = 10 ∧ n = 9 ∧ g = id%function ∧ i = 1)
            ∨ (t = 9 ∧ n = 10 ∧ g = Legacy.exchange ∧ i = 0) →
            Legacy.index_of tid (sample_cols hdr) = Some i →
            (let '(st, err) :=
               Legacy.scan_lines (sample_name_of path) tid Legacy.init_state
                 (before ++ hdr :: rest) in
             match err with
             | Some e => (Legacy.written st, Some e)
             | None =>
                 if (Legacy.written_variants st + Legacy.filter_not_passed_count st =? 0)%nat
                 then (Legacy.written st, Some Legacy.zero_division)
                 else (Legacy.written st, None)
             end) = (g <$> Extractor.rows c', division_outcome (filter_summary c'))) as Hboth.
  { intros g t n i Hcase Hi.
    destruct (agree_one_header (path:=path) g t n i _ tid before hdr rest c' Hcase Hbefore Hh Hi Hrest Hscan)
      as (l' & -> & Hw & Hv & Hf & _).
    rewrite Hw, Hv, Hf. unfold filter_summary, division_outcome.
    destruct (written_variants c' + filter_not_passed_count c')%nat; done. }
  split.
  - intros H0 H1. rewrite (Hboth id 10 9 1); [by rewrite list_fmap_id| |].
    + left. done.
    + by apply index_of_second.
  - intros H0. apply (Hboth Legacy.exchange 9 10 0).
    + right. done.
    + by apply index_of_first.
Qed.

Lemma legacy_same_or_exchanged_witness :
  Legacy.process_vcf "in/a.b.TUMOR.vcf"
    (Samples.file_of [Samples.header; Samples.lowq_other_format; Samples.call_8_11])
  = ([LegacySamples.record_8_11], None).
Proof.
  refine (proj1 (legacy_same_or_exchanged "in/a.b.TUMOR.vcf" "TUMOR" [] Samples.header
                   [Samples.lowq_other_format; Samples.call_8_11] _ (Some (1, 100 # 2))
                   _ _ _ _ _) _ _).
  - reflexivity.
  - constructor.
  - reflexivity.
  - repeat constructor.
  - vm_compute. reflexivity.
  - vm_compute. discriminate.
  - vm_compute. reflexivity.
Defined.

(** *** Files without calls *)

Lemma quiet_legacy_scan name tid lines : ∀ st,
  Forall (quiet tid) lines →
  ∃ st', Legacy.scan_lines name tid st lines = (st', None)
         ∧ Legacy.written st' = Legacy.written st
         ∧ Legacy.written_variants st' = Legacy.written_variants st
         ∧ Legacy.filter_not_passed_count st' = Legacy.filter_not_passed_count st.
Proof.
  induction lines as [|line rest IH]; intros st Hall; [by exists st|].
  inversion Hall as [|? ? Hq Hrest]; subst. cbn [Legacy.scan_lines].
  destruct Hq as [Hin|(Hh & Hs & [i Hi])].
  - rewrite legacy_line_inert by done. by apply IH.
  - rewrite (legacy_line_header _ _ _ _ i) by done.
    destruct (IH {| Legacy.written := Legacy.written st;
                    Legacy.filter_not_passed_count := Legacy.filter_not_passed_count st;
                    Legacy.written_variants := Legacy.written_variants st;
                    Legacy.bound :=
                      Some {| Legacy.tumor_idx := i + 9;
                              Legacy.normal_idx := if (i + 9 =? 10)%nat then 9 else 10;
                              Legacy.format_fields := None |} |} Hrest)
      as (st' & -> & ? & ? & ?).
    by exists st'.
Qed.

Lemma quiet_package_scan {path} name tid lines : ∀ st,
  Forall (quiet tid) lines →
  ∃ st', scan_lines path name st lines = Ok st'
         ∧ rows st' = rows st
         ∧ written_variants st' = written_variants st
         ∧ filter_not_passed_count st' = filter_not_passed_count st.
Proof.
  induction lines as [|line rest IH]; intros st Hall; [by exists st|].
  inversion Hall as [|? ? Hq Hrest]; subst. cbn [scan_lines].
  destruct Hq as [Hin|(Hh & Hs & _)].
  - rewrite process_line_inert by done. by apply IH.
  - rewrite process_line_header by done. cbn [mbind result_bind].
    destruct (IH (set_header st (Py.split tab (Py.strip line))) Hrest)
      as (st' & -> & ? & ? & ?).
    by exists st'.
Qed.

(** X23: a file with no call that is accepted or rejected by FILTER - only
    comments, short lines, PERFECT=FALSE calls and well-formed header lines
    that name the tumor sample - makes the earlier script raise
    ZeroDivisionError after writing nothing, where the package returns an
    empty list of rows and prints no summary. *)
Theorem legacy_divides_by_zero path tid lines :
  tumor_id_of path tid →
  Forall (quiet tid) lines →
  Legacy.process_vcf path {| file_lines := lines; file_error := None |}
  = ([], Some Legacy.zero_division)
  ∧ process_vcf_to_rows path {| file_lines := lines; file_error := None |}
    = Ok ([], None).
Proof.
  unfold tumor_id_of, Legacy.process_vcf, process_vcf_to_rows.
  cbn [file_lines file_error]. intros -> Hall. split.
  - destruct (quiet_legacy_scan (sample_name_of path) tid lines Legacy.init_state Hall)
      as (st' & -> & -> & -> & ->).
    reflexivity.
  - destruct (quiet_package_scan (path:=path) (sample_name_of path) tid lines init_state Hall)
      as (st' & -> & Hr & Hv & Hf).
    cbn [mbind result_bind]. unfold filter_summary. by rewrite Hr, Hv, Hf.
Qed.

Lemma legacy_divides_by_zero_witness :
  Legacy.process_vcf "in/a.b.TUMOR.vcf" (Samples.file_of ["##fileformat=VCFv4.2"; Samples.header])
  = ([], Some Legacy.zero_division)
  ∧ process_vcf_to_rows "in/a.b.TUMOR.vcf"
      (Samples.file_of ["##fileformat=VCFv4.2"; Samples.header])
    = Ok ([], None).
Proof.
  apply (legacy_divides_by_zero "in/a.b.TUMOR.vcf" "TUMOR").
  - reflexivity.
  - constructor; [left; reflexivity|].
    constructor; [right|constructor].
    split; [reflexivity|]. split; [reflexivity|]. exists 1. reflexivity.
Defined.

(** *** The loop over the directory *)

Lemma main_one_acc dir rs log entry :
  Legacy.main_one dir (rs, log) entry
  = (rs ++ (Legacy.main_one dir ([], []) entry).1,
     log ++ (Legacy.main_one dir ([], []) entry).2).
Proof.
  unfold Legacy.main_one. destruct entry as [file data].
  destruct (Py.endswith file ".vcf"); cbn [fst snd]; [|by rewrite !app_nil_r].
  by destruct (Legacy.process_vcf _ data) as [rows err].
Qed.

Lemma foldl_main_one dir listing : ∀ acc,
  foldl (Legacy.main_one dir) acc listing
  = (acc.1 ++ (Legacy.main dir listing).1, acc.2 ++ (Legacy.main dir listing).2).
Proof.
  unfold Legacy.main.
  induction listing as [|entry rest IH]; intros [rs log]; cbn [foldl fst snd].
  { by rewrite !app_nil_r. }
  rewrite IH. rewrite (IH (Legacy.main_one dir ([], []) entry)).
  rewrite (main_one_acc dir rs log). cbn [fst snd].
  by rewrite !app_assoc.
Qed.

Lemma legacy_main_app dir l1 l2 :
  Legacy.main dir (l1 ++ l2)
  = ((Legacy.main dir l1).1 ++ (Legacy.main dir l2).1,
     (Legacy.main dir l1).2 ++ (Legacy.main dir l2).2).
Proof. unfold Legacy.main at 1. rewrite foldl_app. apply foldl_main_one. Qed.

Lemma legacy_main_cons dir entry rest :
  Legacy.main dir (entry :: rest)
  = ((Legacy.main_one dir ([], []) entry).1 ++ (Legacy.main dir rest).1,
     (Legacy.main_one dir ([], []) entry).2 ++ (Legacy.main dir rest).2).
Proof. unfold Legacy.main at 1. cbn [foldl]. apply foldl_main_one. Qed.

(** X24: the earlier script hands each row to the writer as soon as it is
    built, so the rows of a file that fails part-way stay in the output:
    when the lines [good] are scanned without exception and the next line
    raises [e], the output holds the rows of [good], between those of the
    files before and after, and the file is reported as skipped with [e]. *)
Theorem legacy_failure_keeps_rows dir file tid good bad more err st e before after :
  Py.endswith file ".vcf" = true →
  tumor_id_of (Py.path_join dir file) tid →
  Legacy.scan_lines (sample_name_of (Py.path_join dir file)) tid Legacy.init_state good
  = (st, None) →
  Legacy.process_line (sample_name_of (Py.path_join dir file)) tid st bad = Raise e →
  Legacy.main dir
    (before ++ (file, {| file_lines := good ++ bad :: more; file_error := err |}) :: after)
  = ((Legacy.main dir before).1 ++ Legacy.written st ++ (Legacy.main dir after).1,
     (Legacy.main dir before).2 ++ [Processing file; Skipping file e]
       ++ (Legacy.main dir after).2).
Proof.
  intros Hext Hid Hgood Hbad.
  rewrite legacy_main_app, legacy_main_cons. cbn [fst snd].
  unfold Legacy.main_one at 1 2. rewrite Hext.
  unfold Legacy.process_vcf. unfold tumor_id_of in Hid. rewrite Hid.
  cbn [file_lines file_error].
  rewrite legacy_scan_app, Hgood. cbn [Legacy.scan_lines]. rewrite Hbad.
  reflexivity.
Qed.

Lemma legacy_failure_keeps_rows_witness :
  Legacy.main "in"
    [("a.b.TUMOR.vcf",
      Samples.file_of [Samples.header; Samples.call_8_11; LegacySamples.call_ten_columns])]
  = ([LegacySamples.record_8_11],
     [Processing "a.b.TUMOR.vcf"; Skipping "a.b.TUMOR.vcf" Legacy.index_error]).
Proof.
  refine (legacy_failure_keeps_rows "in" "a.b.TUMOR.vcf" "TUMOR"
            [Samples.header; Samples.call_8_11] LegacySamples.call_ten_columns [] None
            {| Legacy.written := [LegacySamples.record_8_11];
               Legacy.filter_not_passed_count := 0;
               Legacy.written_variants := 1;
               Legacy.bound := Some {| Legacy.tumor_idx := 10; Legacy.normal_idx := 9;
                                       Legacy.format_fields := Some ["GT"; "REPCN"] |} |}
            Legacy.index_error [] [] _ _ _ _).
  - reflexivity.
  - reflexivity.
  - vm_compute. reflexivity.
  - vm_compute. reflexivity.
Defined.

(** *** Names the loop passes over *)


(** *** Names the loop passes over *)

Lemma gz_not_vcf file :
  Py.endswith file ".vcf.gz" = true → Py.endswith file ".vcf" = false.
Proof.
  unfold Py.endswith. intros [Hlen Heq]%andb_true_iff.
  apply Nat.leb_le in Hlen. apply String.eqb_eq in Heq.
  apply andb_false_iff. right. apply String.eqb_neq. intros Heq'.
  change (String.length ".vcf.gz") with 7 in *.
  change (String.length ".vcf") with 4 in *.
  pose proof (String.substring_correct1 file (String.length file - 7) 7 6 ltac:(lia)) as H7.
  pose proof (String.substring_correct1 file (String.length file - 4) 4 3 ltac:(lia)) as H4.
  rewrite Heq in H7. rewrite Heq' in H4.
  replace (6 + (String.length file - 7)) with (3 + (String.length file - 4)) in H7 by lia.
  rewrite <- H7 in H4. discriminate H4.
Qed.

(** X25: the earlier script passes over every [.vcf.gz] file in silence -
    its output and its printed lines are those of the listing without the
    file - while the package announces the file and reads it. *)
Theorem legacy_passes_over_gz dir before file data after :
  Py.endswith file ".vcf.gz" = true →
  Legacy.main dir (before ++ (file, data) :: after) = Legacy.main dir (before ++ after)
  ∧ Processing file ∈ (parse_vcf_files dir (before ++ (file, data) :: after)).2.
Proof.
  intros Hgz. split.
  - rewrite !legacy_main_app, legacy_main_cons. unfold Legacy.main_one.
    by rewrite (gz_not_vcf file Hgz).
  - rewrite parse_vcf_files_app, parse_vcf_files_cons. cbn [fst snd].
    unfold parse_one, recognized. rewrite Hgz, orb_true_r.
    apply elem_of_app. right. apply elem_of_app. left.
    destruct (process_vcf_to_rows _ data) as [[rs summary]|e]; cbn [snd app];
      apply elem_of_cons; by left.
Qed.

Lemma legacy_passes_over_gz_witness :
  Legacy.main "in" [("a.b.TUMOR.vcf.gz", Samples.file_of [Samples.header; Samples.call_8_11])]
  = Legacy.main "in" []
  ∧ Processing "a.b.TUMOR.vcf.gz"
    ∈ (parse_vcf_files "in"
         [("a.b.TUMOR.vcf.gz", Samples.file_of [Samples.header; Samples.call_8_11])]).2.
Proof.
  apply (legacy_passes_over_gz "in" [] "a.b.TUMOR.vcf.gz"
           (Samples.file_of [Samples.header; Samples.call_8_11]) []).
  reflexivity.
Defined.

(** X26: the earlier script takes the tumor sample id from the third
    dot-separated part of the file name, before it opens the file: a
    [.vcf] file whose name has fewer than three parts is never read - it
    contributes no row and is reported as skipped with IndexError. *)
Theorem legacy_needs_three_parts dir before file data after :
  Py.endswith file ".vcf" = true →
  (length (Py.split "." (Py.basename (Py.path_join dir file))) < 3)%nat →
  Legacy.main dir (before ++ (file, data) :: after)
  = ((Legacy.main dir before).1 ++ (Legacy.main dir after).1,
     (Legacy.main dir before).2 ++ [Processing file; Skipping file Legacy.index_error]
       ++ (Legacy.main dir after).2).
Proof.
  intros Hext Hlen.
  rewrite legacy_main_app, legacy_main_cons. cbn [fst snd].
  unfold Legacy.main_one at 1 2. rewrite Hext.
  unfold Legacy.process_vcf. by rewrite lookup_ge_None_2 by lia.
Qed.

Lemma legacy_needs_three_parts_witness :
  Legacy.main "in" [("s1.vcf", Samples.file_of [Samples.header; Samples.call_8_11])]
  = ([], [Processing "s1.vcf"; Skipping "s1.vcf" Legacy.index_error]).
Proof.
  apply (legacy_needs_three_parts "in" [] "s1.vcf"
           (Samples.file_of [Samples.header; Samples.call_8_11]) []).
  - reflexivity.
  - vm_compute. lia.
Defined.

End LegacyProps.
(** ** The checks at the head of [build_mutation_matrix] *)

Module FrameChecksProps.
Import MatrixBuilder FrameChecks.

Lemma missing_nil columns : missing columns = [] ↔ required_cols ⊆ columns.
Proof.
  unfold missing. split.
  - intros H c Hc.
    destruct (decide (c ∈ columns)) as [|Hn]; [done|].
    assert (c ∈ List.filter (λ c, negb (bool_decide (c ∈ columns))) required_cols) as Hin.
    { apply list_elem_of_In, filter_In. split; [by apply list_elem_of_In|].
      by rewrite bool_decide_eq_false_2. }
    rewrite H in Hin. by apply elem_of_nil in Hin.
  - intros H.
    destruct (List.filter _ required_cols) as [|c l] eqn:E; [done|].
    assert (In c (List.filter (λ c, negb (bool_decide (c ∈ columns))) required_cols)) as Hin
      by (rewrite E; by left).
    apply filter_In in Hin as [Hc Hn%negb_true_iff%bool_decide_eq_false].
    destruct Hn. apply H. by apply list_elem_of_In.
Qed.

(** X27: the outcome of the checks depends only on which columns the
    frame has and on [ru].  They succeed exactly when the five required
    columns are there, a motif column is there and [ru] is recognized, and
    then [motif] is chosen over [RU].  A missing required column is
    reported before a missing motif column, and that before a bad [ru]. *)
Theorem check_frame_outcome columns r :
  (∀ c, check_frame columns r = Ok c ↔
        required_cols ⊆ columns ∧ ru_valid r = true
        ∧ ((c = "motif" ∧ "motif" ∈ columns)
           ∨ (c = "RU" ∧ ("motif" ∉ columns) ∧ "RU" ∈ columns)))
  ∧ (¬ required_cols ⊆ columns →
     check_frame columns r = Raise (ValueError "mutations_data is missing required columns"))
  ∧ (required_cols ⊆ columns → "motif" ∉ columns → "RU" ∉ columns →
     check_frame columns r
     = Raise (ValueError "mutations_data must contain 'motif' or 'RU' column for repeat unit."))
  ∧ (∀ columns', (∀ c, c ∈ columns ↔ c ∈ columns') →
       check_frame columns' r = check_frame columns r).
Proof.
  assert (∀ cols, check_frame cols r
          = if decide (required_cols ⊆ cols) then
              if decide ("motif" ∈ cols) then
                if ru_valid r then Ok "motif"
                else Raise (ValueError "ru must be one of: None, 'length', 'ru'.")
              else if decide ("RU" ∈ cols) then
                if ru_valid r then Ok "RU"
                else Raise (ValueError "ru must be one of: None, 'length', 'ru'.")
              else Raise (ValueError "mutations_data must contain 'motif' or 'RU' column for repeat unit.")
            else Raise (ValueError "mutations_data is missing required columns")) as Hform.
  { intros cols. unfold check_frame, choose_motif_col.
    destruct (decide (required_cols ⊆ cols)) as [Hsub|Hsub].
    - apply missing_nil in Hsub as ->.
      destruct (decide ("motif" ∈ cols)) as [Hm|Hm].
      + rewrite bool_decide_eq_true_2 by done. cbn [mbind result_bind].
        by destruct (ru_valid r).
      + rewrite bool_decide_eq_false_2 by done.
        destruct (decide ("RU" ∈ cols)) as [Hr|Hr].
        * rewrite bool_decide_eq_true_2 by done. cbn [mbind result_bind].
          by destruct (ru_valid r).
        * by rewrite bool_decide_eq_false_2 by done.
    - destruct (missing cols) eqn:E; [|done]. by apply missing_nil in E. }
  split; [|split; [|split]].
  - intros c. rewrite Hform.
    destruct (decide (required_cols ⊆ columns)) as [Hsub|Hsub];
      [|split; [done|by intros [? _]]].
    destruct (decide ("motif" ∈ columns)) as [Hm|Hm].
    { destruct (ru_valid r);
        (split; [intros [= <-]|intros (_ & ? & [[-> _]|(_ & ? & _)])]); try done.
      split; [done|]. split; [done|]. by left. }
    destruct (decide ("RU" ∈ columns)) as [Hr|Hr].
    { destruct (ru_valid r);
        (split; [intros [= <-]|intros (_ & ? & [[_ ?]|(-> & _ & _)])]); try done.
      split; [done|]. split; [done|]. by right. }
    split; [done|]. by intros (_ & _ & [[_ ?]|(_ & _ & ?)]).
  - intros Hsub. rewrite Hform. by rewrite decide_False.
  - intros Hsub Hm Hr. rewrite Hform. by rewrite decide_True, !decide_False.
  - intros columns' Hsame. rewrite !Hform.
    destruct (decide (required_cols ⊆ columns)) as [Hsub|Hsub].
    + rewrite decide_True by (intros c Hc; apply Hsame; by apply Hsub).
      destruct (decide ("motif" ∈ columns)) as [Hm|Hm].
      * by rewrite decide_True by (by apply Hsame).
      * rewrite decide_False by (by rewrite <- Hsame).
        destruct (decide ("RU" ∈ columns)) as [Hr|Hr].
        -- by rewrite decide_True by (by apply Hsame).
        -- by rewrite decide_False by (by rewrite <- Hsame).
    + rewrite decide_False; [done|]. intros H. apply Hsub.
      intros c Hc. apply Hsame. by apply H.
Qed.

(** X28: a frame that has the ten columns of the table [parse_vcf_files]
    returns - in any order, with any further columns, [RU] among them -
    passes the column checks with [motif] as the motif column, so that on
    such a frame only an unrecognized [ru] is refused. *)
Theorem extractor_table_passes columns r :
  table_columns ⊆ columns →
  check_frame columns r
  = if ru_valid r then Ok "motif"
    else Raise (ValueError "ru must be one of: None, 'length', 'ru'.").
Proof.
  intros Hsub. unfold check_frame, choose_motif_col.
  assert (required_cols ⊆ columns) as Hreq.
  { intros c Hc. apply Hsub. apply list_elem_of_In. apply list_elem_of_In in Hc.
    unfold required_cols, table_columns in *. cbn [In] in *.
    repeat (destruct Hc as [<-|Hc]; [auto 12|]). done. }
  apply missing_nil in Hreq as ->.
  rewrite bool_decide_eq_true_2
    by (apply Hsub, list_elem_of_In; unfold table_columns; cbn [In]; auto 12).
  cbn [mbind result_bind]. by destruct (ru_valid r).
Qed.

Lemma extractor_table_passes_witness :
  check_frame ("RU" :: table_columns) (Some "length") = Ok "motif".
Proof.
  apply (extractor_table_passes ("RU" :: table_columns) (Some "length")).
  intros c Hc. by apply elem_of_cons; right.
Defined.

End FrameChecksProps.
